(** * Matching and ranking engine of the job assistant backend

    A shallow embedding of the scoring, ranking and fit-cache code of
    [backend/services/ai_service.py],
    [backend/services/recommendation_service.py] and
    [backend/services/resume_fit_service.py], with the properties the
    specification states about them.

    Python [float] is IEEE 754 binary64, which is what Rocq's primitive
    floats are: arithmetic below is the machine's, rounding included.
    Exceptions are values of [exn]; a call that may raise returns a
    [result], and a call that also reads or writes the document store is
    a function of the store. The embedding provider is a parameter: it
    answers with vectors or raises. *)

From Stdlib Require Import ZArith List String Ascii Bool Lia Floats.
From Stdlib Require Import Permutation Sorted.
Import ListNotations.

Set Warnings "-inexact-float".

(** ** Exceptions and results *)

Inductive exn : Type :=
| AttributeError (module_name attr : string)
| ValueError (msg : string)
| ZeroDivisionError
| OverflowError
| IndexError
| ProviderError (msg : string).

Inductive result (A : Type) : Type :=
| Ok (a : A)
| Raise (e : exn).

Arguments Ok {A} a.
Arguments Raise {A} e.

Definition bind {A B : Type} (c : result A) (k : A -> result B) : result B :=
  match c with
  | Ok a => k a
  | Raise e => Raise e
  end.

Declare Scope py_scope.
Delimit Scope py_scope with py.
Notation "x <- c ;; k" := (bind c (fun x => k))
  (at level 61, c at next level, right associativity) : py_scope.
Notation "c ;;; k" := (bind c (fun _ => k))
  (at level 61, right associativity) : py_scope.

Definition returns {A : Type} (c : result A) : Prop := exists a, c = Ok a.

(** ** Python numbers *)

Module Py.

Open Scope float_scope.

(** [float(n)] for an int: the nearest binary64, ties to even (beyond the
    range of binary64 CPython raises OverflowError; the lists that are
    counted here are far below it). *)
Definition float_of_int (n : Z) : float :=
  SF2Prim (binary_normalize prec emax n 0%Z false).

(** [a / b] on ints: the correctly rounded quotient. *)
Definition int_truediv (a b : Z) : result float :=
  match a, b with
  | _, Z0 => Raise ZeroDivisionError
  | Z0, _ => Ok 0
  | _, _ =>
      let '(mz, ez, lz) :=
        SFdiv_core_binary prec emax (Z.abs a) 0%Z (Z.abs b) 0%Z in
      match
        binary_round_aux prec emax (xorb (a <? 0)%Z (b <? 0)%Z) mz ez lz
      with
      | S754_infinity _ => Raise OverflowError
      | q => Ok (SF2Prim q)
      end
  end.

(** [x / y] on floats raises on a zero divisor. *)
Definition float_truediv (x y : float) : result float :=
  if y =? 0 then Raise ZeroDivisionError else Ok (x / y).

(** [math.sqrt]. *)
Definition math_sqrt (x : float) : result float :=
  if x <? 0 then Raise (ValueError "math domain error") else Ok (sqrt x).

(** Truth value of a float: [x != 0.0]. *)
Definition truthy (x : float) : bool := negb (x =? 0).

(** Two-argument [max] and [min] keep the first argument unless the
    second one is strictly greater (smaller). *)
Definition max2 (x y : float) : float := if x <? y then y else x.
Definition min2 (x y : float) : float := if y <? x then y else x.

(** [sum] of floats: accumulation from the left, starting at zero (the
    plain loop of CPython up to 3.11; later versions carry a compensation
    term along). *)
Definition sum (l : list float) : float := fold_left add l 0.

(** Nearest integer to [m * 2^e], ties to even, for [m >= 0]. *)
Definition round_half_even_scaled (m e : Z) : Z :=
  match e with
  | Zneg p =>
      let d := Z.pow_pos 2 p in
      let q := (m / d)%Z in
      let r := (m mod d)%Z in
      match (2 * r ?= d)%Z with
      | Lt => q
      | Gt => (q + 1)%Z
      | Eq => if Z.even q then q else (q + 1)%Z
      end
  | _ => (m * 2 ^ e)%Z
  end.

(** [round(x)]: an int, ties to even. *)
Definition round (x : float) : result Z :=
  match Prim2SF x with
  | S754_nan => Raise (ValueError "cannot convert float NaN to integer")
  | S754_infinity _ =>
      Raise OverflowError
  | S754_zero _ => Ok 0%Z
  | S754_finite s m e =>
      let n := round_half_even_scaled (Zpos m) e in
      Ok (if s then (- n)%Z else n)
  end.

(** [round(x, nd)] for [nd >= 0]: the float nearest to the decimal that
    is nearest to [x] at [nd] places. *)
Definition round_nd (x : float) (nd : N) : float :=
  match Prim2SF x with
  | S754_finite s m e =>
      let p := Z.pow 10 (Z.of_N nd) in
      let n := round_half_even_scaled (Zpos m * p) e in
      match int_truediv (if s then (- n)%Z else n) p with
      | Ok r => if (r =? 0) && s then (-0) else r
      | Raise _ => x
      end
  | _ => x
  end.

(** [int(x)]: truncation towards zero. *)
Definition int_of_float (x : float) : result Z :=
  match Prim2SF x with
  | S754_nan => Raise (ValueError "cannot convert float NaN to integer")
  | S754_infinity _ => Raise OverflowError
  | S754_zero _ => Ok 0%Z
  | S754_finite s m e =>
      let n :=
        match e with
        | Zneg p => (Zpos m / Z.pow_pos 2 p)%Z
        | _ => (Zpos m * 2 ^ e)%Z
        end in
      Ok (if s then (- n)%Z else n)
  end.

End Py.

(** ** Python strings

    A string is the sequence of its characters, each of the [ascii] type:
    lengths, slices and the order of strings count characters. [lower]
    and [strip] act on the ASCII letters and the ASCII white space. *)

Module PyStr.

Open Scope string_scope.

Definition is_space (c : ascii) : bool :=
  let n := N_of_ascii c in
  ((9 <=? n) && (n <=? 13) || (28 <=? n) && (n <=? 32))%N.

Fixpoint lstrip (s : string) : string :=
  match s with
  | EmptyString => EmptyString
  | String c rest => if is_space c then lstrip rest else s
  end.

Fixpoint rstrip (s : string) : string :=
  match s with
  | EmptyString => EmptyString
  | String c rest =>
      match rstrip rest with
      | EmptyString => if is_space c then EmptyString else String c EmptyString
      | rest' => String c rest'
      end
  end.

Definition strip (s : string) : string := rstrip (lstrip s).

Definition lower_char (c : ascii) : ascii :=
  let n := N_of_ascii c in
  if ((65 <=? n) && (n <=? 90))%N then ascii_of_N (n + 32) else c.

Fixpoint lower (s : string) : string :=
  match s with
  | EmptyString => EmptyString
  | String c rest => String (lower_char c) (lower rest)
  end.

Definition nonempty (s : string) : bool :=
  match s with EmptyString => false | _ => true end.

Definition join (sep : string) (l : list string) : string := String.concat sep l.

(** [s[:n]] *)
Definition take (n : nat) (s : string) : string := String.substring 0 n s.

Definition digit (n : Z) : ascii := ascii_of_N (48 + Z.to_N n).

Fixpoint digits_fuel (fuel : nat) (n : Z) (acc : string) : string :=
  match fuel with
  | O => acc
  | S fuel' =>
      let acc' := String (digit (n mod 10)) acc in
      if (n <? 10)%Z then acc' else digits_fuel fuel' (n / 10) acc'
  end.

(** [str(n)] for an int. *)
Definition str_of_int (n : Z) : string :=
  let a := Z.abs n in
  let body := digits_fuel (S (Z.to_nat (Z.log2 a))) a EmptyString in
  if (n <? 0)%Z then String "-" body else body.

Definition mem (x : string) (l : list string) : bool :=
  existsb (String.eqb x) l.

(** [sorted(l)] on strings: an insertion sort, stable, by code point. *)
Fixpoint insert_sorted (x : string) (l : list string) : list string :=
  match l with
  | [] => [x]
  | y :: ys => if String.ltb y x then y :: insert_sorted x ys else x :: l
  end.

Definition sorted (l : list string) : list string :=
  fold_right insert_sorted [] l.

(** The distinct elements of a list, first occurrences kept. *)
Fixpoint dedup (l : list string) : list string :=
  match l with
  | [] => []
  | x :: xs => x :: filter (fun y => negb (String.eqb x y)) (dedup xs)
  end.

End PyStr.

(** ** Loosely typed records

    The parsed job description and the stored documents are dicts of
    JSON values; [get] is [dict.get] with [PNone] for an absent key. *)

Inductive pyval : Type :=
| PNone
| PBool (b : bool)
| PInt (n : Z)
| PStr (s : string).

Definition dict := list (string * pyval).

Fixpoint get (d : dict) (key : string) : pyval :=
  match d with
  | [] => PNone
  | (k, v) :: rest => if String.eqb k key then v else get rest key
  end.

(** [bool(v)] *)
Definition truth (v : pyval) : bool :=
  match v with
  | PNone => false
  | PBool b => b
  | PInt n => negb (n =? 0)%Z
  | PStr s => PyStr.nonempty s
  end.

(** [str(v or "")] *)
Definition str_or_empty (v : pyval) : string :=
  if truth v then
    match v with
    | PStr s => s
    | PInt n => PyStr.str_of_int n
    | PBool _ => "True"
    | PNone => ""
    end
  else "".

(** ** ai_service.py: similarity and dimension scoring *)

Module AiService.

Import Py.
Open Scope float_scope.
Open Scope py_scope.

Definition vector := list float.

(** The embedding provider behind [client.embeddings.create]: given the
    texts it returns one vector per text, or raises. *)
Definition provider := list string -> result (list vector).

Definition _clean_similarity (value : option float) : option float :=
  match value with
  | None => None
  | Some v => Some (round_nd v 3)
  end.

Definition dot_product (a b : vector) : float :=
  sum (map (fun xy => fst xy * snd xy) (combine a b)).

Definition sum_squares (a : vector) : float :=
  sum (map (fun x => x * x) a).

Definition _cosine_similarity (a b : vector) : result float :=
  let dot := dot_product a b in
  norm_a <- math_sqrt (sum_squares a) ;;
  norm_b <- math_sqrt (sum_squares b) ;;
  if (norm_a =? 0) || (norm_b =? 0) then Ok 0
  else float_truediv dot (norm_a * norm_b).

Definition _batched_embeddings (embed : provider) (texts : list string)
  : result (list vector) :=
  match texts with
  | [] => Ok []
  | _ => embed texts
  end.

Record Requirement : Type := {
  label : string;
  req_critical : bool;
  notes : string
}.

Record MatchEntry : Type := {
  requirement : string;
  critical : bool;
  matched_text : option string;
  similarity : option float
}.

Record DimensionResult : Type := {
  score : Z;
  applicable : bool;
  matched : list MatchEntry;
  missing : list MatchEntry;
  weight : float
}.

(** The first loop of [_score_requirements]: requirements whose label is
    empty after trimming are dropped. *)
Fixpoint clean_requirements (label_field : string) (requirements : list dict)
  : list Requirement :=
  match requirements with
  | [] => []
  | item :: rest =>
      let label := PyStr.strip (str_or_empty (get item label_field)) in
      if PyStr.nonempty label then
        {| label := label;
           req_critical := truth (get item "critical");
           notes := str_or_empty (get item "notes") |}
        :: clean_requirements label_field rest
      else clean_requirements label_field rest
  end.

(** [[text.strip() for text in evidence_texts if str(text).strip()]] *)
Definition clean_evidence (evidence_texts : list string) : list string :=
  map PyStr.strip
      (filter (fun text => PyStr.nonempty (PyStr.strip text)) evidence_texts).

Definition item_weight (c : bool) : Z := if c then 2%Z else 1%Z.

Definition requirements_weight (l : list Requirement) : Z :=
  fold_left Z.add (map (fun item => item_weight (req_critical item)) l) 0%Z.

Definition entries_weight (l : list MatchEntry) : Z :=
  fold_left Z.add (map (fun item => item_weight (critical item)) l) 0%Z.

Definition list_index {A : Type} (l : list A) (i : nat) : result A :=
  match nth_error l i with
  | Some x => Ok x
  | None => Raise IndexError
  end.

(** The inner loop: the evidence vector most similar to the requirement,
    the first one winning a tie. *)
Fixpoint best_evidence (item : Requirement) (req_vector : vector)
    (evidence : list string) (evidence_embeddings : list vector)
    (evidence_idx : nat) (best_similarity : float)
    (best_match : option MatchEntry)
  : result (float * option MatchEntry) :=
  match evidence_embeddings with
  | [] => Ok (best_similarity, best_match)
  | ev_vector :: rest =>
      sim <- _cosine_similarity req_vector ev_vector ;;
      if best_similarity <? sim then
        text <- list_index evidence evidence_idx ;;
        best_evidence item req_vector evidence rest (S evidence_idx) sim
          (Some {| requirement := label item;
                   critical := req_critical item;
                   matched_text := Some text;
                   similarity := _clean_similarity (Some sim) |})
      else
        best_evidence item req_vector evidence rest (S evidence_idx)
          best_similarity best_match
  end.

(** The entry appended to [missing]: the best similarity is kept unless
    it is still the initial [-1.0]. *)
Definition missing_entry (item : Requirement) (best_similarity : float)
  : MatchEntry :=
  {| requirement := label item;
     critical := req_critical item;
     matched_text := None;
     similarity :=
       _clean_similarity
         (if (-1) <? best_similarity then Some best_similarity else None) |}.

(** The outer loop, over [enumerate(cleaned_requirements)]. *)
Fixpoint match_requirements (threshold : float)
    (requirement_embeddings : list vector) (evidence : list string)
    (evidence_embeddings : list vector) (idx : nat)
    (items : list Requirement) (matched missing : list MatchEntry)
  : result (list MatchEntry * list MatchEntry) :=
  match items with
  | [] => Ok (matched, missing)
  | item :: rest =>
      req_vector <- list_index requirement_embeddings idx ;;
      best <- best_evidence item req_vector evidence evidence_embeddings
                O (-1) None ;;
      let '(best_similarity, best_match) := best in
      match best_match with
      | Some entry =>
          if threshold <=? best_similarity then
            match_requirements threshold requirement_embeddings evidence
              evidence_embeddings (S idx) rest (matched ++ [entry]) missing
          else
            match_requirements threshold requirement_embeddings evidence
              evidence_embeddings (S idx) rest matched
              (missing ++ [missing_entry item best_similarity])
      | None =>
          match_requirements threshold requirement_embeddings evidence
            evidence_embeddings (S idx) rest matched
            (missing ++ [missing_entry item best_similarity])
      end
  end.

Definition default_threshold : float := 0.72.

Definition _score_requirements (embed : provider) (requirements : list dict)
    (evidence_texts : list string) (label_field : string) (threshold : float)
  : result DimensionResult :=
  let cleaned_requirements := clean_requirements label_field requirements in
  match cleaned_requirements with
  | [] =>
      Ok {| score := 100; applicable := false; matched := []; missing := [];
            weight := 0 |}
  | _ =>
      let evidence := clean_evidence evidence_texts in
      match evidence with
      | [] =>
          let missing_payload :=
            map (fun item =>
                   {| requirement := label item;
                      critical := req_critical item;
                      matched_text := None;
                      similarity := None |}) cleaned_requirements in
          let total_weight := requirements_weight cleaned_requirements in
          Ok {| score := 0; applicable := true; matched := [];
                missing := missing_payload;
                weight := float_of_int total_weight |}
      | _ =>
          let combined_texts := map label cleaned_requirements ++ evidence in
          embeddings <- _batched_embeddings embed combined_texts ;;
          let req_count := List.length cleaned_requirements in
          let requirement_embeddings := firstn req_count embeddings in
          let evidence_embeddings := skipn req_count embeddings in
          mm <- match_requirements threshold requirement_embeddings evidence
                  evidence_embeddings O cleaned_requirements [] [] ;;
          let '(matched, missing) := mm in
          let total_weight := requirements_weight cleaned_requirements in
          let matched_weight := entries_weight matched in
          score <- (if (total_weight =? 0)%Z then Ok 0%Z
                    else q <- int_truediv (100 * matched_weight) total_weight ;;
                         round q) ;;
          Ok {| score := score; applicable := true; matched := matched;
                missing := missing; weight := float_of_int total_weight |}
      end
  end.

Definition _score_keywords (embed : provider) (requirements : list dict)
    (resume_text : string) (extra_evidence : list string)
  : result DimensionResult :=
  let texts := resume_text :: extra_evidence in
  _score_requirements embed requirements texts "term" default_threshold.

Record WorkExperience : Type := {
  role : string;
  we_company : string;
  tasks : string
}.

Record Education : Type := {
  degree : string;
  school : string;
  year : string;
  gpa : string
}.

Record ResumeData : Type := {
  resume_skills : list string;
  work_experience : list WorkExperience;
  education : list Education
}.

Record JobData : Type := {
  jd_skills : list dict;
  jd_experience : list dict;
  jd_education : list dict;
  jd_keywords : list dict
}.

(** [" ".join(part for part in parts if part).strip()], kept when not empty *)
Definition compose_parts (parts : list string) : list string :=
  let text := PyStr.strip (PyStr.join " " (filter PyStr.nonempty parts)) in
  if PyStr.nonempty text then [text] else [].

Definition _compose_experience_evidence (resume_data : ResumeData)
  : list string :=
  flat_map (fun item => compose_parts [role item; we_company item; tasks item])
           (work_experience resume_data).

Definition _compose_education_evidence (resume_data : ResumeData)
  : list string :=
  flat_map (fun item =>
              compose_parts [degree item; school item; year item; gpa item])
           (education resume_data).

Definition DIMENSION_WEIGHTS : list (string * float) :=
  [("skills", 0.35); ("experience", 0.35); ("education", 0.15);
   ("keywords", 0.15)]%string.

(** [DIMENSION_WEIGHTS.get(key, 0.0)] *)
Fixpoint weights_get (table : list (string * float)) (key : string) : float :=
  match table with
  | [] => 0
  | (k, w) :: rest => if String.eqb k key then w else weights_get rest key
  end.

(** The accumulation loop over [breakdown.items()]: the pair
    [(active_weight, weighted_score)]. *)
Fixpoint accumulate (breakdown : list (string * DimensionResult))
    (active_weight weighted_score : float) : float * float :=
  match breakdown with
  | [] => (active_weight, weighted_score)
  | (key, res) :: rest =>
      if applicable res then
        let weight := weights_get DIMENSION_WEIGHTS key in
        accumulate rest (active_weight + weight)
                   (weighted_score + weight * float_of_int (score res))
      else accumulate rest active_weight weighted_score
  end.

Definition overall_score_of (breakdown : list (string * DimensionResult))
  : result Z :=
  let '(active_weight, weighted_score) := accumulate breakdown 0 0 in
  if truthy active_weight then
    q <- float_truediv weighted_score active_weight ;;
    round q
  else Ok 0%Z.

Definition clean_entry (entry : MatchEntry) : MatchEntry :=
  {| requirement := requirement entry;
     critical := critical entry;
     matched_text := matched_text entry;
     similarity := _clean_similarity (similarity entry) |}.

Definition clean_result (value : DimensionResult) : DimensionResult :=
  {| score := score value;
     applicable := applicable value;
     matched := map clean_entry (matched value);
     missing := map clean_entry (missing value);
     weight := weight value |}.

Record OverallScore : Type := {
  overall_score : Z;
  breakdown : list (string * DimensionResult);
  weights : list (string * float)
}.

Definition make_breakdown (skills experience education keywords : DimensionResult)
  : list (string * DimensionResult) :=
  [("skills", skills); ("experience", experience); ("education", education);
   ("keywords", keywords)]%string.

Definition score_resume_against_job (embed : provider)
    (resume_data : ResumeData) (job_data : JobData) (resume_text : string)
  : result OverallScore :=
  skills_result <-
    _score_requirements embed (jd_skills job_data) (resume_skills resume_data)
      "name" default_threshold ;;
  experience_result <-
    _score_requirements embed (jd_experience job_data)
      (_compose_experience_evidence resume_data) "description"
      default_threshold ;;
  education_result <-
    _score_requirements embed (jd_education job_data)
      (_compose_education_evidence resume_data) "name" default_threshold ;;
  keywords_result <-
    _score_keywords embed (jd_keywords job_data) resume_text
      (resume_skills resume_data ++ _compose_experience_evidence resume_data) ;;
  let breakdown :=
    make_breakdown skills_result experience_result education_result
                   keywords_result in
  overall <- overall_score_of breakdown ;;
  Ok {| overall_score := overall;
        breakdown := map (fun kv => (fst kv, clean_result (snd kv))) breakdown;
        weights := DIMENSION_WEIGHTS |}.

Definition embed_for_matching (embed : provider) (texts : list string)
  : result (list vector) :=
  _batched_embeddings embed texts.

Definition cosine_similarity (vec_a vec_b : vector) : result float :=
  _cosine_similarity vec_a vec_b.

End AiService.

(** ** The document store

    The three collections the services touch. A timestamp is a number of
    microseconds; [datetime.utcnow()] is the [now] a call is given. *)

Definition time := Z.

(** [company_size] is what [str] shows of the value stored under that
    key, and [None] when the key is absent. *)
Record Metadata : Type := {
  industry : list string;
  company_size : option string
}.

Record Job : Type := {
  _id : string;
  title : string;
  company : string;
  description : string;
  summary : string;
  skills : list string;
  categories : list string;
  levels : list string;
  metadata : option Metadata;
  embedding : option AiService.vector;
  embedding_updated_at : option time
}.

Record Profile : Type := {
  user_id : string;
  profile_skills : option (list string);
  resume_embedding : option AiService.vector
}.

Record FitCacheEntry : Type := {
  fit_score : Z;
  fit_summary : string;
  fit_matched : list string;
  fit_gaps : list string;
  last_calculated : option time;
  updated_at : option time
}.

Record JobUser : Type := {
  ju_user_id : string;
  ju_job_id : string;
  state : option string;
  resume_score_cache : option FitCacheEntry
}.

Record Db : Type := {
  jobs_collection : list Job;
  profiles_collection : list Profile;
  job_user_collection : list JobUser
}.

(** Calls that read or write the store and may raise: the store as it is
    when the call ends is returned either way. *)
Definition M (A : Type) : Type := Db -> result A * Db.

Definition ret {A : Type} (a : A) : M A := fun db => (Ok a, db).

Definition raise {A : Type} (e : exn) : M A := fun db => (Raise e, db).

Definition lift {A : Type} (c : result A) : M A := fun db => (c, db).

Definition mbind {A B : Type} (c : M A) (k : A -> M B) : M B :=
  fun db =>
    match c db with
    | (Ok a, db') => k a db'
    | (Raise e, db') => (Raise e, db')
    end.

Declare Scope io_scope.
Delimit Scope io_scope with io.
Notation "x <- c ;; k" := (mbind c (fun x => k))
  (at level 61, c at next level, right associativity) : io_scope.
Notation "c ;;; k" := (mbind c (fun _ => k))
  (at level 61, right associativity) : io_scope.

(** ** recommendation_service.py: preferences and ranking *)

Module RecommendationService.

Import Py.
Open Scope string_scope.
Open Scope float_scope.

Definition vector := AiService.vector.
Definition provider := AiService.provider.

Definition DEFAULT_LIMIT : nat := 20.
Definition MAX_CANDIDATES : nat := 150.
Definition SIMILARITY_WEIGHT : float := 70.
Definition PREFERENCE_BONUS : float := 10.

Record PreferencePayload : Type := {
  role_families : list string;
  locations : list string;
  remote_ok : bool;
  seniority_levels : list string;
  company_sizes : list string;
  industries_like : list string;
  industries_avoid : list string;
  pref_skills : list string
}.

(** Truth value of a list, and of an optional vector. *)
Definition nonempty_list {A : Type} (l : list A) : bool :=
  match l with [] => false | _ => true end.

Definition usable (v : option vector) : option vector :=
  match v with
  | Some (x :: l) => Some (x :: l)
  | _ => None
  end.

Definition _job_to_text (job : Job) : string :=
  let description :=
    if PyStr.nonempty (description job) then description job else summary job in
  let chunks :=
    ([title job; company job]
     ++ (if PyStr.nonempty description then [description] else [])
     ++ (if nonempty_list (skills job)
         then ["Skills: " ++ PyStr.join ", " (skills job)]%string else [])
     ++ (if nonempty_list (categories job)
         then ["Categories: " ++ PyStr.join ", " (categories job)]%string
         else [])
     ++ (if nonempty_list (levels job)
         then ["Levels: " ++ PyStr.join ", " (levels job)]%string
         else []))%list in
  PyStr.join (String " " (String "010" EmptyString))
             (filter PyStr.nonempty chunks).

Definition _embed_text (embed : provider) (text : string)
  : result (option vector) :=
  let snippet := PyStr.strip text in
  if PyStr.nonempty snippet then
    bind (AiService.embed_for_matching embed [snippet])
         (fun vectors =>
            match vectors with
            | v :: _ => Ok (Some v)
            | [] => Ok None
            end)
  else Ok None.

(** [jobs_collection.update_one({"_id": job_id}, {"$set": ...})]: the first
    document with that id is updated; nothing is inserted. *)
Fixpoint set_job_embedding (job_id : string) (v : vector) (now : time)
    (docs : list Job) : list Job :=
  match docs with
  | [] => []
  | d :: rest =>
      if String.eqb (_id d) job_id then
        {| _id := _id d; title := title d; company := company d;
           description := description d; summary := summary d;
           skills := skills d; categories := categories d; levels := levels d;
           metadata := metadata d;
           embedding := Some v; embedding_updated_at := Some now |} :: rest
      else d :: set_job_embedding job_id v now rest
  end.

(** The store itself is taken to answer: what can raise on this path is
    the embedding provider. *)
Definition update_job_embedding (job_id : string) (v : vector) (now : time)
  : M unit :=
  fun db =>
    (Ok tt,
     {| jobs_collection := set_job_embedding job_id v now (jobs_collection db);
        profiles_collection := profiles_collection db;
        job_user_collection := job_user_collection db |}).

Open Scope io_scope.

Definition _ensure_job_embedding (embed : provider) (now : time) (job : Job)
  : M (option vector) :=
  match usable (embedding job) with
  | Some cached => ret (Some cached)
  | None =>
      let text := _job_to_text job in
      vector <- lift (_embed_text embed text) ;;
      match usable vector with
      | Some v => update_job_embedding (_id job) v now ;;; ret vector
      | None => ret vector
      end
  end.

Definition _extract_profile_skills (profile : Profile) : list string :=
  match profile_skills profile with
  | Some l => l
  | None => []
  end.

Definition lowered (l : list string) : list string := map PyStr.lower l.

(** Whether the intersection of two sets of strings is not empty. *)
Definition intersects (xs ys : list string) : bool :=
  existsb (fun x => PyStr.mem x ys) xs.

(** [sorted(list(xs & ys))]: the common elements, each once, in order. *)
Definition sorted_intersection (xs ys : list string) : list string :=
  PyStr.sorted (PyStr.dedup (filter (fun x => PyStr.mem x ys) xs)).

Definition bonus (fire : bool) (delta : float) (reason : string)
    (acc : float * list string) : float * list string :=
  if fire then (fst acc + delta, (snd acc ++ [reason])%list) else acc.

Definition penalty (fire : bool) (delta : float) (reason : string)
    (acc : float * list string) : float * list string :=
  if fire then (fst acc - delta, (snd acc ++ [reason])%list) else acc.

(** The rules of [_evaluate_preferences] before the skill rule. *)
Definition categorical_rules (job : Job) (preferences : PreferencePayload)
  : float * list string :=
  let acc := (0%float, @nil string) in
  let categories := lowered (categories job) in
  let acc :=
    bonus (nonempty_list (role_families preferences)
           && intersects categories (lowered (role_families preferences)))
          PREFERENCE_BONUS "Matches preferred role focus" acc in
  let levels := lowered (levels job) in
  let acc :=
    bonus (nonempty_list (seniority_levels preferences)
           && intersects levels (lowered (seniority_levels preferences)))
          PREFERENCE_BONUS "Requested seniority level" acc in
  let industries :=
    match metadata job with
    | Some md => lowered (industry md)
    | None => []
    end in
  let acc :=
    match metadata job with
    | Some md =>
        let company_size :=
          PyStr.lower (match company_size md with Some s => s | None => "" end) in
        bonus (nonempty_list (company_sizes preferences)
               && PyStr.nonempty company_size
               && existsb (fun item => String.eqb company_size (PyStr.lower item))
                          (company_sizes preferences))
              PREFERENCE_BONUS "Preferred company size" acc
    | None => acc
    end in
  let acc :=
    bonus (nonempty_list (industries_like preferences)
           && intersects industries (lowered (industries_like preferences)))
          PREFERENCE_BONUS "Preferred industry" acc in
  penalty (nonempty_list (industries_avoid preferences)
           && intersects industries (lowered (industries_avoid preferences)))
          PREFERENCE_BONUS "Industry on avoid list" acc.

Definition skill_overlap_reason (job_skills profile_skill_set : list string)
  : string :=
  "Skill overlap: "
  ++ PyStr.take 60 (PyStr.join ", "
                      (sorted_intersection job_skills profile_skill_set)).

Definition _evaluate_preferences (job : Job) (preferences : PreferencePayload)
    (profile_skills : list string) : float * list string :=
  let acc := categorical_rules job preferences in
  let job_skills := lowered (skills job) in
  let profile_skill_set := lowered profile_skills in
  bonus (nonempty_list job_skills && nonempty_list profile_skill_set
         && intersects job_skills profile_skill_set)
        PREFERENCE_BONUS (skill_overlap_reason job_skills profile_skill_set)
        acc.

Record RankedEntry : Type := {
  entry_job : Job;
  entry_score : float;
  entry_reasons : list string
}.

(** [list.sort(key=..., reverse=True)]: stable, largest key first. *)
Fixpoint insert_desc {A : Type} (key : A -> float) (x : A) (l : list A)
  : list A :=
  match l with
  | [] => [x]
  | y :: ys =>
      if key x <? key y then y :: insert_desc key x ys else x :: l
  end.

Definition sort_desc {A : Type} (key : A -> float) (l : list A) : list A :=
  fold_right (insert_desc key) [] l.

(** The similarity part of one iteration: [(sim_score, reasons)]. *)
Definition similarity_signal (embed : provider) (now : time)
    (resume_vector : option vector) (job : Job) (reasons : list string)
  : M (float * list string) :=
  match usable resume_vector with
  | Some rv =>
      job_vector <- _ensure_job_embedding embed now job ;;
      match usable job_vector with
      | Some jv =>
          similarity <- lift (AiService.cosine_similarity rv jv) ;;
          if 0 <? similarity then
            percent <- lift (int_of_float (similarity * 100)) ;;
            ret (similarity * SIMILARITY_WEIGHT,
                 (reasons
                  ++ ["Resume alignment " ++ PyStr.str_of_int percent ++ "%"
                     ]%string)%list)
          else ret (0%float, reasons)
      | None => ret (0%float, reasons)
      end
  | None => ret (0%float, reasons)
  end.

Definition total_score (sim_score pref_score : float) : float :=
  min2 100 (max2 0 (sim_score + pref_score)).

Definition rank_one (embed : provider) (now : time)
    (preferences : PreferencePayload) (profile_skills : list string)
    (resume_vector : option vector) (job : Job) : M RankedEntry :=
  let '(pref_score, pref_reasons) :=
    _evaluate_preferences job preferences profile_skills in
  sr <- similarity_signal embed now resume_vector job pref_reasons ;;
  let '(sim_score, reasons) := sr in
  ret {| entry_job := job;
         entry_score := round_nd (total_score sim_score pref_score) 2;
         entry_reasons := reasons |}.

Fixpoint rank_loop (embed : provider) (now : time)
    (preferences : PreferencePayload) (profile_skills : list string)
    (resume_vector : option vector) (jobs : list Job)
    (ranked : list RankedEntry) : M (list RankedEntry) :=
  match jobs with
  | [] => ret ranked
  | job :: rest =>
      entry <- rank_one embed now preferences profile_skills resume_vector job ;;
      rank_loop embed now preferences profile_skills resume_vector rest
                (ranked ++ [entry])%list
  end.

Definition _rank_jobs (embed : provider) (now : time) (jobs : list Job)
    (preferences : PreferencePayload) (profile : Profile)
    (resume_vector : option vector) : M (list RankedEntry) :=
  let profile_skills := _extract_profile_skills profile in
  ranked <- rank_loop embed now preferences profile_skills resume_vector
              jobs [] ;;
  ret (sort_desc entry_score ranked).

Definition is_hex_digit (c : ascii) : bool :=
  let n := N_of_ascii c in
  ((48 <=? n) && (n <=? 57) || (65 <=? n) && (n <=? 70)
   || (97 <=? n) && (n <=? 102))%N.

(** [ObjectId(job_id)] succeeds on 24 hexadecimal digits. *)
Definition is_object_id (s : string) : bool :=
  (String.length s =? 24)%nat && forallb is_hex_digit (list_ascii_of_string s).

Definition get_job_detail (job_id : string) : M (option Job) :=
  fun db =>
    if is_object_id job_id then
      (Ok (find (fun d => String.eqb (_id d) job_id) (jobs_collection db)), db)
    else (Ok None, db).

Fixpoint upsert_score_cache (user_id job_id : string) (stored : FitCacheEntry)
    (docs : list JobUser) : list JobUser :=
  match docs with
  | [] =>
      [{| ju_user_id := user_id; ju_job_id := job_id; state := None;
          resume_score_cache := Some stored |}]
  | d :: rest =>
      if String.eqb (ju_user_id d) user_id && String.eqb (ju_job_id d) job_id
      then {| ju_user_id := ju_user_id d; ju_job_id := ju_job_id d;
              state := state d; resume_score_cache := Some stored |} :: rest
      else d :: upsert_score_cache user_id job_id stored rest
  end.

Definition cache_resume_score (now : time) (user_id job_id : string)
    (payload : FitCacheEntry) : M unit :=
  fun db =>
    let stored :=
      {| fit_score := fit_score payload; fit_summary := fit_summary payload;
         fit_matched := fit_matched payload; fit_gaps := fit_gaps payload;
         last_calculated := last_calculated payload;
         updated_at := Some now |} in
    (Ok tt,
     {| jobs_collection := jobs_collection db;
        profiles_collection := profiles_collection db;
        job_user_collection :=
          upsert_score_cache user_id job_id stored (job_user_collection db) |}).

(** The names bound at module level in recommendation_service.py: its
    imports, its constants and every function it defines. *)
Definition module_names : list string :=
  ["asyncio"; "datetime"; "Any"; "Dict"; "List"; "Optional"; "Tuple";
   "ObjectId"; "jobs_collection"; "job_user_collection";
   "profiles_collection"; "GuestRecommendationRequest"; "PreferencePayload";
   "cosine_similarity"; "embed_for_matching"; "logger";
   "DEFAULT_LIMIT"; "MAX_CANDIDATES"; "SIMILARITY_WEIGHT"; "PREFERENCE_BONUS";
   "_normalize_strings"; "_profile_to_text"; "_job_to_text"; "_embed_text";
   "_ensure_resume_embedding"; "_ensure_job_embedding"; "_base_job_query";
   "_load_jobs"; "_extract_profile_skills"; "_evaluate_preferences";
   "_rank_jobs"; "_fetch_user_states"; "_serialize_job_result";
   "recommend_for_user"; "recommend_for_guest"; "get_job_detail";
   "upsert_job"; "mark_job_status"; "save_job_for_user"; "delete_saved_job";
   "list_user_jobs"; "cache_resume_score"].

End RecommendationService.

(** ** resume_fit_service.py: the fit cache *)

Module ResumeFitService.

Import Py.
Open Scope string_scope.
Open Scope float_scope.
Open Scope io_scope.

Definition vector := AiService.vector.

Definition CACHE_TTL_HOURS : Z := 24.

Definition rs_module : string := "services.recommendation_service".

(** [timedelta(hours=h)], in microseconds. *)
Definition timedelta_hours (h : Z) : Z := (h * 3600 * 1000000)%Z.

Definition _collect_profile_skills (profile : Profile) : list string :=
  match profile_skills profile with
  | Some value => value
  | None => []
  end.

Fixpoint normalize_loop (values unique : list string) : list string :=
  match values with
  | [] => unique
  | item :: rest =>
      let cleaned := PyStr.strip item in
      if PyStr.nonempty cleaned
         && negb (PyStr.mem (PyStr.lower cleaned) (map PyStr.lower unique))
      then normalize_loop rest (unique ++ [cleaned])%list
      else normalize_loop rest unique
  end.

Definition _normalize_skill_set (values : list string) : list string :=
  normalize_loop values [].

(** [{item.lower(): item for item in items}[key]]: the last item with
    that key. *)
Fixpoint lookup_lower (items : list string) (key : string) (found : string)
  : string :=
  match items with
  | [] => found
  | item :: rest =>
      lookup_lower rest key
        (if String.eqb (PyStr.lower item) key then item else found)
  end.

Record Overlap : Type := {
  ov_matched : list string;
  ov_gaps : list string
}.

Definition _skill_overlap (profile_skills job_skills : list string) : Overlap :=
  let profile_keys := PyStr.dedup (map PyStr.lower profile_skills) in
  let job_keys := PyStr.dedup (map PyStr.lower job_skills) in
  let matched :=
    map (fun key => lookup_lower profile_skills key "")
        (filter (fun key => PyStr.mem key job_keys) profile_keys) in
  let gaps :=
    map (fun key => lookup_lower job_skills key "")
        (filter (fun key => negb (PyStr.mem key profile_keys)) job_keys) in
  {| ov_matched := PyStr.sorted matched; ov_gaps := PyStr.sorted gaps |}.

Definition _load_profile (user_id0 : string) : M (option Profile) :=
  fun db =>
    (Ok (find (fun p => String.eqb (user_id p) user_id0)
              (profiles_collection db)), db).

Section Module_lookup.

(** The namespace of the module [recommendation_service] at the time of
    the call, and what the three functions the fit cache asks it for
    would do if they were bound there. *)
Variable names : list string.
Variable get_cached_resume_score_impl :
  string -> string -> M (option FitCacheEntry).
Variable get_resume_embedding_impl : Profile -> M (option vector).
Variable get_job_embedding_impl : Job -> M (option vector).

(** [recommendation_service.attr(...)]: the attribute is looked up first. *)
Definition call {A : Type} (attr : string) (body : M A) : M A :=
  if PyStr.mem attr names then body
  else raise (AttributeError rs_module attr).

Definition summary_text (similarity : float) (percent : Z) (overlap : Overlap)
  : string :=
  let summary_bits :=
    ((if truthy similarity
      then ["Overall similarity " ++ PyStr.str_of_int percent ++ "%"]%string
      else [])
     ++ (if RecommendationService.nonempty_list (ov_matched overlap)
         then ["Matched skills: " ++ PyStr.join ", " (ov_matched overlap)
              ]%string
         else [])
     ++ (if RecommendationService.nonempty_list (ov_gaps overlap)
         then ["Consider highlighting: "
               ++ PyStr.join ", " (firstn 5 (ov_gaps overlap))]%string
         else []))%list in
  let summary_bits :=
    match summary_bits with
    | [] =>
        ["No direct overlap detected; tailor your resume to highlight relevant skills."]
    | _ => summary_bits
    end in
  PyStr.take 400 (PyStr.join " | " summary_bits).

Definition compute_resume_fit (now : time) (user_id : string) (job : Job)
  : M FitCacheEntry :=
  profile <- _load_profile user_id ;;
  match profile with
  | None => raise (ValueError "Profile not found for resume scoring")
  | Some profile =>
      resume_vector <-
        call "get_resume_embedding" (get_resume_embedding_impl profile) ;;
      job_vector <- call "get_job_embedding" (get_job_embedding_impl job) ;;
      similarity <-
        match RecommendationService.usable resume_vector,
              RecommendationService.usable job_vector with
        | Some rv, Some jv =>
            lift (bind (AiService.cosine_similarity rv jv)
                       (fun c => Ok (max2 0 c)))
        | _, _ => ret 0%float
        end ;;
      let profile_skills :=
        _normalize_skill_set (_collect_profile_skills profile) in
      let job_skills := _normalize_skill_set (skills job) in
      let overlap := _skill_overlap profile_skills job_skills in
      match_ratio <-
        (if RecommendationService.nonempty_list job_skills
         then lift (int_truediv (Z.of_nat (List.length (ov_matched overlap)))
                                (Z.of_nat (List.length job_skills)))
         else ret 0%float) ;;
      score <- lift (round (similarity * 60 + match_ratio * 40)) ;;
      percent <-
        (if truthy similarity then lift (int_of_float (similarity * 100))
         else ret 0%Z) ;;
      ret {| fit_score := Z.min 100 (Z.max 0 score);
             fit_summary := summary_text similarity percent overlap;
             fit_matched := ov_matched overlap;
             fit_gaps := ov_gaps overlap;
             last_calculated := Some now;
             updated_at := None |}
  end.

(** The timestamp test of the cache: [Some age] when the entry carries a
    timestamp. *)
Definition cache_age (now : time) (cached : FitCacheEntry) : option Z :=
  match updated_at cached with
  | Some timestamp => Some (now - timestamp)%Z
  | None =>
      match last_calculated cached with
      | Some timestamp => Some (now - timestamp)%Z
      | None => None
      end
  end.

Definition is_fresh (now : time) (cached : FitCacheEntry) : bool :=
  match cache_age now cached with
  | Some age => (age <? timedelta_hours CACHE_TTL_HOURS)%Z
  | None => false
  end.

Definition recompute (now : time) (user_id job_id : string)
  : M FitCacheEntry :=
  job <- RecommendationService.get_job_detail job_id ;;
  match job with
  | None => raise (ValueError "Job not found")
  | Some job =>
      payload <- compute_resume_fit now user_id job ;;
      RecommendationService.cache_resume_score now user_id job_id payload ;;;
      ret payload
  end.

Definition get_or_create_resume_fit (now : time) (user_id job_id : string)
  : M FitCacheEntry :=
  cached <-
    call "get_cached_resume_score"
         (get_cached_resume_score_impl user_id job_id) ;;
  match cached with
  | Some entry =>
      if is_fresh now entry then ret entry
      else recompute now user_id job_id
  | None => recompute now user_id job_id
  end.

End Module_lookup.

End ResumeFitService.

(** ** recommendation_service.py: normalised strings and the job links
    of a user *)

Module UserJobs.

Open Scope string_scope.

(** [_normalize_strings]: [values or []], then the loop that
    [_normalize_skill_set] also runs. *)
Definition _normalize_strings (values : option (list string)) : list string :=
  ResumeFitService.normalize_loop
    (match values with Some l => l | None => [] end) [].

(** [mapping[key] = value] on a dict, which keeps its keys in the order
    they were first set. *)
Fixpoint dict_set {V : Type} (mapping : list (string * V)) (key : string)
    (value : V) : list (string * V) :=
  match mapping with
  | [] => [(key, value)]
  | (k, v) :: rest =>
      if String.eqb k key then (k, value) :: rest
      else (k, v) :: dict_set rest key value
  end.

(** [mapping.get(key)] *)
Fixpoint dict_get {V : Type} (mapping : list (string * V)) (key : string)
  : option V :=
  match mapping with
  | [] => None
  | (k, v) :: rest => if String.eqb k key then Some v else dict_get rest key
  end.

Record UserState : Type := {
  us_state : option string;
  us_resume_score_cache : option FitCacheEntry
}.

(** [job_user_collection.find({"user_id": user_id})] *)
Definition links_of (user_id : string) (docs : list JobUser) : list JobUser :=
  filter (fun record => String.eqb (ju_user_id record) user_id) docs.

(** The loop of [_fetch_user_states]: a record without a job id is
    skipped, a later record of the same job replaces the earlier one. *)
Definition collect_states (records : list JobUser)
  : list (string * UserState) :=
  fold_left
    (fun mapping record =>
       if PyStr.nonempty (ju_job_id record) then
         dict_set mapping (ju_job_id record)
           {| us_state := state record;
              us_resume_score_cache := resume_score_cache record |}
       else mapping)
    records [].

Definition _fetch_user_states (user_id : string)
  : M (list (string * UserState)) :=
  fun db => (Ok (collect_states (links_of user_id (job_user_collection db))), db).

(** [delete_one({"user_id": user_id, "job_id": job_id})]: the first
    document that matches is removed. *)
Fixpoint delete_first (user_id job_id : string) (docs : list JobUser)
  : list JobUser :=
  match docs with
  | [] => []
  | d :: rest =>
      if String.eqb (ju_user_id d) user_id && String.eqb (ju_job_id d) job_id
      then rest
      else d :: delete_first user_id job_id rest
  end.

Definition delete_saved_job (user_id job_id : string) : M unit :=
  fun db =>
    (Ok tt,
     {| jobs_collection := jobs_collection db;
        profiles_collection := profiles_collection db;
        job_user_collection :=
          delete_first user_id job_id (job_user_collection db) |}).

End UserJobs.

(** ** ai_service.py: suggestions and the resume text of the review prompt *)

Module AiSuggestions.

Import AiService.
Open Scope string_scope.

(** [_summarize_missing_items]: a dimension is listed when something is
    missing in it, with the requirements that have a name. *)
Definition _summarize_missing_items
    (breakdown : list (string * DimensionResult))
  : list (string * list string) :=
  fold_left
    (fun summary kv =>
       let missing_items := missing (snd kv) in
       if RecommendationService.nonempty_list missing_items then
         UserJobs.dict_set summary (fst kv)
           (map requirement
                (filter (fun item => PyStr.nonempty (requirement item))
                        missing_items))
       else summary)
    breakdown [].

(** The loop of the inner [_summarize]: the test that ends the loop comes
    after the entry has been looked at. *)
Fixpoint summarize_loop (max_items : nat) (items seen : list string)
  : list string :=
  match items with
  | [] => seen
  | entry :: rest =>
      let cleaned := PyStr.strip entry in
      let seen :=
        if PyStr.nonempty cleaned && negb (PyStr.mem cleaned seen)
        then (seen ++ [cleaned])%list else seen in
      if (max_items <=? List.length seen)%nat then seen
      else summarize_loop max_items rest seen
  end.

Definition _summarize (items : list string) : string :=
  PyStr.join ", " (summarize_loop 5 items []).

(** [missing_summary.get(key)], an absent key and an empty list both
    counting as false. *)
Definition summary_get (missing_summary : list (string * list string))
    (key : string) : list string :=
  match UserJobs.dict_get missing_summary key with
  | Some items => items
  | None => []
  end.

(** One of the four [if missing_summary.get(key):] blocks. *)
Definition advise (missing_summary : list (string * list string))
    (key lead fallback : string) (suggestions : list string) : list string :=
  match summary_get missing_summary key with
  | [] => suggestions
  | items =>
      let listed := _summarize items in
      (suggestions
       ++ [if PyStr.nonempty listed then (lead ++ listed ++ ".")%string
           else fallback])%list
  end.

Definition default_suggestions : list string :=
  ["Great alignment overall. Tighten your opening summary with one or two quantified wins.";
   "Double-check formatting and ensure the most relevant skills are near the top of the resume."].

Definition _generate_suggestions (resume_text job_description : string)
    (missing_summary : list (string * list string)) : list string :=
  let suggestions := [] in
  let suggestions :=
    advise missing_summary "skills"
      "Highlight or add specific accomplishments that demonstrate: "
      "Highlight measurable achievements for the required skills."
      suggestions in
  let suggestions :=
    advise missing_summary "experience"
      "Describe projects or roles that cover: "
      "Add concise examples of relevant experience."
      suggestions in
  let suggestions :=
    advise missing_summary "education"
      "Call out education or certifications related to: "
      "List any degrees or certifications that match the role."
      suggestions in
  let suggestions :=
    advise missing_summary "keywords"
      "Weave these keywords into your resume summary or bullet points: "
      "Incorporate the role's terminology so the resume mirrors the job posting."
      suggestions in
  let suggestions :=
    match suggestions with
    | [] => default_suggestions
    | _ => suggestions
    end in
  firstn 3 suggestions.

(** [_truncate_resume_text(text, limit)]; the limit is 12000 unless the
    caller says otherwise. *)
Definition _truncate_resume_text (text : string) (limit : nat) : string :=
  let snippet := PyStr.strip text in
  if (String.length snippet <=? limit)%nat then snippet
  else PyStr.take limit snippet ++ String "010" "...[truncated]...".

End AiSuggestions.

(** ** The order of binary64 values

    Every value but NaN has a place in one linear order: a triple compared
    component by component. The two zeros share a place. *)

Module FloatOrder.

Definition is_nan_sf (x : spec_float) : bool :=
  match x with
  | S754_nan => true
  | _ => false
  end.

Definition code (x : spec_float) : Z * Z * Z :=
  match x with
  | S754_nan => (0, 0, 0)%Z
  | S754_zero _ => (0, 0, 0)%Z
  | S754_infinity true => (-2, 0, 0)%Z
  | S754_infinity false => (2, 0, 0)%Z
  | S754_finite false m e => (1, e, Zpos m)%Z
  | S754_finite true m e => (-1, - e, Zneg m)%Z
  end.

Definition lex_lt (a b : Z * Z * Z) : Prop :=
  (fst (fst a) < fst (fst b)
   \/ (fst (fst a) = fst (fst b)
       /\ (snd (fst a) < snd (fst b)
           \/ (snd (fst a) = snd (fst b) /\ snd a < snd b))))%Z.

Definition sf_lt (x y : spec_float) : Prop :=
  is_nan_sf x = false /\ is_nan_sf y = false /\ lex_lt (code x) (code y).

Definition sf_eq (x y : spec_float) : Prop :=
  is_nan_sf x = false /\ is_nan_sf y = false /\ code x = code y.

Definition not_nan (x : float) : Prop := is_nan_sf (Prim2SF x) = false.

Definition flt (x y : float) : Prop := sf_lt (Prim2SF x) (Prim2SF y).

Definition feq (x y : float) : Prop := sf_eq (Prim2SF x) (Prim2SF y).

Definition keys_not_nan {A : Type} (key : A -> float) (l : list A) : Prop :=
  Forall (fun x => not_nan (key x)) l.

(** [a] may stand before [b]: the key of [b] is not above the key of [a]. *)
Definition not_below {A : Type} (key : A -> float) (a b : A) : Prop :=
  (key b <=? key a)%float = true.

(** A value whose sign bit is clear, a zero, or NaN: not below zero. *)
Definition sf_nonneg (x : spec_float) : bool :=
  match x with
  | S754_zero _ => true
  | S754_nan => true
  | S754_infinity s => negb s
  | S754_finite s _ _ => negb s
  end.

(** The number of binary digits of a positive mantissa. *)
Definition digits (m : Z) : Z := (Z.log2 m + 1)%Z.

(** A positive value of at least [2^(k-1)], plus infinity, or NaN. *)
Definition sf_at_least (k : Z) (x : spec_float) : Prop :=
  match x with
  | S754_finite false m e => (k <= digits (Z.pos m) + e)%Z
  | S754_infinity false => True
  | S754_nan => True
  | _ => False
  end.

Definition sf_is_zero (x : spec_float) : bool :=
  match x with
  | S754_zero _ => true
  | _ => false
  end.

End FloatOrder.


(** ** The specification's wording

    The weights, the sums and the aggregate of section 4.2, taken over the
    applicable dimensions only, the clamp of section 4.4 and the trimmed
    label of section 4.1. The code is compared with them below. *)

Module Spec.

Import Py AiService.

(** The label of a raw requirement, trimmed. *)
Definition label_of (label_field : string) (item : dict) : string :=
  PyStr.strip (str_or_empty (get item label_field)).

Definition applicable_dimensions (breakdown : list (string * DimensionResult))
  : list (string * DimensionResult) :=
  filter (fun kv => applicable (snd kv)) breakdown.

(** The base weights as section 4.2 fixes them: skills 0.35, experience
    0.35, education 0.15, keywords 0.15. Nothing else carries weight. *)
Definition base_weight (key : string) : float :=
  if String.eqb key "skills" then 0.35%float
  else if String.eqb key "experience" then 0.35%float
  else if String.eqb key "education" then 0.15%float
  else if String.eqb key "keywords" then 0.15%float
  else 0%float.

(** Section 4.2: active_weight = sum(base_weight[d] for d applicable). *)
Definition active_weight (breakdown : list (string * DimensionResult))
  : float :=
  sum (map (fun kv => base_weight (fst kv)) (applicable_dimensions breakdown)).

(** Section 4.2: weighted_sum = sum(base_weight[d] * score[d] for d
    applicable). *)
Definition weighted_sum (breakdown : list (string * DimensionResult))
  : float :=
  sum (map (fun kv => (base_weight (fst kv)
                       * float_of_int (score (snd kv)))%float)
           (applicable_dimensions breakdown)).

Definition any_applicable (breakdown : list (string * DimensionResult))
  : bool :=
  existsb (fun kv => applicable (snd kv)) breakdown.

(** Section 4.2: overall_score = round(weighted_sum / active_weight) if
    active_weight > 0, else 0. *)
Definition aggregate (breakdown : list (string * DimensionResult))
  : result Z :=
  if (0 <? active_weight breakdown)%float then
    bind (float_truediv (weighted_sum breakdown) (active_weight breakdown))
         round
  else Ok 0%Z.

(** Section 4.4: clamp(x, lo, hi). The value itself between the bounds,
    the nearer bound outside them, and the lower bound for a NaN. *)
Definition clamp (x lo hi : float) : float :=
  if (lo <? x)%float then (if (x <? hi)%float then x else hi) else lo.

End Spec.

(** ** Predicates used to state the loop invariants *)

Module Invariants.

Import Py AiService.

(** A value that [_cosine_similarity] returned for some pair of vectors. *)
Definition from_cosine (v : float) : Prop :=
  exists a b : vector, _cosine_similarity a b = Ok v.

(** What holds of an entry of [matched], and of an entry of [missing],
    about the similarity [v] it was built from. *)
Definition matched_similarity (threshold : float) (entry : MatchEntry) : Prop :=
  exists v : float,
    from_cosine v
    /\ similarity entry = Some (round_nd v 3)
    /\ (threshold <=? v)%float = true.

Definition missing_similarity (threshold : float) (entry : MatchEntry) : Prop :=
  forall s : float,
    similarity entry = Some s ->
    exists v : float,
      from_cosine v
      /\ s = round_nd v 3
      /\ ((-1) <? v)%float = true
      /\ (threshold <=? v)%float = false.

(** The state of the inner loop: nothing found yet and the initial
    [-1.0], or an entry built from the best similarity so far. *)
Definition best_so_far (item : Requirement) (best_similarity : float)
    (best_match : option MatchEntry) : Prop :=
  match best_match with
  | None => best_similarity = (-1)%float
  | Some entry =>
      from_cosine best_similarity
      /\ critical entry = req_critical item
      /\ requirement entry = label item
      /\ similarity entry = Some (round_nd best_similarity 3)
  end.

(** The vector that [_ensure_job_embedding] returns for a job: the one
    the job carries when that is a non-empty list, else what [_embed_text]
    returns for the text of the job. *)
Definition job_vector_of (embed : provider) (job : Job)
  : result (option vector) :=
  match embedding job with
  | Some (x :: cached) => Ok (Some (x :: cached))
  | _ =>
      RecommendationService._embed_text embed
        (RecommendationService._job_to_text job)
  end.

(** [sim_score] of a job: 70 times the cosine of the resume vector and
    the job's vector when that cosine is above zero, and zero when it is
    not or when one of the two vectors is absent or empty. *)
Definition sim_score_of (embed : provider) (resume_vector : option vector)
    (job : Job) : result float :=
  match resume_vector with
  | Some (r :: rv) =>
      bind (job_vector_of embed job)
        (fun job_vector =>
           match job_vector with
           | Some (j :: jv) =>
               bind (cosine_similarity (r :: rv) (j :: jv))
                 (fun similarity =>
                    Ok (if (0 <? similarity)%float
                        then (similarity * 70)%float
                        else 0%float))
           | _ => Ok 0%float
           end)
  | _ => Ok 0%float
  end.

(** What one iteration of the loop appends: the score of the entry is
    round(clamp(sim_score + pref_score, 0, 100), 2) for the [sim_score]
    of its job and the score that [_evaluate_preferences] gives it. *)
Definition scored_as (embed : provider) (resume_vector : option vector)
    (preferences : RecommendationService.PreferencePayload)
    (profile_skills : list string)
    (entry : RecommendationService.RankedEntry) : Prop :=
  exists sim_score : float,
    sim_score_of embed resume_vector (RecommendationService.entry_job entry)
    = Ok sim_score
    /\ RecommendationService.entry_score entry
       = round_nd
           (Spec.clamp (sim_score
                   + fst (RecommendationService._evaluate_preferences
                            (RecommendationService.entry_job entry) preferences
                            profile_skills))%float 0 100) 2.

End Invariants.


(** ** Sample data used by the examples below *)

Module Samples.

Import RecommendationService ResumeFitService.
Open Scope string_scope.

(** The store of the failing call for C2: user [u1] has a profile, the
    job exists, and a fit entry computed one hour ago is cached. *)
Definition hour : Z := 3600000000.

Definition cached_entry : FitCacheEntry :=
  {| fit_score := 72; fit_summary := "Overall similarity 80%";
     fit_matched := ["python"]; fit_gaps := [];
     last_calculated := Some 0%Z; updated_at := Some 0%Z |}.

Definition job_1 : Job :=
  {| _id := "64b7f0c2a1d3e4f5a6b7c8d9"; title := "Backend engineer";
     company := "Acme"; description := "Build services"; summary := "";
     skills := ["Python"]; categories := []; levels := []; metadata := None;
     embedding := Some [1%float; 0%float]; embedding_updated_at := None |}.

Definition db_1 : Db :=
  {| jobs_collection := [job_1];
     profiles_collection :=
       [{| user_id := "u1"; profile_skills := Some ["python"];
           resume_embedding := Some [1%float; 0%float] |}];
     job_user_collection :=
       [{| ju_user_id := "u1"; ju_job_id := "64b7f0c2a1d3e4f5a6b7c8d9";
           state := Some "saved"; resume_score_cache := Some cached_entry |}] |}.

(** What [get_cached_resume_score] would read, were it defined: the
    [resume_score_cache] field that [cache_resume_score] writes. *)
Definition read_score_cache (user job_id : string)
  : M (option FitCacheEntry) :=
  fun db =>
    (Ok match find (fun d => String.eqb (ju_user_id d) user
                             && String.eqb (ju_job_id d) job_id)
                   (job_user_collection db) with
        | Some d => resume_score_cache d
        | None => None
        end, db).

Definition stored_embedding_of_profile (p : Profile) : M (option vector) :=
  ret (resume_embedding p).

Definition stored_embedding_of_job (j : Job) : M (option vector) :=
  ret (embedding j).

(** A lookup-table provider: each text has a fixed vector. *)
Definition table_provider (table : string -> AiService.vector)
  : AiService.provider :=
  fun texts => Ok (map table texts).

Definition skill_vectors (text : string) : AiService.vector :=
  if String.eqb text "python" then [1%float; 0%float]
  else if String.eqb text "docker" then [0%float; 1%float]
  else if String.eqb text "Python developer" then [1%float; 0.1%float]
  else [(-1)%float; 1%float].

Definition req_python : dict :=
  [("name", PStr " python "); ("critical", PBool true)].

Definition req_docker : dict := [("name", PStr "docker")].

Definition req_blank : dict := [("name", PStr "   "); ("critical", PBool true)].

Definition dimension (s : Z) (a : bool) : AiService.DimensionResult :=
  {| AiService.score := s; AiService.applicable := a;
     AiService.matched := []; AiService.missing := [];
     AiService.weight := 0%float |}.

Definition no_preferences : PreferencePayload :=
  {| role_families := []; locations := []; remote_ok := false;
     seniority_levels := []; company_sizes := []; industries_like := [];
     industries_avoid := []; pref_skills := [] |}.

Definition plain_job (id text : string) (job_skills : list string)
    (cached : option AiService.vector) : Job :=
  {| _id := id; title := text; company := ""; description := "";
     summary := ""; skills := job_skills; categories := []; levels := [];
     metadata := None; embedding := cached; embedding_updated_at := None |}.

Definition guest (profile_skill_list : list string) : Profile :=
  {| user_id := "guest"; profile_skills := Some profile_skill_list;
     resume_embedding := None |}.

Definition store_of (jobs : list Job) : Db :=
  {| jobs_collection := jobs; profiles_collection := [];
     job_user_collection := [] |}.

(** A provider that is down for one text only. *)
Definition flaky_provider : AiService.provider :=
  fun texts =>
    if PyStr.mem "Data engineer" texts
    then Raise (ProviderError "embedding service unavailable")
    else Ok (map (fun _ => [1%float; 0%float]) texts).

Definition job_a : Job := plain_job "a" "Backend engineer" [] None.
Definition job_b : Job := plain_job "b" "Data engineer" [] None.
Definition job_c : Job := plain_job "c" "Site reliability engineer" [] None.

Definition job_python : Job := plain_job "p" "Python engineer" ["Python"] None.

Definition scored_job (id : string) (job_skills : list string)
    (cached : AiService.vector) : Job :=
  plain_job id "Engineer" job_skills (Some cached).

(** Two jobs whose totals, 69.9965... and 70.0, both round to 70.0. *)
Definition job_near : Job := scored_job "near" [] [1%float; 0.01%float].
Definition job_exact : Job := scored_job "exact" [] [1%float; 0%float].

(** Two jobs that both score 55.0: cosine 0.5 and two matching
    preferences. *)
Definition two_matches : PreferencePayload :=
  {| role_families := ["backend"]; locations := []; remote_ok := false;
     seniority_levels := ["senior"]; company_sizes := [];
     industries_like := []; industries_avoid := []; pref_skills := [] |}.

Definition half_job (id : string) : Job :=
  {| _id := id; title := "Engineer"; company := ""; description := "";
     summary := ""; skills := []; categories := ["Backend"];
     levels := ["Senior"]; metadata := None;
     embedding := Some [1%float; 1%float; 1%float; 1%float];
     embedding_updated_at := None |}.

Definition unit_resume : AiService.vector :=
  [1%float; 0%float; 0%float; 0%float].

Definition silent_provider : AiService.provider :=
  fun texts => Ok (map (fun _ => [1%float]) texts).

(** A posting and a resume for the aggregate: of the skills the critical
    one is met and the other is not, nothing is asked about experience,
    one of two degrees is met, and four of five keywords are. *)
Definition posting_vectors (text : string) : AiService.vector :=
  if PyStr.mem text ["python"; "bachelor"; "api"; "rest"; "sql"; "git"]
  then [1%float; 0%float]
  else if PyStr.mem text ["docker"; "doctorate"; "kubernetes"]
  then [0%float; 1%float]
  else [1%float; 0.1%float].

Definition graduate_resume : AiService.ResumeData :=
  {| AiService.resume_skills := ["Python developer"];
     AiService.work_experience := [];
     AiService.education :=
       [{| AiService.degree := "BSc"; AiService.school := "MIT";
           AiService.year := "2015"; AiService.gpa := "" |}] |}.

Definition full_posting : AiService.JobData :=
  {| AiService.jd_skills := [req_python; req_docker];
     AiService.jd_experience := [];
     AiService.jd_education :=
       [[("name", PStr "bachelor")]; [("name", PStr "doctorate")]];
     AiService.jd_keywords :=
       [[("term", PStr "api")]; [("term", PStr "rest")];
        [("term", PStr "sql")]; [("term", PStr "git")];
        [("term", PStr "kubernetes")]] |}.

(** What scoring [req_python; req_docker] against the one text
    "Python developer" returns. *)
Definition python_docker_result : AiService.DimensionResult :=
  {| AiService.score := 67; AiService.applicable := true;
     AiService.matched :=
       [{| AiService.requirement := "python"; AiService.critical := true;
           AiService.matched_text := Some "Python developer";
           AiService.similarity := Some 0.995%float |}];
     AiService.missing :=
       [{| AiService.requirement := "docker"; AiService.critical := false;
           AiService.matched_text := None;
           AiService.similarity := Some 0.1%float |}];
     AiService.weight := 3%float |}.

End Samples.

(** ** What the rest of the code is expected to keep

    Shapes and relations in which the properties of normalisation,
    ranking, the job links and the suggestions are stated. *)

Module Expected.

Import Py AiService RecommendationService UserJobs.
Open Scope string_scope.

(** A name that is not empty and carries no white space around it. *)
Definition trimmed_name (s : string) : Prop :=
  s <> "" /\ PyStr.strip s = s.

(** The entry of a job that is scored by the preferences alone. *)
Definition preference_entry (preferences : PreferencePayload)
    (profile_skills : list string) (job : Job) : RankedEntry :=
  let scored := _evaluate_preferences job preferences profile_skills in
  {| entry_job := job;
     entry_score := round_nd (total_score 0 (fst scored)) 2;
     entry_reasons := snd scored |}.

Definition without_embedding (job : Job) : Job :=
  {| _id := _id job; title := title job; company := company job;
     description := description job; summary := summary job;
     skills := skills job; categories := categories job;
     levels := levels job; metadata := metadata job;
     embedding := None; embedding_updated_at := None |}.

(** Two states of the store that differ in stored job embeddings only. *)
Definition same_but_embeddings (db db' : Db) : Prop :=
  map without_embedding (jobs_collection db')
  = map without_embedding (jobs_collection db)
  /\ profiles_collection db' = profiles_collection db
  /\ job_user_collection db' = job_user_collection db.

Definition link_key (d : JobUser) : string * string :=
  (ju_user_id d, ju_job_id d).

(** At most one link document per user and job. *)
Definition unique_links (db : Db) : Prop :=
  NoDup (map link_key (job_user_collection db)).

(** The link documents of one user and one job, in store order. *)
Definition links_with (user_id job_id : string) (docs : list JobUser)
  : list JobUser :=
  filter (fun d => String.eqb (ju_user_id d) user_id
                   && String.eqb (ju_job_id d) job_id) docs.

Definition state_of (record : JobUser) : UserState :=
  {| us_state := state record;
     us_resume_score_cache := resume_score_cache record |}.

(** The payload as [cache_resume_score] stores it. *)
Definition stamped (now : time) (payload : FitCacheEntry) : FitCacheEntry :=
  {| fit_score := fit_score payload; fit_summary := fit_summary payload;
     fit_matched := fit_matched payload; fit_gaps := fit_gaps payload;
     last_calculated := last_calculated payload;
     updated_at := Some now |}.

(** The state a user has given a job, if a link document exists. *)
Definition saved_state (user_id job_id : string) (db : Db) : option string :=
  match links_with user_id job_id (job_user_collection db) with
  | d :: _ => state d
  | [] => None
  end.

Definition entry_key (entry : MatchEntry) : string * bool :=
  (requirement entry, critical entry).

Definition requirement_key (item : Requirement) : string * bool :=
  (label item, req_critical item).

(** An entry of [matched] quotes one of the evidence texts; an entry of
    [missing] quotes nothing. *)
Definition quotes (evidence : list string) (entry : MatchEntry) : Prop :=
  exists text, matched_text entry = Some text /\ In text evidence.

Definition quotes_nothing (entry : MatchEntry) : Prop :=
  matched_text entry = None.

(** The similarity of the requirement to the evidence vector at position
    [i] is [s]. *)
Definition similarity_at (req_vector : AiService.vector)
    (evidence_embeddings : list AiService.vector) (i : nat) (s : float) : Prop :=
  exists ev, nth_error evidence_embeddings i = Some ev
             /\ _cosine_similarity req_vector ev = Ok s.

(** The state of the inner loop of [_score_requirements] after the first
    [n] evidence vectors: no similarity so far is above the best one, and
    the entry quotes the first text that reached it. *)
Definition scanned (req_vector : AiService.vector) (evidence : list string)
    (evidence_embeddings : list AiService.vector) (n : nat) (b : float)
    (m : option MatchEntry) : Prop :=
  (forall i s, (i < n)%nat ->
               similarity_at req_vector evidence_embeddings i s ->
               (b <? s)%float = false)
  /\ match m with
     | None => b = (-1)%float
     | Some entry =>
         exists i text,
           (i < n)%nat
           /\ similarity_at req_vector evidence_embeddings i b
           /\ nth_error evidence i = Some text
           /\ matched_text entry = Some text
           /\ ((-1) <? b)%float = true
           /\ forall k s, (k < i)%nat ->
                          similarity_at req_vector evidence_embeddings k s ->
                          (b <=? s)%float = false
     end.

(** The sentences that stand in for a list of requirements when none of
    the listed names survives trimming. *)
Definition fallback_suggestions : list string :=
  ["Highlight measurable achievements for the required skills.";
   "Add concise examples of relevant experience.";
   "List any degrees or certifications that match the role.";
   "Incorporate the role's terminology so the resume mirrors the job posting."].

(** A shifted mantissa that, at the scale [2^j], does not pass the bound
    [K], and that carries no round or sticky bit when it meets it. *)
Definition under_bound (K j : Z) (mrs : shr_record) : Prop :=
  (shr_m mrs * 2 ^ j <= K)%Z
  /\ ((shr_m mrs * 2 ^ j = K)%Z -> shr_r mrs = false /\ shr_s mrs = false).

End Expected.

(** ** More sample data *)

Module MoreSamples.

Import RecommendationService Samples.
Open Scope string_scope.

(** Preferences that a job can meet in every way, and miss in one. *)
Definition eager_preferences : PreferencePayload :=
  {| role_families := ["backend"]; locations := []; remote_ok := false;
     seniority_levels := ["senior"]; company_sizes := ["startup"];
     industries_like := ["fintech"]; industries_avoid := ["gambling"];
     pref_skills := [] |}.

(** Every rule fires and the resume matches: 70 + 50, cut to 100. *)
Definition dream_job : Job :=
  {| _id := "dream"; title := "Engineer"; company := ""; description := "";
     summary := ""; skills := ["Python"]; categories := ["Backend"];
     levels := ["Senior"];
     metadata := Some {| industry := ["Fintech"];
                         company_size := Some "Startup" |};
     embedding := Some [1%float; 0%float]; embedding_updated_at := None |}.

(** Only the avoid rule fires and the resume does not match: -10, raised
    to 0. *)
Definition avoided_job : Job :=
  {| _id := "avoided"; title := "Engineer"; company := ""; description := "";
     summary := ""; skills := []; categories := []; levels := [];
     metadata := Some {| industry := ["Gambling"]; company_size := None |};
     embedding := Some [0%float; 1%float]; embedding_updated_at := None |}.

(** [job_1] before its embedding was computed. *)
Definition fresh_job : Job :=
  {| _id := "64b7f0c2a1d3e4f5a6b7c8d9"; title := "Backend engineer";
     company := "Acme"; description := "Build services"; summary := "";
     skills := ["Python"]; categories := []; levels := []; metadata := None;
     embedding := None; embedding_updated_at := None |}.

(** A job that names one skill twice, in two spellings, and out of
    order with the other. *)
Definition job_rust_python : Job :=
  plain_job "rp" "Engineer" ["Rust"; "Python"; "python"] None.

Definition new_entry : FitCacheEntry :=
  {| fit_score := 55; fit_summary := "Overall similarity 60%";
     fit_matched := []; fit_gaps := ["docker"];
     last_calculated := Some hour; updated_at := None |}.

Definition python_requirement : AiService.Requirement :=
  {| AiService.label := "python"; AiService.req_critical := true;
     AiService.notes := "" |}.

(** Three evidence vectors, the last two equally close to [1, 0]. *)
Definition three_vectors : list AiService.vector :=
  [[0%float; 1%float]; [1%float; 0%float]; [1%float; 0%float]].

Definition python_entry (text : string) (s : float) : AiService.MatchEntry :=
  {| AiService.requirement := "python"; AiService.critical := true;
     AiService.matched_text := Some text; AiService.similarity := Some s |}.

(** What scoring [req_python] alone against "Python developer" returns. *)
Definition python_only_result : AiService.DimensionResult :=
  {| AiService.score := 100; AiService.applicable := true;
     AiService.matched := [python_entry "Python developer" 0.995%float];
     AiService.missing := [];
     AiService.weight := 2%float |}.

(** A provider that answers with one vector, whatever it is asked. *)
Definition short_provider : AiService.provider :=
  fun _ => Ok [[1%float; 0%float]].

Definition three_missing : list (string * list string) :=
  [("skills", ["Docker"]); ("experience", ["5 years of Go"]);
   ("education", ["BSc"])].

Definition python_resume : AiService.ResumeData :=
  {| AiService.resume_skills := ["Python developer"];
     AiService.work_experience := []; AiService.education := [] |}.

Definition python_docker_posting : AiService.JobData :=
  {| AiService.jd_skills := [req_python; req_docker];
     AiService.jd_experience := []; AiService.jd_education := [];
     AiService.jd_keywords := [] |}.

End MoreSamples.

(** * Properties *)

(** ** Facts about binary64 arithmetic *)

Module FloatFacts.

Import FloatOrder.
Open Scope float_scope.

Ltac sf_compare_cases x y :=
  let sx := fresh "sx" in
  let sy := fresh "sy" in
  let mx := fresh "mx" in
  let my := fresh "my" in
  let ex := fresh "ex" in
  let ey := fresh "ey" in
  let He := fresh "He" in
  let Hm := fresh "Hm" in
  destruct x as [sx|sx| |sx mx ex], y as [sy|sy| |sy my ey];
  try destruct sx; try destruct sy; simpl;
  try change (Pos.compare_cont Eq mx my) with (Pos.compare mx my);
  try (destruct (Z.compare_spec ex ey) as [He|He|He];
       try destruct (Pos.compare_spec mx my) as [Hm|Hm|Hm]);
  simpl.

Lemma SFcompare_lt (x y : spec_float) :
  SFcompare x y = Some Lt <-> sf_lt x y.
Proof.
  unfold sf_lt, lex_lt.
  sf_compare_cases x y;
    intuition (try discriminate; try congruence; try lia).
Qed.

Lemma SFcompare_gt (x y : spec_float) :
  SFcompare x y = Some Gt <-> sf_lt y x.
Proof.
  unfold sf_lt, lex_lt.
  sf_compare_cases x y;
    intuition (try discriminate; try congruence; try lia).
Qed.

Lemma SFcompare_eq (x y : spec_float) :
  SFcompare x y = Some Eq <-> sf_eq x y.
Proof.
  unfold sf_eq.
  sf_compare_cases x y;
    intuition (try discriminate; try congruence;
               try (repeat f_equal; lia);
               try match goal with
                   | H : (_, _, _) = (_, _, _) |- _ =>
                       injection H; intros; exfalso; lia
                   end).
Qed.

Lemma SFcompare_none (x y : spec_float) :
  SFcompare x y = None <-> is_nan_sf x = true \/ is_nan_sf y = true.
Proof.
  sf_compare_cases x y;
    intuition (try discriminate; try congruence).
Qed.


Lemma ltb_flt (x y : float) : (x <? y) = true <-> flt x y.
Proof.
  rewrite ltb_spec. unfold SFltb, flt. rewrite <- SFcompare_lt.
  destruct (SFcompare (Prim2SF x) (Prim2SF y)) as [[ | | ]|];
    split; intros H; (reflexivity || discriminate H).
Qed.

Lemma eqb_feq (x y : float) : (x =? y) = true <-> feq x y.
Proof.
  rewrite eqb_spec. unfold SFeqb, feq. rewrite <- SFcompare_eq.
  destruct (SFcompare (Prim2SF x) (Prim2SF y)) as [[ | | ]|];
    split; intros H; (reflexivity || discriminate H).
Qed.

Lemma leb_flt (x y : float) : (x <=? y) = true <-> flt x y \/ feq x y.
Proof.
  rewrite leb_spec. unfold SFleb, flt, feq.
  rewrite <- SFcompare_lt, <- SFcompare_eq.
  destruct (SFcompare (Prim2SF x) (Prim2SF y)) as [[ | | ]|];
    split; intros H; try reflexivity; try discriminate H; auto;
    destruct H as [H|H]; discriminate H.
Qed.

Lemma triple_eq (a b : Z * Z * Z) :
  a = b <-> fst (fst a) = fst (fst b) /\ snd (fst a) = snd (fst b)
            /\ snd a = snd b.
Proof.
  destruct a as [[a1 a2] a3], b as [[b1 b2] b3]; simpl.
  split; [intros H; injection H; auto|intros [H1 [H2 H3]]; subst; reflexivity].
Qed.

(** Order goals on floats are goals on the integer triples. *)
Ltac float_order :=
  unfold flt, feq, not_nan, sf_lt, sf_eq, lex_lt in *;
  rewrite ?triple_eq in *;
  repeat match goal with
         | |- context [code ?x] =>
             let c := fresh "c" in
             let E := fresh "E" in
             remember (code x) as c eqn:E; clear E;
             destruct c as [[? ?] ?]
         | H : context [code ?x] |- _ =>
             let c := fresh "c" in
             let E := fresh "E" in
             remember (code x) as c eqn:E; clear E;
             destruct c as [[? ?] ?]
         end;
  simpl in *; intuition (try congruence; try lia).

Lemma flt_not_nan (x y : float) : flt x y -> not_nan x /\ not_nan y.
Proof. float_order. Qed.

Lemma feq_not_nan (x y : float) : feq x y -> not_nan x /\ not_nan y.
Proof. float_order. Qed.

Lemma feq_refl (x : float) : not_nan x -> feq x x.
Proof. float_order. Qed.

Lemma feq_sym (x y : float) : feq x y -> feq y x.
Proof. float_order. Qed.

Lemma feq_trans (x y z : float) : feq x y -> feq y z -> feq x z.
Proof. float_order. Qed.

Lemma flt_trans (x y z : float) : flt x y -> flt y z -> flt x z.
Proof. float_order. Qed.

Lemma flt_asym (x y : float) : flt x y -> ~ flt y x.
Proof. float_order. Qed.

Lemma flt_not_feq (x y : float) : flt x y -> ~ feq x y.
Proof. float_order. Qed.

Lemma flt_feq_l (x y z : float) : feq x y -> flt y z -> flt x z.
Proof. float_order. Qed.

Lemma flt_feq_r (x y z : float) : flt x y -> feq y z -> flt x z.
Proof. float_order. Qed.

Lemma flt_total (x y : float) :
  not_nan x -> not_nan y -> flt x y \/ feq x y \/ flt y x.
Proof.
  unfold flt, feq, not_nan, sf_lt, sf_eq, lex_lt. rewrite triple_eq.
  intros Hx Hy.
  destruct (code (Prim2SF x)) as [[a1 a2] a3].
  destruct (code (Prim2SF y)) as [[b1 b2] b3]. simpl.
  destruct (Z.compare_spec a1 b1), (Z.compare_spec a2 b2),
    (Z.compare_spec a3 b3);
    first [ left; solve [intuition lia]
          | right; left; solve [intuition lia]
          | right; right; solve [intuition lia] ].
Qed.

(** Among values that are not NaN, "not less than" is transitive. *)
Lemma not_flt_trans (x y z : float) :
  not_nan y -> ~ flt x y -> ~ flt y z -> ~ flt x z.
Proof. float_order. Qed.

Lemma ltb_false_iff (x y : float) : (x <? y) = false <-> ~ flt x y.
Proof.
  rewrite <- ltb_flt. destruct (x <? y); split; congruence.
Qed.


(** *** Rounding never produces NaN *)

Lemma iter_pos_invariant (A : Type) (P : A -> Prop) (f : A -> A) :
  (forall a, P a -> P (f a)) ->
  forall (n : positive) (a : A), P a -> P (iter_pos f n a).
Proof.
  intros Hf. induction n as [n IH|n IH|]; intros a Ha; simpl; auto.
Qed.

Lemma shr_1_nonneg (mrs : shr_record) :
  (0 <= shr_m mrs)%Z -> (0 <= shr_m (shr_1 mrs))%Z.
Proof.
  destruct mrs as [m r s]. simpl.
  destruct m as [|[p|p|]|[p|p|]]; simpl; lia.
Qed.

Lemma shr_fexp_nonneg (m e : Z) (l : location) :
  (0 <= m)%Z -> (0 <= shr_m (fst (shr_fexp prec emax m e l)))%Z.
Proof.
  intros Hm. unfold shr_fexp, shr.
  assert (H0 : (0 <= shr_m (shr_record_of_loc m l))%Z)
    by (destruct l as [|[ | | ]]; exact Hm).
  destruct (fexp prec emax (Zdigits2 m + e) - e)%Z as [|p|p]; simpl; auto.
  apply (iter_pos_invariant _ (fun mrs => (0 <= shr_m mrs)%Z)); auto.
  apply shr_1_nonneg.
Qed.

Lemma round_nearest_even_nonneg (m : Z) (l : location) :
  (0 <= m)%Z -> (0 <= round_nearest_even m l)%Z.
Proof.
  intros Hm. destruct l as [|[ | | ]]; simpl; try lia.
  destruct (Z.even m); lia.
Qed.

Lemma binary_round_aux_not_nan (s : bool) (m e : Z) (l : location) :
  (0 <= m)%Z -> is_nan_sf (binary_round_aux prec emax s m e l) = false.
Proof.
  intros Hm. unfold binary_round_aux.
  pose proof (shr_fexp_nonneg m e l Hm) as H1.
  destruct (shr_fexp prec emax m e l) as [mrs' e']. simpl in H1.
  pose proof (shr_fexp_nonneg
                (round_nearest_even (shr_m mrs') (loc_of_shr_record mrs')) e'
                loc_Exact (round_nearest_even_nonneg _ _ H1)) as H2.
  destruct (shr_fexp prec emax _ e' loc_Exact) as [mrs'' e'']. simpl in H2.
  destruct (shr_m mrs'') as [|p|p]; [reflexivity| |lia].
  destruct (e'' <=? emax - prec)%Z; reflexivity.
Qed.

Lemma binary_round_not_nan (s : bool) (m : positive) (e : Z) :
  is_nan_sf (binary_round prec emax s m e) = false.
Proof.
  unfold binary_round.
  destruct (shl_align m e _) as [mz ez].
  apply binary_round_aux_not_nan. lia.
Qed.

Lemma binary_normalize_not_nan (m e : Z) (szero : bool) :
  is_nan_sf (binary_normalize prec emax m e szero) = false.
Proof.
  destruct m; simpl; [reflexivity| |]; apply binary_round_not_nan.
Qed.

Lemma opp_not_nan (x : float) : not_nan x -> not_nan (- x).
Proof.
  unfold not_nan. rewrite opp_spec. destruct (Prim2SF x); simpl; auto.
Qed.

(** A value that is not NaN stays so on its way to a primitive float. *)
Lemma SF2Prim_not_nan (q : spec_float) :
  is_nan_sf q = false -> not_nan (SF2Prim q).
Proof.
  destruct q as [[|]|[|]| |s m e]; intros H; try reflexivity; try discriminate H.
  unfold SF2Prim.
  assert (Hl : not_nan (Z.ldexp (of_uint63 (Uint63.of_Z (Z.pos m))) e)).
  { unfold not_nan. rewrite Z_ldexp_spec, of_uint63_spec.
    unfold SFldexp.
    pose proof (binary_normalize_not_nan
                  (Uint63.to_Z (Uint63.of_Z (Z.pos m))) 0 false) as Hn.
    destruct (binary_normalize prec emax _ 0 false) as [?|?| |sx mx ex];
      try exact Hn; try reflexivity.
    apply binary_round_not_nan. }
  destruct s; [apply opp_not_nan|]; exact Hl.
Qed.

Lemma div_eucl_nonneg (a b : Z) :
  (0 <= a)%Z -> (0 < b)%Z -> (0 <= fst (Z.div_eucl a b))%Z.
Proof.
  intros Ha Hb. change (fst (Z.div_eucl a b)) with (a / b)%Z.
  apply Z.div_pos; assumption.
Qed.

Lemma SFdiv_core_nonneg (m1 e1 m2 e2 : Z) :
  (0 <= m1)%Z -> (0 < m2)%Z ->
  (0 <= fst (fst (SFdiv_core_binary prec emax m1 e1 m2 e2)))%Z.
Proof.
  intros H1 H2. unfold SFdiv_core_binary.
  set (m' := match (e1 - e2 - _)%Z with
             | Z0 => m1 | Zpos _ => _ | Zneg _ => _ end).
  assert (Hm : (0 <= m')%Z).
  { unfold m'. destruct (e1 - e2 - _)%Z; [lia| |lia].
    apply Z.shiftl_nonneg. lia. }
  pose proof (div_eucl_nonneg m' m2 Hm H2) as Hq.
  destruct (Z.div_eucl m' m2) as [q r']. exact Hq.
Qed.

Lemma int_truediv_not_nan (a b : Z) (r : float) :
  Py.int_truediv a b = Ok r -> not_nan r.
Proof.
  unfold Py.int_truediv.
  assert (Hcore : forall (a b : Z) (s : bool) (r : float),
            a <> 0%Z -> b <> 0%Z ->
            (let '(mz, ez, lz) :=
               SFdiv_core_binary prec emax (Z.abs a) 0 (Z.abs b) 0 in
             match binary_round_aux prec emax s mz ez lz with
             | S754_infinity _ => Raise OverflowError
             | q => Ok (SF2Prim q)
             end) = Ok r -> not_nan r).
  { intros a' b' s r' Ha Hb.
    pose proof (SFdiv_core_nonneg (Z.abs a') 0 (Z.abs b') 0
                  ltac:(lia) ltac:(lia)) as Hq.
    destruct (SFdiv_core_binary prec emax (Z.abs a') 0 (Z.abs b') 0)
      as [[mz ez] lz]. simpl in Hq.
    pose proof (binary_round_aux_not_nan s mz ez lz Hq) as Hn.
    destruct (binary_round_aux prec emax s mz ez lz) as [?|?| |? ? ?] eqn:E;
      intros H; try discriminate H; try discriminate Hn;
      injection H as <-;
      match type of E with _ = ?q => exact (SF2Prim_not_nan q Hn) end. }
  destruct a as [|a|a], b as [|b|b]; intros H; try discriminate H;
    try (injection H as <-; reflexivity);
    (eapply Hcore; [| |exact H]; discriminate).
Qed.

Lemma round_nd_not_nan (x : float) (nd : N) :
  not_nan x -> not_nan (Py.round_nd x nd).
Proof.
  intros Hx. unfold Py.round_nd.
  destruct (Prim2SF x) as [?|?| |s m e] eqn:E; try exact Hx.
  destruct (Py.int_truediv _ _) as [r|] eqn:Hr; [|exact Hx].
  apply int_truediv_not_nan in Hr.
  destruct ((r =? 0) && s); [reflexivity|exact Hr].
Qed.

Lemma max2_zero_not_nan (v : float) : not_nan (Py.max2 0 v).
Proof.
  unfold Py.max2. destruct (0 <? v) eqn:E; [|reflexivity].
  apply ltb_flt in E. apply flt_not_nan in E. tauto.
Qed.

Lemma min2_not_nan (c w : float) :
  not_nan c -> not_nan w -> not_nan (Py.min2 c w).
Proof. intros Hc Hw. unfold Py.min2. destruct (w <? c); assumption. Qed.

(** *** Multiplication commutes, and a finite non-zero value divided by
    itself is one *)

Lemma mul_comm (x y : float) : x * y = y * x.
Proof.
  apply Prim2SF_inj. rewrite !mul_spec. unfold SF64mul, SFmul.
  destruct (Prim2SF x) as [sx|sx| |sx mx ex], (Prim2SF y) as [sy|sy| |sy my ey];
    try reflexivity; try (rewrite xorb_comm; reflexivity).
  rewrite xorb_comm, Pos.mul_comm, Z.add_comm. reflexivity.
Qed.

Lemma SFdiv_core_self (m : positive) (e : Z) :
  SFdiv_core_binary prec emax (Z.pos m) e (Z.pos m) e
  = ((2 ^ 53)%Z, (-53)%Z, loc_Exact).
Proof.
  unfold SFdiv_core_binary.
  replace (Zdigits2 (Z.pos m) + e - (Zdigits2 (Z.pos m) + e))%Z with 0%Z by lia.
  replace (e - e)%Z with 0%Z by lia.
  change (Z.min (fexp prec emax 0) 0) with (-53)%Z.
  change (0 - -53)%Z with 53%Z. cbv iota.
  rewrite Z.shiftl_mul_pow2 by lia.
  pose proof (Z.div_eucl_eq (Z.pos m * 2 ^ 53) (Z.pos m) ltac:(lia)) as Hd.
  pose proof (Z.mod_pos_bound (Z.pos m * 2 ^ 53) (Z.pos m) ltac:(lia)) as Hb.
  unfold Z.modulo in Hb.
  destruct (Z.div_eucl (Z.pos m * 2 ^ 53) (Z.pos m)) as [q r].
  assert (Hq : q = (2 ^ 53)%Z) by nia.
  assert (Hr : r = 0%Z) by nia.
  subst q r. unfold new_location, new_location_even, new_location_odd.
  destruct (Z.even (Z.pos m)); reflexivity.
Qed.

Lemma div_self (x : float) (s : bool) (m : positive) (e : Z) :
  Prim2SF x = S754_finite s m e -> x / x = 1.
Proof.
  intros H. apply Prim2SF_inj. rewrite div_spec, H.
  unfold SF64div, SFdiv. rewrite SFdiv_core_self, xorb_nilpotent.
  vm_compute. reflexivity.
Qed.


(** *** Signs: a sum of squares is never below zero *)

Lemma binary_round_aux_sign (s : bool) (m e : Z) (l : location) :
  match binary_round_aux prec emax s m e l with
  | S754_zero s' | S754_infinity s' | S754_finite s' _ _ => s' = s
  | S754_nan => True
  end.
Proof.
  unfold binary_round_aux.
  destruct (shr_fexp prec emax m e l) as [mrs' e'].
  destruct (shr_fexp prec emax _ e' loc_Exact) as [mrs'' e''].
  destruct (shr_m mrs'') as [|p|p]; auto.
  destruct (e'' <=? emax - prec)%Z; reflexivity.
Qed.

Lemma binary_round_aux_nonneg (m e : Z) (l : location) :
  sf_nonneg (binary_round_aux prec emax false m e l) = true.
Proof.
  pose proof (binary_round_aux_sign false m e l) as H.
  destruct (binary_round_aux prec emax false m e l); simpl; subst; reflexivity.
Qed.

Lemma square_nonneg (x : float) : sf_nonneg (Prim2SF (x * x)) = true.
Proof.
  rewrite mul_spec. unfold SF64mul, SFmul.
  destruct (Prim2SF x) as [s|s| |s m e]; try reflexivity;
    try (destruct s; reflexivity).
  rewrite xorb_nilpotent. apply binary_round_aux_nonneg.
Qed.

Lemma add_nonneg (x y : float) :
  sf_nonneg (Prim2SF x) = true -> sf_nonneg (Prim2SF y) = true ->
  sf_nonneg (Prim2SF (x + y)) = true.
Proof.
  rewrite add_spec. unfold SF64add, SFadd.
  destruct (Prim2SF x) as [sx|sx| |sx mx ex], (Prim2SF y) as [sy|sy| |sy my ey];
    simpl; intros Hx Hy; try reflexivity; try assumption;
    try (destruct sx; destruct sy; simpl in *; congruence).
  destruct sx; [discriminate|]. destruct sy; [discriminate|].
  simpl cond_Zopp.
  destruct (shl_align mx ex (Z.min ex ey)) as [mx' ex'].
  destruct (shl_align my ey (Z.min ex ey)) as [my' ey'].
  simpl. unfold binary_round.
  destruct (shl_align (mx' + my') (Z.min ex ey) _) as [mz ez].
  apply binary_round_aux_nonneg.
Qed.

Lemma fold_add_nonneg (l : list float) (acc : float) :
  sf_nonneg (Prim2SF acc) = true ->
  Forall (fun x => sf_nonneg (Prim2SF x) = true) l ->
  sf_nonneg (Prim2SF (fold_left add l acc)) = true.
Proof.
  intros Hacc Hl. revert acc Hacc.
  induction Hl as [|x l Hx Hl IH]; intros acc Hacc; simpl; [exact Hacc|].
  apply IH. apply add_nonneg; assumption.
Qed.

Lemma sum_squares_nonneg (a : list float) :
  sf_nonneg (Prim2SF (AiService.sum_squares a)) = true.
Proof.
  unfold AiService.sum_squares, Py.sum.
  apply fold_add_nonneg; [reflexivity|].
  apply Forall_forall. intros y Hy. apply in_map_iff in Hy.
  destruct Hy as [x [<- _]]. apply square_nonneg.
Qed.

Lemma nonneg_not_below_zero (x : float) :
  sf_nonneg (Prim2SF x) = true -> (x <? 0) = false.
Proof.
  intros H. rewrite ltb_spec. unfold SFltb.
  change (Prim2SF 0) with (S754_zero false).
  destruct (Prim2SF x) as [s|[|]| |[|] m e]; try reflexivity; discriminate H.
Qed.

(** [math.sqrt] of a sum of squares does not raise. *)
Lemma math_sqrt_sum_squares (a : list float) :
  Py.math_sqrt (AiService.sum_squares a) = Ok (sqrt (AiService.sum_squares a)).
Proof.
  unfold Py.math_sqrt.
  rewrite (nonneg_not_below_zero _ (sum_squares_nonneg a)). reflexivity.
Qed.

Lemma eqb_zero (x : float) : (x =? 0) = sf_is_zero (Prim2SF x).
Proof.
  rewrite eqb_spec. unfold SFeqb.
  change (Prim2SF 0) with (S754_zero false).
  destruct (Prim2SF x) as [s|[|]| |[|] m e]; reflexivity.
Qed.


(** *** Magnitudes: the product of two non-zero norms is not zero *)

Lemma digits2_pos_size (p : positive) : digits2_pos p = Pos.size p.
Proof. induction p as [p IH|p IH|]; simpl; congruence. Qed.

Lemma Zdigits2_digits (p : positive) :
  Zdigits2 (Z.pos p) = digits (Z.pos p).
Proof.
  unfold digits. simpl Zdigits2. rewrite digits2_pos_size.
  destruct p as [p|p|]; simpl; try reflexivity; rewrite Pos2Z.inj_succ; lia.
Qed.

Lemma shr_1_m (mrs : shr_record) :
  (0 <= shr_m mrs)%Z -> shr_m (shr_1 mrs) = Z.shiftr (shr_m mrs) 1.
Proof.
  rewrite <- Z.div2_spec.
  destruct mrs as [m r s]. simpl.
  destruct m as [|[p|p|]|[p|p|]]; simpl; intros H; try reflexivity; lia.
Qed.

Lemma iter_shr_nonneg (p : positive) (mrs : shr_record) :
  (0 <= shr_m mrs)%Z -> (0 <= shr_m (iter_pos shr_1 p mrs))%Z.
Proof.
  apply (iter_pos_invariant _ (fun mrs => (0 <= shr_m mrs)%Z)).
  apply shr_1_nonneg.
Qed.

Lemma iter_shr_m (p : positive) :
  forall mrs : shr_record,
    (0 <= shr_m mrs)%Z ->
    shr_m (iter_pos shr_1 p mrs) = Z.shiftr (shr_m mrs) (Z.pos p).
Proof.
  induction p as [p IH|p IH|]; intros mrs H; simpl.
  - rewrite IH by (apply iter_shr_nonneg, shr_1_nonneg, H).
    rewrite IH by (apply shr_1_nonneg, H).
    rewrite shr_1_m by exact H.
    rewrite !Z.shiftr_shiftr by lia. f_equal. lia.
  - rewrite IH by (apply iter_shr_nonneg, H).
    rewrite IH by exact H.
    rewrite Z.shiftr_shiftr by lia. f_equal. lia.
  - apply shr_1_m. exact H.
Qed.

Lemma shr_record_of_loc_m (m : Z) (l : location) :
  shr_m (shr_record_of_loc m l) = m.
Proof. destruct l as [|[ | | ]]; reflexivity. Qed.

(** Shifting to the exponent of the format keeps a value of at least
    [2^-1074] positive, and keeps digits + exponent. *)
Lemma shr_fexp_lower (m e : Z) (l : location) :
  (0 < m)%Z -> (-1073 <= digits m + e)%Z ->
  (0 < shr_m (fst (shr_fexp prec emax m e l)))%Z
  /\ (digits (shr_m (fst (shr_fexp prec emax m e l)))
      + snd (shr_fexp prec emax m e l) = digits m + e)%Z.
Proof.
  intros Hm Hd. unfold shr_fexp.
  destruct m as [|p|p]; try lia.
  rewrite Zdigits2_digits.
  remember (digits (Z.pos p)) as d eqn:Ed.
  unfold shr.
  destruct (fexp prec emax (d + e) - e)%Z as [|n|n] eqn:En; simpl fst; simpl snd;
    rewrite ?shr_record_of_loc_m; try (split; [lia|subst d; reflexivity]).
  rewrite iter_shr_m by (rewrite shr_record_of_loc_m; lia).
  rewrite shr_record_of_loc_m.
  assert (Hn : (Z.pos n <= Z.log2 (Z.pos p))%Z).
  { unfold fexp, emin, prec, emax in En. unfold digits in Ed. lia. }
  assert (Hlog : Z.log2 (Z.shiftr (Z.pos p) (Z.pos n))
                 = (Z.log2 (Z.pos p) - Z.pos n)%Z).
  { rewrite Z.log2_shiftr by lia. lia. }
  assert (Hpos : (0 < Z.shiftr (Z.pos p) (Z.pos n))%Z).
  { assert (H0 : (0 <= Z.shiftr (Z.pos p) (Z.pos n))%Z)
      by (apply Z.shiftr_nonneg; lia).
    assert (H1 : Z.shiftr (Z.pos p) (Z.pos n) <> 0%Z).
    { rewrite Z.shiftr_eq_0_iff. intros [H|[_ H]]; [discriminate|lia]. }
    lia. }
  split; [exact Hpos|]. unfold digits. rewrite Hlog. unfold digits in Ed. lia.
Qed.

Lemma round_nearest_even_lower (m : Z) (l : location) :
  (0 < m)%Z ->
  (0 < round_nearest_even m l)%Z
  /\ (digits m <= digits (round_nearest_even m l))%Z.
Proof.
  intros Hm.
  assert (H : (m <= round_nearest_even m l)%Z).
  { destruct l as [|[ | | ]]; simpl; try lia. destruct (Z.even m); lia. }
  split; [lia|]. unfold digits.
  pose proof (Z.log2_le_mono _ _ H). lia.
Qed.

(** Rounding a positive value of at least [2^-1074]: the result is
    positive, and at least the power of two that the value was. *)
Lemma binary_round_aux_lower (m e : Z) (l : location) (k : Z) :
  (0 < m)%Z -> (-1073 <= k)%Z -> (k <= digits m + e)%Z ->
  sf_at_least k (binary_round_aux prec emax false m e l).
Proof.
  intros Hm Hk Hd. unfold binary_round_aux.
  pose proof (shr_fexp_lower m e l Hm ltac:(lia)) as [H1 H2].
  destruct (shr_fexp prec emax m e l) as [mrs' e']. simpl in H1, H2.
  pose proof (round_nearest_even_lower (shr_m mrs') (loc_of_shr_record mrs') H1)
    as [H3 H4].
  pose proof (shr_fexp_lower _ e' loc_Exact H3 ltac:(lia)) as [H5 H6].
  destruct (shr_fexp prec emax _ e' loc_Exact) as [mrs'' e''].
  simpl in H5, H6.
  destruct (shr_m mrs'') as [|p|p]; try lia.
  destruct (e'' <=? emax - prec)%Z; simpl; [lia|exact I].
Qed.

Lemma at_least_not_zero (k : Z) (x : spec_float) :
  sf_at_least k x -> sf_is_zero x = false.
Proof. destruct x as [s|s| |s m e]; simpl; [tauto| | |]; reflexivity. Qed.

Lemma mul_at_least (x y : spec_float) :
  sf_at_least (-536) x -> sf_at_least (-536) y ->
  sf_is_zero (SFmul prec emax x y) = false.
Proof.
  destruct x as [sx|[|]| |[|] mx ex]; simpl; try tauto;
    destruct y as [sy|[|]| |[|] my ey]; simpl; try tauto; try reflexivity.
  intros Hx Hy.
  apply (at_least_not_zero (-1073)).
  apply binary_round_aux_lower; [lia|lia|].
  unfold digits in *. rewrite Pos2Z.inj_mul.
  pose proof (Z.log2_mul_below (Z.pos mx) (Z.pos my) ltac:(lia) ltac:(lia)).
  lia.
Qed.

Lemma valid_lower (s : bool) (m : positive) (e : Z) :
  valid_binary (S754_finite s m e) = true ->
  (-1073 <= digits (Z.pos m) + e)%Z.
Proof.
  simpl. unfold bounded, canonical_mantissa. intros H.
  apply andb_prop in H. destruct H as [H _]. apply Z.eqb_eq in H.
  change (Z.pos (digits2_pos m)) with (Zdigits2 (Z.pos m)) in H.
  rewrite Zdigits2_digits in H.
  unfold fexp, emin, prec, emax in H.
  assert (0 <= Z.log2 (Z.pos m))%Z by apply Z.log2_nonneg.
  unfold digits in *. lia.
Qed.

Lemma sqrt_core_lower (m : positive) (e : Z) :
  (-1073 <= digits (Z.pos m) + e)%Z ->
  let '(q, e', l) := SFsqrt_core_binary prec emax (Z.pos m) e in
  (0 < q)%Z /\ (-536 <= digits q + e')%Z.
Proof.
  intros Hd. unfold SFsqrt_core_binary.
  rewrite Zdigits2_digits.
  remember (Z.min (fexp prec emax (Z.div2 (digits (Z.pos m) + e + 1)))
                  (Z.div2 e)) as e' eqn:Ee'.
  assert (He' : (2 * e' <= e)%Z).
  { assert (e' <= Z.div2 e)%Z by lia.
    rewrite Z.div2_div in H.
    pose proof (Z.mul_div_le e 2 ltac:(lia)). lia. }
  remember (match (e - 2 * e')%Z with
            | Z.pos p => Z.shiftl (Z.pos m) (e - 2 * e')
            | 0%Z => Z.pos m
            | Z.neg _ => 0%Z
            end) as m' eqn:Em'.
  assert (Hm' : m' = Z.shiftl (Z.pos m) (e - 2 * e')).
  { rewrite Em'. destruct (e - 2 * e')%Z eqn:Es; try reflexivity; lia. }
  clear Em'.
  assert (Hlog : Z.log2 m' = (Z.log2 (Z.pos m) + (e - 2 * e'))%Z).
  { rewrite Hm'. apply Z.log2_shiftl; lia. }
  assert (Hm'pos : (0 < m')%Z).
  { rewrite Hm', Z.shiftl_mul_pow2 by lia.
    apply Z.mul_pos_pos; [lia|]. apply Z.pow_pos_nonneg; lia. }
  pose proof (Z.sqrtrem_sqrt m') as Hq.
  destruct (Z.sqrtrem m') as [q r]. simpl in Hq. subst q.
  set (k := (Z.log2 m' / 2)%Z).
  assert (Hk0 : (0 <= k)%Z).
  { unfold k. apply Z.div_pos; [|lia]. apply Z.log2_nonneg. }
  assert (Hpow : (2 ^ k * 2 ^ k <= m')%Z).
  { rewrite <- Z.pow_add_r by lia.
    pose proof (Z.log2_spec m' Hm'pos) as [Hl _].
    eapply Z.le_trans; [|exact Hl].
    apply Z.pow_le_mono_r; [lia|].
    unfold k. pose proof (Z.mul_div_le (Z.log2 m') 2 ltac:(lia)). lia. }
  assert (Hsq : (2 ^ k <= Z.sqrt m')%Z).
  { rewrite <- (Z.sqrt_square (2 ^ k)) by (apply Z.pow_nonneg; lia).
    apply Z.sqrt_le_mono. exact Hpow. }
  assert (Hpk : (0 < 2 ^ k)%Z) by (apply Z.pow_pos_nonneg; lia).
  assert (Hlq : (k <= Z.log2 (Z.sqrt m'))%Z).
  { rewrite <- (Z.log2_pow2 k) by lia. apply Z.log2_le_mono. exact Hsq. }
  split; [lia|]. unfold digits in *. unfold k in Hlq.
  rewrite Hlog in Hlq.
  pose proof (Z.mod_pos_bound (Z.log2 (Z.pos m) + (e - 2 * e')) 2 ltac:(lia)).
  pose proof (Z.div_mod (Z.log2 (Z.pos m) + (e - 2 * e')) 2 ltac:(lia)).
  lia.
Qed.

(** A square root that is not zero is NaN, infinite, or at least
    [2^-537]. *)
Lemma sqrt_at_least (x : float) :
  sf_nonneg (Prim2SF x) = true ->
  (sqrt x =? 0) = false ->
  sf_at_least (-536) (Prim2SF (sqrt x)).
Proof.
  intros Hx Hz. rewrite eqb_zero, sqrt_spec in Hz. rewrite sqrt_spec.
  pose proof (Prim2SF_valid x) as Hv.
  unfold SF64sqrt, SFsqrt in *.
  destruct (Prim2SF x) as [s|[|]| |[|] m e]; try discriminate; try exact I.
  pose proof (sqrt_core_lower m e (valid_lower _ _ _ Hv)) as Hc.
  destruct (SFsqrt_core_binary prec emax (Z.pos m) e) as [[q e'] l].
  destruct Hc as [Hq Hd].
  apply binary_round_aux_lower; [exact Hq|lia|exact Hd].
Qed.

(** The divisor of [_cosine_similarity] is not zero once both norms have
    passed the guard. *)
Lemma norm_product_not_zero (a b : list float) :
  (sqrt (AiService.sum_squares a) =? 0) = false ->
  (sqrt (AiService.sum_squares b) =? 0) = false ->
  (sqrt (AiService.sum_squares a) * sqrt (AiService.sum_squares b) =? 0)
  = false.
Proof.
  intros Ha Hb. rewrite eqb_zero, mul_spec.
  apply mul_at_least; apply sqrt_at_least; auto using sum_squares_nonneg.
Qed.


(** *** Rounded quotients are valid floats *)

Lemma shr_fexp_exponent (m e : Z) (l : location) :
  snd (shr_fexp prec emax m e l)
  = Z.max e (fexp prec emax (Zdigits2 m + e)).
Proof.
  unfold shr_fexp, shr.
  destruct (fexp prec emax (Zdigits2 m + e) - e)%Z eqn:E; simpl; lia.
Qed.

Lemma digits_succ_le (m m' : Z) :
  (0 < m)%Z -> (m <= m' <= m + 1)%Z ->
  (digits m <= digits m' <= digits m + 1)%Z.
Proof.
  intros Hm [H1 H2]. unfold digits.
  pose proof (Z.log2_le_mono _ _ H1).
  pose proof (Z.log2_le_mono _ _ H2).
  pose proof (Z.log2_succ_le m). unfold Z.succ in *. lia.
Qed.

Lemma round_nearest_even_bounds (m : Z) (l : location) :
  (m <= round_nearest_even m l <= m + 1)%Z.
Proof.
  destruct l as [|[ | | ]]; simpl; try lia. destruct (Z.even m); lia.
Qed.

(** Rounding a positive value below [2^1023] that comes with enough
    digits gives a finite float in canonical form. *)
Lemma binary_round_aux_valid (s : bool) (m e : Z) (l : location) :
  (0 < m)%Z ->
  (-1073 <= digits m + e <= 1023)%Z ->
  (e <= fexp prec emax (digits m + e))%Z ->
  exists m' e',
    binary_round_aux prec emax s m e l = S754_finite s m' e'
    /\ valid_binary (S754_finite s m' e') = true.
Proof.
  intros Hm [Hlo Hhi] He. unfold binary_round_aux.
  pose proof (shr_fexp_lower m e l Hm Hlo) as [H1 H2].
  pose proof (shr_fexp_exponent m e l) as H3.
  destruct m as [|p|p]; try lia. rewrite Zdigits2_digits in H3.
  destruct (shr_fexp prec emax (Z.pos p) e l) as [mrs' e1].
  simpl in H1, H2, H3.
  set (m2 := round_nearest_even (shr_m mrs') (loc_of_shr_record mrs')).
  pose proof (round_nearest_even_bounds (shr_m mrs') (loc_of_shr_record mrs'))
    as Hb. fold m2 in Hb.
  pose proof (digits_succ_le _ m2 H1 Hb) as Hd.
  assert (Hm2 : (0 < m2)%Z) by lia.
  pose proof (shr_fexp_lower m2 e1 loc_Exact Hm2 ltac:(lia)) as [H4 H5].
  pose proof (shr_fexp_exponent m2 e1 loc_Exact) as H6.
  destruct m2 as [|p2|p2] eqn:Em2; try lia. rewrite Zdigits2_digits in H6.
  destruct (shr_fexp prec emax (Z.pos p2) e1 loc_Exact) as [mrs'' e3].
  simpl in H4, H5, H6.
  destruct (shr_m mrs'') as [|p3|p3] eqn:Em3; try lia.
  assert (He3 : e3 = fexp prec emax (digits (Z.pos p3) + e3)).
  { unfold fexp, emin, prec, emax in *. lia. }
  assert (Hle : (e3 <=? emax - prec)%Z = true).
  { apply Z.leb_le. unfold fexp, emin, prec, emax in *. lia. }
  rewrite Hle. exists p3, e3. split; [reflexivity|].
  simpl. unfold bounded, canonical_mantissa. rewrite Hle, andb_true_r.
  change (Z.pos (digits2_pos p3)) with (Zdigits2 (Z.pos p3)).
  rewrite Zdigits2_digits. apply Z.eqb_eq. symmetry. exact He3.
Qed.

Lemma binary_round_aux_tiny (s : bool) (l : location) :
  exists sf,
    binary_round_aux prec emax s 0 (-1074) l = sf
    /\ valid_binary sf = true
    /\ (sf = S754_zero s \/ exists m e, sf = S754_finite s m e).
Proof.
  eexists. split; [reflexivity|].
  destruct l as [|[ | | ]]; vm_compute; split; try reflexivity;
    (left; reflexivity) || (right; eexists; eexists; reflexivity).
Qed.

Lemma pow2_digits (m : Z) :
  (0 < m)%Z -> (2 ^ (digits m - 1) <= m < 2 ^ digits m)%Z.
Proof.
  intros Hm. unfold digits.
  pose proof (Z.log2_spec m Hm) as H. unfold Z.succ in H.
  replace (Z.log2 m + 1 - 1)%Z with (Z.log2 m) by lia. exact H.
Qed.

Lemma digits_upper (m k : Z) :
  (0 < m)%Z -> (0 <= k)%Z -> (m < 2 ^ k)%Z -> (digits m <= k)%Z.
Proof.
  intros Hm Hk H. unfold digits.
  assert (Z.log2 m < k)%Z by (apply Z.log2_lt_pow2; assumption). lia.
Qed.

Lemma digits_lower (m k : Z) :
  (0 <= k)%Z -> (2 ^ k <= m)%Z -> (k + 1 <= digits m)%Z.
Proof.
  intros Hk H. unfold digits.
  assert (k <= Z.log2 m)%Z.
  { rewrite <- (Z.log2_pow2 k) by exact Hk. apply Z.log2_le_mono. exact H. }
  lia.
Qed.

(** The quotient of two positive ints that is at most 100 is a valid
    finite float: [a / b] returns, and [round] of it returns. *)
Lemma int_truediv_valid (a b : Z) :
  (0 < a)%Z -> (0 < b)%Z -> (a <= 100 * b)%Z ->
  exists sf,
    Py.int_truediv a b = Ok (SF2Prim sf)
    /\ valid_binary sf = true
    /\ (sf = S754_zero false \/ exists m e, sf = S754_finite false m e).
Proof.
  intros Ha Hb Hab. unfold Py.int_truediv.
  destruct a as [|pa|pa]; try lia. destruct b as [|pb|pb]; try lia.
  change (xorb (Z.pos pa <? 0)%Z (Z.pos pb <? 0)%Z) with false.
  change (Z.abs (Z.pos pa)) with (Z.pos pa).
  change (Z.abs (Z.pos pb)) with (Z.pos pb).
  unfold SFdiv_core_binary. rewrite !Zdigits2_digits.
  set (a := Z.pos pa) in *. set (b := Z.pos pb) in *.
  replace (digits a + 0 - (digits b + 0))%Z with (digits a - digits b)%Z by lia.
  change (0 - 0)%Z with 0%Z.
  remember (Z.min (fexp prec emax (digits a - digits b)) 0) as e' eqn:Ee'.
  assert (He'0 : (e' <= 0)%Z) by lia.
  assert (He'1 : (-1074 <= e')%Z)
    by (unfold fexp, emin, prec, emax in Ee'; lia).
  remember (match (0 - e')%Z with
            | Z.pos _ => Z.shiftl a (0 - e')
            | 0%Z => a
            | Z.neg _ => 0%Z
            end) as m' eqn:Em'.
  assert (Hm' : m' = (a * 2 ^ (- e'))%Z).
  { rewrite Em'. destruct (0 - e')%Z eqn:Es; try lia.
    - replace (- e')%Z with 0%Z by lia. lia.
    - rewrite Z.shiftl_mul_pow2 by lia. f_equal. f_equal. lia. }
  clear Em'.
  assert (Hps : (0 < 2 ^ (- e'))%Z) by (apply Z.pow_pos_nonneg; lia).
  pose proof (Z.div_eucl_eq m' b ltac:(lia)) as Hdiv.
  pose proof (Z.mod_pos_bound m' b ltac:(lia)) as Hmod.
  unfold Z.modulo in Hmod.
  destruct (Z.div_eucl m' b) as [q r].
  assert (Hq0 : (0 <= q)%Z) by nia.
  assert (Hqhi : (q <= 100 * 2 ^ (- e'))%Z) by nia.
  pose proof (pow2_digits a ltac:(lia)) as [Ha1 Ha2].
  pose proof (pow2_digits b ltac:(lia)) as [Hb1 Hb2].
  assert (Hda : (1 <= digits a)%Z)
    by (unfold digits; pose proof (Z.log2_nonneg a); lia).
  assert (Hdb : (1 <= digits b)%Z)
    by (unfold digits; pose proof (Z.log2_nonneg b); lia).
  (* away from the smallest exponent the quotient has 53 digits *)
  assert (Hbig : (-1074 < e')%Z -> (2 ^ 52 <= q)%Z).
  { intros Hlt.
    assert (Hs : (52 + digits b <= digits a - 1 + - e')%Z)
      by (unfold fexp, emin, prec, emax in Ee'; lia).
    assert (H1 : (2 ^ (52 + digits b) <= m')%Z).
    { rewrite Hm'.
      eapply Z.le_trans;
        [apply (Z.pow_le_mono_r 2 _ (digits a - 1 + - e')); lia|].
      rewrite Z.pow_add_r by lia.
      apply Z.mul_le_mono_nonneg_r; lia. }
    rewrite Z.pow_add_r in H1 by lia.
    assert (H2 : (2 ^ 52 * b <= m')%Z) by nia.
    nia. }
  destruct (Z.eq_dec q 0) as [Hq|Hq].
  - subst q.
    assert (e' = (-1074)%Z).
    { destruct (Z.eq_dec e' (-1074)) as [E|E]; [exact E|].
      specialize (Hbig ltac:(lia)). lia. }
    subst e'. rewrite H.
    destruct (binary_round_aux_tiny false (new_location b r))
      as [sf [Hsf [Hv Hshape]]].
    rewrite Hsf. exists sf.
    destruct Hshape as [->|[m [e ->]]]; auto.
    split; [reflexivity|]. split; [exact Hv|]. right. eauto.
  - assert (Hqpos : (0 < q)%Z) by lia.
    assert (Hup : (digits q <= 7 + - e')%Z).
    { apply digits_upper; [lia|lia|].
      rewrite Z.pow_add_r by lia. change (2 ^ 7)%Z with 128%Z. lia. }
    assert (Hdq : (1 <= digits q)%Z)
      by (unfold digits; pose proof (Z.log2_nonneg q); lia).
    destruct (binary_round_aux_valid false q e' (new_location b r) Hqpos)
      as [m [e [Hr Hv]]].
    + lia.
    + unfold fexp, emin, prec, emax.
      destruct (Z.eq_dec e' (-1074)) as [E|E]; [lia|].
      pose proof (digits_lower q 52 ltac:(lia) (Hbig ltac:(lia))). lia.
    + rewrite Hr. exists (S754_finite false m e).
      split; [reflexivity|]. split; [exact Hv|]. right. eauto.
Qed.

Lemma round_valid (sf : spec_float) :
  valid_binary sf = true ->
  (sf = S754_zero false \/ exists m e, sf = S754_finite false m e) ->
  returns (Py.round (SF2Prim sf)).
Proof.
  intros Hv Hshape. unfold Py.round.
  rewrite (Prim2SF_SF2Prim sf Hv).
  destruct Hshape as [->|[m [e ->]]]; eexists; reflexivity.
Qed.

Lemma score_ratio_returns (matched_weight total_weight : Z) :
  (0 <= matched_weight <= total_weight)%Z -> (0 < total_weight)%Z ->
  returns (bind (Py.int_truediv (100 * matched_weight) total_weight) Py.round).
Proof.
  intros [H0 H1] Ht.
  destruct (Z.eq_dec matched_weight 0) as [->|Hne].
  - destruct total_weight; try lia; eexists; reflexivity.
  - destruct (int_truediv_valid (100 * matched_weight) total_weight)
      as [sf [Hq [Hv Hs]]]; try lia.
    rewrite Hq. simpl bind. apply round_valid; assumption.
Qed.

End FloatFacts.

(** ** The fit cache and the module it calls into *)

Module FitCacheFacts.

Import RecommendationService ResumeFitService Samples.
Open Scope string_scope.

Lemma missing_attributes :
  PyStr.mem "get_cached_resume_score" module_names = false
  /\ PyStr.mem "get_resume_embedding" module_names = false
  /\ PyStr.mem "get_job_embedding" module_names = false.
Proof. repeat split; reflexivity. Qed.

Lemma defined_attributes :
  PyStr.mem "_ensure_resume_embedding" module_names = true
  /\ PyStr.mem "_ensure_job_embedding" module_names = true
  /\ PyStr.mem "cache_resume_score" module_names = true
  /\ PyStr.mem "get_job_detail" module_names = true.
Proof. repeat split; reflexivity. Qed.

Lemma call_missing (A : Type) (names : list string) (attr : string)
    (body : M A) (db : Db) :
  PyStr.mem attr names = false ->
  call names attr body db = (Raise (AttributeError rs_module attr), db).
Proof. intros H. unfold call. rewrite H. reflexivity. Qed.

Lemma call_defined (A : Type) (names : list string) (attr : string)
    (body : M A) :
  PyStr.mem attr names = true -> call names attr body = body.
Proof. intros H. unfold call. rewrite H. reflexivity. Qed.

(** C10. Whatever the arguments and the store, [get_or_create_resume_fit]
    raises AttributeError at its first statement, because
    [get_cached_resume_score] is not bound in recommendation_service;
    [compute_resume_fit] raises too, ValueError when the user has no profile
    and AttributeError on [get_resume_embedding] otherwise. Neither call
    returns an entry, and neither writes to the store. *)
Theorem fit_cache_always_raises :
  forall (cached_impl : string -> string -> M (option FitCacheEntry))
         (resume_impl : Profile -> M (option vector))
         (job_impl : Job -> M (option vector))
         (now : time) (user job_id : string) (job : Job) (db : Db),
    get_or_create_resume_fit module_names cached_impl resume_impl job_impl
      now user job_id db
    = (Raise (AttributeError rs_module "get_cached_resume_score"), db)
    /\ (compute_resume_fit module_names resume_impl job_impl now user job db
        = (Raise (ValueError "Profile not found for resume scoring"), db)
        \/ compute_resume_fit module_names resume_impl job_impl now user job db
           = (Raise (AttributeError rs_module "get_resume_embedding"), db))
    /\ ~ returns (fst (get_or_create_resume_fit module_names cached_impl
                         resume_impl job_impl now user job_id db))
    /\ ~ returns (fst (compute_resume_fit module_names resume_impl job_impl
                         now user job db)).
Proof.
  intros cached_impl resume_impl job_impl now user job_id job db.
  assert (G : get_or_create_resume_fit module_names cached_impl resume_impl
                job_impl now user job_id db
              = (Raise (AttributeError rs_module "get_cached_resume_score"), db)).
  { unfold get_or_create_resume_fit, mbind.
    rewrite call_missing by reflexivity. reflexivity. }
  assert (C : compute_resume_fit module_names resume_impl job_impl now user
                job db
              = (Raise (ValueError "Profile not found for resume scoring"), db)
              \/ compute_resume_fit module_names resume_impl job_impl now user
                   job db
                 = (Raise (AttributeError rs_module "get_resume_embedding"), db)).
  { unfold compute_resume_fit, mbind, _load_profile.
    destruct (find _ (profiles_collection db)) as [profile|].
    - right. rewrite call_missing by reflexivity. reflexivity.
    - left. reflexivity. }
  repeat split; auto.
  - rewrite G. intros [a Ha]. discriminate Ha.
  - destruct C as [C|C]; rewrite C; intros [a Ha]; discriminate Ha.
Qed.

(** C2, at the failing input: one hour after the entry was cached the call
    does not return it; it raises AttributeError. *)
Theorem fit_cache_hit_raises :
  get_or_create_resume_fit module_names read_score_cache
    stored_embedding_of_profile stored_embedding_of_job
    hour "u1" "64b7f0c2a1d3e4f5a6b7c8d9" db_1
  = (Raise (AttributeError rs_module "get_cached_resume_score"), db_1)
  /\ is_fresh hour cached_entry = true
  /\ read_score_cache "u1" "64b7f0c2a1d3e4f5a6b7c8d9" db_1
     = (Ok (Some cached_entry), db_1).
Proof. repeat split; reflexivity. Qed.

(** With the three names bound, the body of [get_or_create_resume_fit] is
    the cache the specification describes: a fresh entry is returned as
    it is and the store is left alone. *)
Lemma fit_cache_hit_when_bound :
  forall names cached_impl resume_impl job_impl now user job_id db entry,
    PyStr.mem "get_cached_resume_score" names = true ->
    cached_impl user job_id db = (Ok (Some entry), db) ->
    is_fresh now entry = true ->
    get_or_create_resume_fit names cached_impl resume_impl job_impl
      now user job_id db = (Ok entry, db).
Proof.
  intros names cached_impl resume_impl job_impl now user job_id db entry
         Hn Hc Hf.
  unfold get_or_create_resume_fit, mbind.
  rewrite call_defined by exact Hn. rewrite Hc, Hf. reflexivity.
Qed.

Lemma is_fresh_iff (now : time) (entry : FitCacheEntry) (stamp : time) :
  updated_at entry = Some stamp ->
  is_fresh now entry = true <-> (now - stamp < 24 * hour)%Z.
Proof.
  intros H. unfold is_fresh, cache_age. rewrite H.
  unfold timedelta_hours, CACHE_TTL_HOURS, hour. rewrite Z.ltb_lt. lia.
Qed.

(** Still with the names bound: a missing job is a ValueError, and so is
    a missing profile. *)
Lemma fit_cache_miss_when_bound :
  forall names cached_impl resume_impl job_impl now user job_id db,
    PyStr.mem "get_cached_resume_score" names = true ->
    cached_impl user job_id db = (Ok None, db) ->
    (fst (get_job_detail job_id db) = Ok None ->
     get_or_create_resume_fit names cached_impl resume_impl job_impl
       now user job_id db = (Raise (ValueError "Job not found"), db))
    /\ (forall job,
          fst (get_job_detail job_id db) = Ok (Some job) ->
          fst (_load_profile user db) = Ok None ->
          get_or_create_resume_fit names cached_impl resume_impl job_impl
            now user job_id db
          = (Raise (ValueError "Profile not found for resume scoring"), db)).
Proof.
  intros names cached_impl resume_impl job_impl now user job_id db Hn Hc.
  unfold get_or_create_resume_fit, mbind.
  rewrite call_defined by exact Hn. rewrite Hc.
  unfold recompute, mbind, get_job_detail. split.
  - destruct (is_object_id job_id); simpl; intros H.
    + injection H as H. rewrite H. reflexivity.
    + reflexivity.
  - intros job. destruct (is_object_id job_id); simpl; intros H; [|discriminate].
    injection H as H. rewrite H.
    unfold compute_resume_fit, mbind, _load_profile. simpl.
    intros H'. injection H' as H'. rewrite H'. reflexivity.
Qed.


(** Steps through one call of a sequence: the call returned, or the
    whole sequence raised. *)
Ltac run_step :=
  match goal with
  | |- context [match ?c with pair _ _ => _ end] =>
      let r := fresh "r" in
      let db := fresh "db" in
      let E := fresh "E" in
      destruct c as [[r|?] db] eqn:E; [|discriminate]
  end.

(** With the names bound, what [compute_resume_fit] returns carries the
    blend round(similarity * 60 + match_ratio * 40), kept within 0..100,
    the overlap of the normalised skills, and the time of the call. *)
Lemma compute_resume_fit_when_bound :
  forall names resume_impl job_impl now user job db db' payload,
    PyStr.mem "get_resume_embedding" names = true ->
    PyStr.mem "get_job_embedding" names = true ->
    compute_resume_fit names resume_impl job_impl now user job db
    = (Ok payload, db') ->
    exists (profile : Profile) (similarity match_ratio : float) (score : Z),
      fst (_load_profile user db) = Ok (Some profile)
      /\ Py.round (similarity * 60 + match_ratio * 40)%float = Ok score
      /\ fit_score payload = Z.min 100 (Z.max 0 score)
      /\ (let job_skills := _normalize_skill_set (skills job) in
          let overlap :=
            _skill_overlap
              (_normalize_skill_set (_collect_profile_skills profile))
              job_skills in
          fit_matched payload = ov_matched overlap
          /\ fit_gaps payload = ov_gaps overlap
          /\ (if nonempty_list job_skills
              then Py.int_truediv (Z.of_nat (List.length (ov_matched overlap)))
                                  (Z.of_nat (List.length job_skills))
                   = Ok match_ratio
              else match_ratio = 0%float))
      /\ last_calculated payload = Some now.
Proof.
  intros names resume_impl job_impl now user job db db' payload Hr Hj.
  unfold compute_resume_fit. unfold mbind at 1. unfold _load_profile at 1.
  cbv iota beta.
  destruct (find _ (profiles_collection db)) as [profile|] eqn:Ep;
    [|discriminate].
  rewrite !call_defined by assumption.
  unfold mbind. run_step. run_step. run_step. run_step. run_step. run_step.
  unfold ret. intros H. injection H as <- _.
  exists profile, r1, r2, r3. cbn [fit_score fit_matched fit_gaps last_calculated].
  split; [unfold _load_profile; simpl; rewrite Ep; reflexivity|].
  split; [unfold lift in E3; injection E3 as E3 _; exact E3|].
  split; [reflexivity|]. split; [|reflexivity].
  split; [reflexivity|]. split; [reflexivity|].
  destruct (nonempty_list (_normalize_skill_set (skills job))).
  - unfold lift in E2. injection E2 as E2 _. exact E2.
  - unfold ret in E2. injection E2 as E2 _. symmetry. exact E2.
Qed.

(** Still with the names bound: on a miss or a stale entry the entry that
    has been computed is written back with [updated_at] set to the time of
    the call, and returned. *)
Lemma fit_cache_write_back_when_bound :
  forall names cached_impl resume_impl job_impl now user job_id db db'
         stale payload,
    PyStr.mem "get_cached_resume_score" names = true ->
    cached_impl user job_id db = (Ok stale, db) ->
    match stale with Some entry => is_fresh now entry = false | None => True end ->
    get_or_create_resume_fit names cached_impl resume_impl job_impl
      now user job_id db = (Ok payload, db') ->
    exists job db1,
      fst (get_job_detail job_id db) = Ok (Some job)
      /\ compute_resume_fit names resume_impl job_impl now user job db
         = (Ok payload, db1)
      /\ job_user_collection db'
         = upsert_score_cache user job_id
             {| fit_score := fit_score payload;
                fit_summary := fit_summary payload;
                fit_matched := fit_matched payload;
                fit_gaps := fit_gaps payload;
                last_calculated := last_calculated payload;
                updated_at := Some now |}
             (job_user_collection db1).
Proof.
  intros names cached_impl resume_impl job_impl now user job_id db db'
         stale payload Hn Hc Hstale.
  unfold get_or_create_resume_fit. unfold mbind at 1.
  rewrite call_defined by exact Hn. rewrite Hc.
  assert (Hrec : recompute names resume_impl job_impl now user job_id db
                 = (Ok payload, db') ->
                 exists job db1,
                   fst (get_job_detail job_id db) = Ok (Some job)
                   /\ compute_resume_fit names resume_impl job_impl now user
                        job db = (Ok payload, db1)
                   /\ job_user_collection db'
                      = upsert_score_cache user job_id
                          {| fit_score := fit_score payload;
                             fit_summary := fit_summary payload;
                             fit_matched := fit_matched payload;
                             fit_gaps := fit_gaps payload;
                             last_calculated := last_calculated payload;
                             updated_at := Some now |}
                          (job_user_collection db1)).
  { unfold recompute. unfold mbind at 1. unfold get_job_detail.
    destruct (is_object_id job_id); [|discriminate].
    destruct (find _ (jobs_collection db)) as [job|] eqn:Ej; [|discriminate].
    unfold mbind.
    destruct (compute_resume_fit names resume_impl job_impl now user job db)
      as [[p|e] db1] eqn:Ecomp; [|discriminate].
    unfold cache_resume_score, ret. intros H. injection H as <- <-.
    exists job, db1. simpl. auto. }
  destruct stale as [entry|]; [rewrite Hstale|]; exact Hrec.
Qed.

End FitCacheFacts.

(** ** Dimension scoring and aggregation *)

Module ScoringFacts.

Import Py AiService Samples.
Import Spec(label_of).
Open Scope string_scope.

Lemma clean_requirements_nil (label_field : string) (requirements : list dict) :
  Forall (fun item => label_of label_field item = "") requirements ->
  clean_requirements label_field requirements = [].
Proof.
  induction 1 as [|item rest H _ IH]; simpl; [reflexivity|].
  unfold label_of in H. rewrite H. simpl. exact IH.
Qed.

Lemma clean_requirements_cons (label_field : string) (requirements : list dict) :
  Exists (fun item => label_of label_field item <> "") requirements ->
  clean_requirements label_field requirements <> [].
Proof.
  induction 1 as [item rest H|item rest _ IH]; simpl.
  - unfold label_of in H.
    destruct (PyStr.strip (str_or_empty (get item label_field))) eqn:E;
      [congruence|]. simpl. discriminate.
  - destruct (PyStr.nonempty _); [discriminate|exact IH].
Qed.

(** The requirements that are kept are those with a label, trimmed, in
    their order. *)
Lemma clean_requirements_labels (label_field : string)
    (requirements : list dict) :
  map label (clean_requirements label_field requirements)
  = filter PyStr.nonempty (map (label_of label_field) requirements).
Proof.
  induction requirements as [|item rest IH]; simpl; [reflexivity|].
  unfold label_of at 1.
  destruct (PyStr.nonempty (PyStr.strip (str_or_empty (get item label_field))));
    simpl; rewrite IH; reflexivity.
Qed.

Lemma clean_evidence_nil (evidence_texts : list string) :
  Forall (fun text => PyStr.strip text = "") evidence_texts ->
  clean_evidence evidence_texts = [].
Proof.
  unfold clean_evidence.
  induction 1 as [|text rest H _ IH]; simpl; [reflexivity|].
  rewrite H. simpl. exact IH.
Qed.

Lemma fold_add_shift (l : list Z) (a : Z) :
  fold_left Z.add l a = (a + fold_left Z.add l 0)%Z.
Proof.
  revert a. induction l as [|x l IH]; intros a; simpl; [lia|].
  rewrite (IH (a + x)%Z), (IH x). lia.
Qed.

(** The weight of a list of requirements: one each, one more for each
    critical one. *)
Lemma requirements_weight_count (l : list Requirement) :
  requirements_weight l
  = (Z.of_nat (List.length l)
     + Z.of_nat (List.length (filter req_critical l)))%Z.
Proof.
  unfold requirements_weight.
  induction l as [|item l IH]; [reflexivity|].
  cbn [map fold_left filter List.length]. rewrite fold_add_shift, IH.
  destruct (req_critical item); cbn [item_weight List.length]; lia.
Qed.

(** C4. When no requirement keeps a label after trimming, the dimension is
    not applicable: score 100, weight 0, nothing matched and nothing
    missing. When some requirement does but no evidence text is left after
    trimming, the dimension is applicable with score 0, its weight is the
    total weight of the requirements, every kept requirement is listed as
    missing with no similarity, and nothing is matched. The embedding
    provider is not consulted in either case. *)
Theorem score_requirements_degenerate :
  forall (embed : provider) (requirements : list dict)
         (evidence_texts : list string) (label_field : string)
         (threshold : float),
    (Forall (fun item => label_of label_field item = "") requirements ->
     _score_requirements embed requirements evidence_texts label_field
       threshold
     = Ok {| score := 100; applicable := false; matched := [];
             missing := []; weight := 0 |})
    /\ (Exists (fun item => label_of label_field item <> "") requirements ->
        Forall (fun text => PyStr.strip text = "") evidence_texts ->
        let kept := clean_requirements label_field requirements in
        _score_requirements embed requirements evidence_texts label_field
          threshold
        = Ok {| score := 0; applicable := true; matched := [];
                missing :=
                  map (fun item =>
                         {| requirement := label item;
                            critical := req_critical item;
                            matched_text := None;
                            similarity := None |}) kept;
                weight := float_of_int (requirements_weight kept) |}
        /\ map label kept
           = filter PyStr.nonempty (map (label_of label_field) requirements)
        /\ requirements_weight kept
           = (Z.of_nat (List.length kept)
              + Z.of_nat (List.length (filter req_critical kept)))%Z).
Proof.
  intros embed requirements evidence_texts label_field threshold. split.
  - intros H. unfold _score_requirements.
    rewrite (clean_requirements_nil _ _ H). reflexivity.
  - intros Hreq Hev kept. split; [|split].
    + unfold _score_requirements. fold kept.
      pose proof (clean_requirements_cons _ _ Hreq) as Hne. fold kept in Hne.
      destruct kept as [|item rest]; [congruence|].
      rewrite (clean_evidence_nil _ Hev). reflexivity.
    + apply clean_requirements_labels.
    + apply requirements_weight_count.
Qed.

Lemma score_requirements_degenerate_witness :
  _score_requirements (table_provider skill_vectors) [req_blank] ["python"]
    "name" default_threshold
  = Ok {| score := 100; applicable := false; matched := []; missing := [];
          weight := 0 |}
  /\ _score_requirements (table_provider skill_vectors)
       [req_python; req_blank; req_docker] ["  "; ""] "name" default_threshold
     = Ok {| score := 0; applicable := true; matched := [];
             missing :=
               [{| requirement := "python"; critical := true;
                   matched_text := None; similarity := None |};
                {| requirement := "docker"; critical := false;
                   matched_text := None; similarity := None |}];
             weight := 3 |}.
Proof.
  split.
  - apply (proj1 (score_requirements_degenerate (table_provider skill_vectors)
                    [req_blank] ["python"] "name" default_threshold)).
    repeat constructor.
  - apply (proj2 (score_requirements_degenerate (table_provider skill_vectors)
                    [req_python; req_blank; req_docker] ["  "; ""] "name"
                    default_threshold)).
    + apply Exists_cons_hd. vm_compute. discriminate.
    + repeat constructor.
Defined.


(** The table of the code holds the base weights of the specification. *)
Lemma base_weight_read (key : string) :
  weights_get DIMENSION_WEIGHTS key = Spec.base_weight key.
Proof.
  unfold Spec.base_weight, DIMENSION_WEIGHTS. cbn [weights_get].
  rewrite (String.eqb_sym "skills" key), (String.eqb_sym "experience" key),
    (String.eqb_sym "education" key), (String.eqb_sym "keywords" key).
  reflexivity.
Qed.

Lemma accumulate_sums (breakdown : list (string * DimensionResult))
    (aw ws : float) :
  accumulate breakdown aw ws
  = (fold_left add
       (map (fun kv => Spec.base_weight (fst kv))
            (Spec.applicable_dimensions breakdown)) aw,
     fold_left add
       (map (fun kv => (Spec.base_weight (fst kv)
                        * float_of_int (score (snd kv)))%float)
            (Spec.applicable_dimensions breakdown)) ws).
Proof.
  revert aw ws.
  induction breakdown as [|[key res] rest IH]; intros aw ws;
    cbn [accumulate Spec.applicable_dimensions filter snd fst];
    [reflexivity|].
  destruct (applicable res); cbn [map fold_left fst snd];
    fold (Spec.applicable_dimensions rest); rewrite IH;
    [rewrite base_weight_read|]; reflexivity.
Qed.

Lemma active_weight_sign (skills experience education keywords : DimensionResult) :
  let b := make_breakdown skills experience education keywords in
  truthy (Spec.active_weight b) = Spec.any_applicable b
  /\ (0 <? Spec.active_weight b)%float = Spec.any_applicable b.
Proof.
  destruct skills as [s1 [|] m1 n1 w1], experience as [s2 [|] m2 n2 w2],
    education as [s3 [|] m3 n3 w3], keywords as [s4 [|] m4 n4 w4];
    split; reflexivity.
Qed.

(** The aggregation of the code is the aggregate of the specification. *)
Lemma overall_score_of_aggregate
    (skills experience education keywords : DimensionResult) :
  let b := make_breakdown skills experience education keywords in
  overall_score_of b = Spec.aggregate b.
Proof.
  intros b.
  assert (Hacc : accumulate b 0 0 = (Spec.active_weight b, Spec.weighted_sum b))
    by exact (accumulate_sums b 0 0).
  pose proof (active_weight_sign skills experience education keywords)
    as [Ht Hp].
  fold b in Ht, Hp.
  unfold overall_score_of, Spec.aggregate. rewrite Hacc, Ht, Hp. reflexivity.
Qed.

(** C3. The loop of [score_resume_against_job] adds up the base weights
    (skills 0.35, experience 0.35, education 0.15, keywords 0.15) and the
    products weight * score of the applicable dimensions only; the active
    weight is positive exactly when some dimension is applicable; the
    aggregation gives round(weighted_sum / active_weight) in that case and
    0 when no dimension is applicable; and that is the [overall_score]
    which [score_resume_against_job] returns for the four results of its
    scorers, next to the breakdown and the table of weights. Skills 67,
    experience not applicable, education 50 and keywords 80 give 66, as
    the aggregate and as the result of a call; skills 100 with education
    0 give 70, which equal weights would not; four dimensions that are
    not applicable give 0. *)
Theorem overall_score_renormalised :
  forall skills experience education keywords : DimensionResult,
    let b := make_breakdown skills experience education keywords in
    accumulate b 0 0 = (Spec.active_weight b, Spec.weighted_sum b)
    /\ (0 <? Spec.active_weight b)%float = Spec.any_applicable b
    /\ overall_score_of b = Spec.aggregate b
    /\ Spec.aggregate b
       = (if Spec.any_applicable b
          then bind (float_truediv (Spec.weighted_sum b) (Spec.active_weight b))
                    round
          else Ok 0%Z)
    /\ (forall (embed : provider) (resume_data : ResumeData)
               (job_data : JobData) (resume_text : string),
          _score_requirements embed (jd_skills job_data)
            (resume_skills resume_data) "name" default_threshold
          = Ok skills ->
          _score_requirements embed (jd_experience job_data)
            (_compose_experience_evidence resume_data) "description"
            default_threshold
          = Ok experience ->
          _score_requirements embed (jd_education job_data)
            (_compose_education_evidence resume_data) "name" default_threshold
          = Ok education ->
          _score_keywords embed (jd_keywords job_data) resume_text
            (resume_skills resume_data
             ++ _compose_experience_evidence resume_data)
          = Ok keywords ->
          score_resume_against_job embed resume_data job_data resume_text
          = bind (Spec.aggregate b)
                 (fun overall =>
                    Ok {| overall_score := overall;
                          breakdown :=
                            map (fun kv => (fst kv, clean_result (snd kv))) b;
                          weights := DIMENSION_WEIGHTS |}))
    /\ overall_score_of
         (make_breakdown (dimension 67 true) (dimension (score experience) false)
                         (dimension 50 true) (dimension 80 true))
       = Ok 66%Z
    /\ bind (score_resume_against_job (table_provider posting_vectors)
               graduate_resume full_posting "Python developer with a BSc")
            (fun scoring =>
               Ok (overall_score scoring,
                   map (fun kv => (fst kv, score (snd kv), applicable (snd kv)))
                       (AiService.breakdown scoring)))
       = Ok (66%Z, [("skills", 67%Z, true); ("experience", 100%Z, false);
                    ("education", 50%Z, true); ("keywords", 80%Z, true)])
    /\ overall_score_of
         (make_breakdown (dimension 100 true) (dimension (score experience) false)
                         (dimension 0 true) (dimension (score keywords) false))
       = Ok 70%Z
    /\ overall_score_of
         (make_breakdown (dimension (score skills) false)
                         (dimension (score experience) false)
                         (dimension (score education) false)
                         (dimension (score keywords) false))
       = Ok 0%Z.
Proof.
  intros skills experience education keywords b.
  assert (Hacc : accumulate b 0 0 = (Spec.active_weight b, Spec.weighted_sum b))
    by exact (accumulate_sums b 0 0).
  pose proof (active_weight_sign skills experience education keywords) as [Ht Hp].
  fold b in Ht, Hp.
  pose proof (overall_score_of_aggregate skills experience education keywords)
    as Hagg.
  fold b in Hagg.
  split; [exact Hacc|]. split; [exact Hp|]. split; [exact Hagg|].
  split; [unfold Spec.aggregate; rewrite Hp; reflexivity|].
  split; [|split; [|split; [|split]]].
  - intros embed resume_data job_data resume_text Hs He Hd Hk.
    unfold score_resume_against_job.
    rewrite Hs, He, Hd, Hk. cbn [bind]. fold b. rewrite Hagg. reflexivity.
  - vm_compute. reflexivity.
  - vm_compute. reflexivity.
  - vm_compute. reflexivity.
  - vm_compute. reflexivity.
Qed.

(** The posting of the example, scored by the code: the four scorers
    return 67, not applicable, 50 and 80, and the call returns 66. *)
Lemma overall_score_renormalised_witness :
  bind (score_resume_against_job (table_provider posting_vectors)
          graduate_resume full_posting "Python developer with a BSc")
       (fun scoring =>
          Ok (overall_score scoring,
              map (fun kv => (fst kv, score (snd kv), applicable (snd kv)))
                  (AiService.breakdown scoring),
              weights scoring))
  = Ok (66%Z,
        [("skills", 67%Z, true); ("experience", 100%Z, false);
         ("education", 50%Z, true); ("keywords", 80%Z, true)],
        DIMENSION_WEIGHTS).
Proof.
  pose (embed := table_provider posting_vectors).
  pose (text := "Python developer with a BSc").
  let r := eval vm_compute in
             (_score_requirements embed (jd_skills full_posting)
                (resume_skills graduate_resume) "name" default_threshold) in
  match r with Ok ?x => pose (skills := x) end.
  let r := eval vm_compute in
             (_score_requirements embed (jd_experience full_posting)
                (_compose_experience_evidence graduate_resume) "description"
                default_threshold) in
  match r with Ok ?x => pose (experience := x) end.
  let r := eval vm_compute in
             (_score_requirements embed (jd_education full_posting)
                (_compose_education_evidence graduate_resume) "name"
                default_threshold) in
  match r with Ok ?x => pose (education := x) end.
  let r := eval vm_compute in
             (_score_keywords embed (jd_keywords full_posting) text
                (resume_skills graduate_resume
                 ++ _compose_experience_evidence graduate_resume)) in
  match r with Ok ?x => pose (keywords := x) end.
  destruct (overall_score_renormalised skills experience education keywords)
    as [_ [_ [_ [_ [H _]]]]].
  specialize (H embed graduate_resume full_posting text
                ltac:(vm_compute; reflexivity) ltac:(vm_compute; reflexivity)
                ltac:(vm_compute; reflexivity) ltac:(vm_compute; reflexivity)).
  fold embed. fold text. rewrite H. vm_compute. reflexivity.
Defined.


(** *** The matching loops *)

Import Invariants.

Lemma best_evidence_inv (item : Requirement) (req_vector : vector)
    (evidence : list string) (evidence_embeddings : list vector) :
  forall (evidence_idx : nat) (b b' : float) (m m' : option MatchEntry),
    best_so_far item b m ->
    best_evidence item req_vector evidence evidence_embeddings evidence_idx b m
    = Ok (b', m') ->
    best_so_far item b' m'.
Proof.
  induction evidence_embeddings as [|ev_vector rest IH];
    intros evidence_idx b b' m m' Hinv; simpl.
  - intros H. injection H as <- <-. exact Hinv.
  - destruct (_cosine_similarity req_vector ev_vector) as [sim|e] eqn:Ec;
      [|discriminate]. simpl.
    destruct (b <? sim)%float.
    + destruct (list_index evidence evidence_idx) as [text|e]; [|discriminate].
      simpl. apply IH. simpl. repeat split.
      exists req_vector, ev_vector. exact Ec.
    + apply IH. exact Hinv.
Qed.

Lemma missing_entry_similarity (threshold : float) (item : Requirement)
    (b : float) (m : option MatchEntry) :
  best_so_far item b m ->
  (m = None \/ (threshold <=? b)%float = false) ->
  missing_similarity threshold (missing_entry item b).
Proof.
  intros Hinv Hcase s. unfold missing_entry. simpl.
  destruct ((-1) <? b)%float eqn:Hb; [|discriminate].
  simpl. intros H. injection H as <-.
  destruct m as [entry|].
  - destruct Hinv as [Hv _]. destruct Hcase as [Hc|Hc]; [discriminate|].
    exists b. auto.
  - simpl in Hinv. subst b. discriminate Hb.
Qed.

Lemma entries_weight_app (l : list MatchEntry) (entry : MatchEntry) :
  entries_weight (l ++ [entry])
  = (entries_weight l + item_weight (critical entry))%Z.
Proof.
  unfold entries_weight. rewrite map_app, fold_left_app. reflexivity.
Qed.

Lemma requirements_weight_cons (item : Requirement) (l : list Requirement) :
  requirements_weight (item :: l)
  = (item_weight (req_critical item) + requirements_weight l)%Z.
Proof.
  unfold requirements_weight. simpl. rewrite fold_add_shift. reflexivity.
Qed.

Lemma match_requirements_inv (threshold : float)
    (requirement_embeddings : list vector) (evidence : list string)
    (evidence_embeddings : list vector) (items : list Requirement) :
  forall (idx : nat) (matched missing matched' missing' : list MatchEntry),
    Forall (matched_similarity threshold) matched ->
    Forall (missing_similarity threshold) missing ->
    match_requirements threshold requirement_embeddings evidence
      evidence_embeddings idx items matched missing
    = Ok (matched', missing') ->
    Forall (matched_similarity threshold) matched'
    /\ Forall (missing_similarity threshold) missing'
    /\ (entries_weight matched' + entries_weight missing'
        = entries_weight matched + entries_weight missing
          + requirements_weight items)%Z.
Proof.
  induction items as [|item rest IH];
    intros idx matched missing matched' missing' Hm Hmiss; simpl.
  - intros H. injection H as <- <-.
    unfold requirements_weight. simpl. repeat split; auto; lia.
  - destruct (list_index requirement_embeddings idx) as [req_vector|e];
      [|discriminate]. simpl.
    destruct (best_evidence item req_vector evidence evidence_embeddings 0
                (-1) None) as [[b m]|e] eqn:Eb; [|discriminate]. simpl.
    pose proof (best_evidence_inv item req_vector evidence evidence_embeddings
                  0 (-1) b None m eq_refl Eb) as Hinv.
    rewrite requirements_weight_cons.
    destruct m as [entry|].
    + destruct (threshold <=? b)%float eqn:Hth.
      * intros H. apply IH in H.
        -- destruct H as [H1 [H2 H3]]. repeat split; auto.
           rewrite entries_weight_app in H3.
           destruct Hinv as [_ [Hc _]]. rewrite Hc in H3. lia.
        -- apply Forall_app. split; [exact Hm|]. constructor; [|constructor].
           destruct Hinv as [Hv [_ [_ Hs]]]. exists b. auto.
        -- exact Hmiss.
      * intros H. apply IH in H.
        -- destruct H as [H1 [H2 H3]]. repeat split; auto.
           rewrite entries_weight_app in H3. simpl in H3. lia.
        -- exact Hm.
        -- apply Forall_app. split; [exact Hmiss|]. constructor; [|constructor].
           eapply missing_entry_similarity; [exact Hinv|right; exact Hth].
    + intros H. apply IH in H.
      * destruct H as [H1 [H2 H3]]. repeat split; auto.
        rewrite entries_weight_app in H3. simpl in H3. lia.
      * exact Hm.
      * apply Forall_app. split; [exact Hmiss|]. constructor; [|constructor].
        eapply missing_entry_similarity; [exact Hinv|left; reflexivity].
Qed.

Lemma missing_without_similarity (threshold : float) (l : list Requirement) :
  Forall (missing_similarity threshold)
         (map (fun item =>
                 {| requirement := label item; critical := req_critical item;
                    matched_text := None; similarity := None |}) l).
Proof.
  apply Forall_forall. intros entry Hin.
  apply in_map_iff in Hin. destruct Hin as [it [<- _]].
  intros s Hs. discriminate Hs.
Qed.

(** C9, as the code has it. Whenever an entry carries a similarity, it is
    round(v, 3) of a cosine similarity v that the scorer computed: v is at
    least the threshold for an entry of [matched]; for an entry of
    [missing], v is above -1 and not at least the threshold. Nothing
    clamps v to [0, 1]. *)
Theorem match_entry_similarity_range :
  forall (embed : provider) (requirements : list dict)
         (evidence_texts : list string) (label_field : string)
         (threshold : float) (r : DimensionResult),
    _score_requirements embed requirements evidence_texts label_field
      threshold = Ok r ->
    Forall (matched_similarity threshold) (matched r)
    /\ Forall (missing_similarity threshold) (missing r).
Proof.
  intros embed requirements evidence_texts label_field threshold r.
  unfold _score_requirements.
  destruct (clean_requirements label_field requirements) as [|item items] eqn:Ec.
  { intros H. injection H as <-. simpl. split; constructor. }
  destruct (clean_evidence evidence_texts) as [|text texts] eqn:Ee.
  { intros H. injection H as <-. cbn [matched missing].
    split; [constructor|].
    exact (missing_without_similarity threshold (item :: items)). }
  destruct (_batched_embeddings embed _) as [embeddings|e]; [|discriminate].
  cbv beta iota zeta delta [bind].
  match goal with
  | |- context [match_requirements ?a ?b ?c ?d ?i ?f ?g ?h] =>
      destruct (match_requirements a b c d i f g h)
        as [[matched' missing']|e] eqn:Em; [|discriminate]
  end.
  apply match_requirements_inv in Em; [|constructor|constructor].
  destruct Em as [H1 [H2 _]].
  match goal with
  | |- context [if ?c then Ok 0%Z else ?q] =>
      destruct (if c then Ok 0%Z else q) as [sc|e]; [|discriminate]
  end.
  intros H. injection H as <-. cbn [matched missing]. auto.
Qed.


Lemma match_entry_similarity_range_witness :
  Forall (matched_similarity default_threshold) (matched python_docker_result)
  /\ Forall (missing_similarity default_threshold)
            (missing python_docker_result).
Proof.
  apply (match_entry_similarity_range (table_provider skill_vectors)
           [req_python; req_docker] ["Python developer"] "name"
           default_threshold).
  vm_compute. reflexivity.
Defined.

(** A requirement whose best evidence points away from it is reported
    missing with a negative similarity. *)
Lemma missing_entry_negative_similarity :
  exists v : float,
    _cosine_similarity [1%float; 0%float] [(-1)%float; 1%float] = Ok v
    /\ (v <? 0)%float = true
    /\ (round_nd v 3 <? 0)%float = true
    /\ _score_requirements (table_provider skill_vectors) [req_python]
         ["unrelated"] "name" default_threshold
       = Ok {| score := 0; applicable := true; matched := [];
               missing :=
                 [{| requirement := "python"; critical := true;
                     matched_text := None;
                     similarity := Some (round_nd v 3) |}];
               weight := 2 |}.
Proof.
  eexists. split; [vm_compute; reflexivity|].
  split; [vm_compute; reflexivity|].
  split; vm_compute; reflexivity.
Qed.



(** *** Cosine similarity *)

Import FloatOrder FloatFacts.

Lemma cosine_similarity_value (a b : vector) :
  _cosine_similarity a b
  = Ok (if ((sqrt (sum_squares a) =? 0) || (sqrt (sum_squares b) =? 0))%float
        then 0%float
        else (dot_product a b
              / (sqrt (sum_squares a) * sqrt (sum_squares b)))%float).
Proof.
  unfold _cosine_similarity. rewrite !math_sqrt_sum_squares. simpl bind.
  destruct (sqrt (sum_squares a) =? 0)%float eqn:Ha; [reflexivity|].
  destruct (sqrt (sum_squares b) =? 0)%float eqn:Hb; [reflexivity|].
  simpl orb. cbv iota. unfold float_truediv.
  rewrite (norm_product_not_zero a b Ha Hb). reflexivity.
Qed.

Lemma dot_product_comm (a b : vector) : dot_product a b = dot_product b a.
Proof.
  unfold dot_product. f_equal. revert b.
  induction a as [|x a IH]; intros [|y b]; simpl; try reflexivity.
  rewrite mul_comm, IH. reflexivity.
Qed.

Lemma dot_product_self (a : vector) : dot_product a a = sum_squares a.
Proof.
  unfold dot_product, sum_squares. f_equal.
  induction a as [|x a IH]; simpl; [reflexivity|]. rewrite IH. reflexivity.
Qed.

Lemma zero_cases (x : float) :
  (x =? 0)%float = true -> x = 0%float \/ x = neg_zero.
Proof.
  rewrite eqb_zero. intros H.
  rewrite <- (SF2Prim_Prim2SF x).
  destruct (Prim2SF x) as [[|]|s| |s m e]; try discriminate H; auto.
Qed.

Lemma sum_squares_zero (b : vector) :
  Forall (fun x => (x =? 0)%float = true) b -> sum_squares b = 0%float.
Proof.
  unfold sum_squares, sum.
  assert (H : forall acc, acc = 0%float ->
            Forall (fun x => (x =? 0)%float = true) b ->
            fold_left add (map (fun x => (x * x)%float) b) acc = 0%float).
  { induction b as [|x b IH]; intros acc Hacc Hb; simpl; [exact Hacc|].
    inversion Hb as [|? ? Hx Hb']; subst.
    apply IH; [|exact Hb'].
    destruct (zero_cases x Hx) as [-> | ->]; reflexivity. }
  apply H. reflexivity.
Qed.

Lemma finite_positive (d : float) :
  (0 <? d)%float = true -> (d <? infinity)%float = true ->
  exists m e, Prim2SF d = S754_finite false m e.
Proof.
  rewrite !ltb_spec. unfold SFltb.
  change (Prim2SF 0) with (S754_zero false).
  change (Prim2SF infinity) with (S754_infinity false).
  destruct (Prim2SF d) as [s|[|]| |[|] m e]; simpl; try discriminate.
  intros _ _. exists m, e. reflexivity.
Qed.

Lemma feq_finite (x d : float) (m : positive) (e : Z) :
  Prim2SF d = S754_finite false m e -> (x =? d)%float = true -> x = d.
Proof.
  intros Hd H. apply eqb_feq in H. unfold feq, sf_eq in H.
  destruct H as [Hx [_ Hc]]. rewrite Hd in Hc.
  apply Prim2SF_inj. rewrite Hd.
  destruct (Prim2SF x) as [s|[|]| |[|] mx ex]; simpl in Hc;
    try discriminate Hx; try discriminate Hc.
  injection Hc as -> ->. reflexivity.
Qed.

(** C7, as the code has it. [_cosine_similarity] never raises: it
    returns 0.0 when either norm is zero, in particular against a vector of
    zeros, and dot / (norm_a * norm_b) otherwise, the divisor being non-zero
    then. It is symmetric. For a vector whose sum of squares d is positive
    and finite, sim(a, a) is 1 when sqrt(d) * sqrt(d) gives d back exactly;
    otherwise it is 1 only up to rounding. *)
Theorem cosine_similarity_properties :
  forall a b : vector,
    returns (_cosine_similarity a b)
    /\ _cosine_similarity a b
       = Ok (if ((sqrt (sum_squares a) =? 0)
                 || (sqrt (sum_squares b) =? 0))%float
             then 0%float
             else (dot_product a b
                   / (sqrt (sum_squares a) * sqrt (sum_squares b)))%float)
    /\ (Forall (fun x => (x =? 0)%float = true) b ->
        _cosine_similarity a b = Ok 0%float
        /\ _cosine_similarity b a = Ok 0%float)
    /\ _cosine_similarity a b = _cosine_similarity b a
    /\ ((0 <? sum_squares a)%float = true ->
        (sum_squares a <? infinity)%float = true ->
        (sqrt (sum_squares a) * sqrt (sum_squares a) =? sum_squares a)%float
        = true ->
        _cosine_similarity a a = Ok 1%float).
Proof.
  intros a b. split; [|split; [|split; [|split]]].
  - rewrite cosine_similarity_value. eexists. reflexivity.
  - apply cosine_similarity_value.
  - intros Hb. rewrite !cosine_similarity_value.
    rewrite (sum_squares_zero b Hb).
    change (sqrt 0 =? 0)%float with true.
    rewrite orb_true_r. split; reflexivity.
  - rewrite !cosine_similarity_value.
    rewrite orb_comm, dot_product_comm,
      (mul_comm (sqrt (sum_squares a)) (sqrt (sum_squares b))).
    reflexivity.
  - intros Hpos Hfin Hsq.
    destruct (finite_positive _ Hpos Hfin) as [m [e Hd]].
    pose proof (feq_finite _ _ m e Hd Hsq) as Hn.
    rewrite cosine_similarity_value, dot_product_self, Hn.
    destruct (sqrt (sum_squares a) =? 0)%float eqn:Hz.
    + exfalso. destruct (zero_cases _ Hz) as [E|E]; rewrite E in Hn;
        rewrite <- Hn in Hd; discriminate Hd.
    + simpl. rewrite (div_self _ false m e Hd). reflexivity.
Qed.

Lemma cosine_similarity_properties_witness :
  _cosine_similarity [3%float; 4%float] [3%float; 4%float] = Ok 1%float
  /\ _cosine_similarity [3%float; 4%float] [0%float; neg_zero] = Ok 0%float.
Proof.
  split.
  - refine (proj2 (proj2 (proj2 (proj2
              (cosine_similarity_properties [3%float; 4%float]
                 [3%float; 4%float])))) _ _ _); reflexivity.
  - refine (proj1 (proj1 (proj2 (proj2
              (cosine_similarity_properties [3%float; 4%float]
                 [0%float; neg_zero]))) _)).
    repeat constructor.
Defined.

(** The norm of [1.0, 1.0] is not zero, yet its similarity with itself
    is 0.9999999999999998: sqrt(2) * sqrt(2) is 2.0000000000000004. *)
Lemma cosine_self_not_one :
  (sqrt (sum_squares [1%float; 1%float]) =? 0)%float = false
  /\ _cosine_similarity [1%float; 1%float] [1%float; 1%float]
     = Ok 0.9999999999999998%float
  /\ _cosine_similarity [1%float; 1%float] [1%float; 1%float] <> Ok 1%float.
Proof.
  split; [reflexivity|]. split; [vm_compute; reflexivity|].
  intros H.
  apply (f_equal (fun r => match r with
                           | Ok x => (x =? 1)%float
                           | Raise _ => false
                           end)) in H.
  vm_compute in H. discriminate H.
Qed.


(** *** The scorer returns when the provider answers *)

Lemma list_index_returns (A : Type) (l : list A) (i : nat) :
  (i < List.length l)%nat -> returns (list_index l i).
Proof.
  intros H. unfold list_index.
  destruct (nth_error l i) as [x|] eqn:E; [eexists; reflexivity|].
  apply nth_error_None in E. lia.
Qed.

Lemma best_evidence_returns (item : Requirement) (req_vector : vector)
    (evidence : list string) (evidence_embeddings : list vector) :
  forall (evidence_idx : nat) (b : float) (m : option MatchEntry),
    (evidence_idx + List.length evidence_embeddings
     <= List.length evidence)%nat ->
    returns (best_evidence item req_vector evidence evidence_embeddings
               evidence_idx b m).
Proof.
  induction evidence_embeddings as [|ev_vector rest IH];
    intros evidence_idx b m Hlen; simpl.
  - eexists. reflexivity.
  - rewrite cosine_similarity_value. simpl bind. simpl in Hlen.
    match goal with
    | |- context [if (b <? ?v)%float then _ else _] =>
        destruct (b <? v)%float
    end.
    + destruct (list_index_returns _ evidence evidence_idx ltac:(lia))
        as [text Ht].
      rewrite Ht. simpl bind. apply IH. lia.
    + apply IH. lia.
Qed.

Lemma match_requirements_returns (threshold : float)
    (requirement_embeddings : list vector) (evidence : list string)
    (evidence_embeddings : list vector) (items : list Requirement) :
  forall (idx : nat) (matched missing : list MatchEntry),
    (idx + List.length items <= List.length requirement_embeddings)%nat ->
    (List.length evidence_embeddings <= List.length evidence)%nat ->
    returns (match_requirements threshold requirement_embeddings evidence
               evidence_embeddings idx items matched missing).
Proof.
  induction items as [|item rest IH]; intros idx matched missing Hreq Hev;
    simpl.
  - eexists. reflexivity.
  - simpl in Hreq.
    destruct (list_index_returns _ requirement_embeddings idx ltac:(lia))
      as [req_vector Hv].
    rewrite Hv. simpl bind.
    destruct (best_evidence_returns item req_vector evidence
                evidence_embeddings 0 (-1) None Hev) as [[b m] Hb].
    rewrite Hb. simpl bind.
    destruct m as [entry|]; [destruct (threshold <=? b)%float|];
      apply IH; lia.
Qed.

Lemma entries_weight_nonneg (l : list MatchEntry) : (0 <= entries_weight l)%Z.
Proof.
  induction l as [|entry l IH] using rev_ind; [unfold entries_weight; simpl; lia|].
  rewrite entries_weight_app. destruct (critical entry); simpl; lia.
Qed.

(** C5. For requirements and evidence that are both non-empty after
    cleaning, the score that is returned is
    round(100 * matched_weight / total_weight): the weights count 2 for a
    critical requirement and 1 for any other, the matched weight is taken
    over the entries of [matched], and matched and missing entries
    together carry the total weight. The call does return whenever the
    provider answers with one vector per text. *)
Theorem score_is_weighted_ratio :
  forall (embed : provider) (requirements : list dict)
         (evidence_texts : list string) (label_field : string)
         (threshold : float),
    let kept := clean_requirements label_field requirements in
    let evidence := clean_evidence evidence_texts in
    let total_weight := requirements_weight kept in
    kept <> [] ->
    evidence <> [] ->
    (forall r : DimensionResult,
       _score_requirements embed requirements evidence_texts label_field
         threshold = Ok r ->
       let matched_weight := entries_weight (matched r) in
       bind (int_truediv (100 * matched_weight) total_weight) round
       = Ok (score r)
       /\ (matched_weight + entries_weight (missing r) = total_weight)%Z
       /\ total_weight
          = (Z.of_nat (List.length kept)
             + Z.of_nat (List.length (filter req_critical kept)))%Z
       /\ (0 < total_weight)%Z
       /\ applicable r = true
       /\ weight r = float_of_int total_weight)
    /\ (forall embeddings : list vector,
          embed (map label kept ++ evidence)%list = Ok embeddings ->
          List.length embeddings
          = (List.length kept + List.length evidence)%nat ->
          returns (_score_requirements embed requirements evidence_texts
                     label_field threshold)).
Proof.
  intros embed requirements evidence_texts label_field threshold
         kept evidence total_weight Hreq Hev.
  pose proof (requirements_weight_count kept) as Hcount.
  assert (Hpos : (0 < total_weight)%Z).
  { unfold total_weight. rewrite Hcount.
    destruct kept; [congruence|]. simpl List.length. lia. }
  unfold _score_requirements. fold kept. fold evidence. fold total_weight.
  destruct kept as [|item items] eqn:Ec; [congruence|].
  destruct evidence as [|text texts] eqn:Ee; [congruence|].
  assert (Ez : (total_weight =? 0)%Z = false) by (apply Z.eqb_neq; lia).
  split.
  - intros r.
    destruct (_batched_embeddings embed _) as [embeddings|e]; [|discriminate].
    cbv beta iota zeta delta [bind].
    match goal with
    | |- context [match_requirements ?a ?b ?c ?d ?i ?f ?g ?h] =>
        destruct (match_requirements a b c d i f g h)
          as [[matched' missing']|e] eqn:Em; [|discriminate]
    end.
    apply match_requirements_inv in Em; [|constructor|constructor].
    destruct Em as [_ [_ Hw]].
    change (entries_weight []) with 0%Z in Hw.
    rewrite Ez.
    destruct (int_truediv (100 * entries_weight matched') total_weight)
      as [q|e] eqn:Eq; [|discriminate].
    destruct (round q) as [sc|e] eqn:Er; [|discriminate].
    intros H. injection H as <-. cbn [matched missing score applicable weight].
    rewrite Eq, Er. fold total_weight in Hw. repeat split; auto; lia.
  - intros embeddings Hembed Hlen.
    unfold _batched_embeddings. simpl app at 1. cbv iota.
    change (label item :: (map label items ++ text :: texts)%list)
      with (map label (item :: items) ++ text :: texts)%list.
    rewrite Hembed. cbv beta iota zeta delta [bind].
    match goal with
    | |- context [match_requirements ?a ?b ?c ?d ?i ?f ?g ?h] =>
        destruct (match_requirements_returns a b c d f i g h)
          as [[matched' missing'] Hm]
    end.
    + rewrite length_firstn. simpl List.length in *. lia.
    + rewrite length_skipn. simpl List.length in *. lia.
    + rewrite Hm.
      apply match_requirements_inv in Hm; [|constructor|constructor].
      destruct Hm as [_ [_ Hw]].
      change (entries_weight []) with 0%Z in Hw. fold total_weight in Hw.
      rewrite Ez.
      pose proof (entries_weight_nonneg matched').
      pose proof (entries_weight_nonneg missing').
      destruct (score_ratio_returns (entries_weight matched') total_weight)
        as [sc Hs]; [lia|lia|].
      unfold bind in Hs.
      destruct (int_truediv (100 * entries_weight matched') total_weight)
        as [q|e]; [|discriminate].
      rewrite Hs. eexists. reflexivity.
Qed.

(** Two requirements, the critical one matched and the other one not:
    round(100 * 2 / 3) = 67. *)
Lemma score_is_weighted_ratio_witness :
  _score_requirements (table_provider skill_vectors) [req_python; req_docker]
    ["Python developer"] "name" default_threshold = Ok python_docker_result
  /\ bind (int_truediv (100 * 2) 3) round = Ok 67%Z
  /\ returns (_score_requirements (table_provider skill_vectors)
                [req_python; req_docker] ["Python developer"] "name"
                default_threshold).
Proof.
  assert (H : _score_requirements (table_provider skill_vectors)
                [req_python; req_docker] ["Python developer"] "name"
                default_threshold = Ok python_docker_result)
    by (vm_compute; reflexivity).
  assert (H1 : clean_requirements "name" [req_python; req_docker] <> [])
    by (vm_compute; discriminate).
  assert (H2 : clean_evidence ["Python developer"] <> [])
    by (vm_compute; discriminate).
  pose proof (score_is_weighted_ratio (table_provider skill_vectors)
                [req_python; req_docker] ["Python developer"] "name"
                default_threshold H1 H2) as [Hscore Hret].
  split; [exact H|]. split.
  - exact (proj1 (Hscore python_docker_result H)).
  - eapply Hret; [reflexivity|reflexivity].
Defined.

End ScoringFacts.

(** ** Preferences and ranking *)

Module RankingFacts.

Import Py RecommendationService Samples.
Open Scope string_scope.

Lemma mem_In (x : string) (l : list string) :
  PyStr.mem x l = true <-> In x l.
Proof.
  unfold PyStr.mem. rewrite existsb_exists. split.
  - intros [y [Hy E]]. apply String.eqb_eq in E. subst. exact Hy.
  - intros H. exists x. split; [exact H|apply String.eqb_refl].
Qed.

Lemma intersects_spec (xs ys : list string) :
  intersects xs ys = true <-> exists x, In x xs /\ In x ys.
Proof.
  unfold intersects. rewrite existsb_exists.
  split; intros [x [H1 H2]]; exists x; split; auto; apply mem_In; exact H2.
Qed.

Lemma In_insert_sorted (x a : string) (l : list string) :
  In x (PyStr.insert_sorted a l) <-> x = a \/ In x l.
Proof.
  induction l as [|y ys IH]; simpl.
  - intuition.
  - destruct (String.ltb y a); simpl; [rewrite IH|]; intuition.
Qed.

Lemma In_sorted (x : string) (l : list string) :
  In x (PyStr.sorted l) <-> In x l.
Proof.
  unfold PyStr.sorted. induction l as [|a l IH]; simpl; [tauto|].
  rewrite In_insert_sorted, IH. intuition.
Qed.

Lemma In_dedup (x : string) (l : list string) :
  In x (PyStr.dedup l) <-> In x l.
Proof.
  induction l as [|a l IH]; simpl; [tauto|].
  rewrite filter_In, IH. split.
  - intros [H|[H _]]; auto.
  - intros [H|H]; [left; exact H|].
    destruct (String.eqb_spec a x) as [E|E]; [left; exact E|].
    right. split; [exact H|reflexivity].
Qed.

(** The listed skills are the lower-cased names that occur on both
    sides. *)
Lemma In_sorted_intersection (x : string) (xs ys : list string) :
  In x (sorted_intersection xs ys) <-> In x xs /\ In x ys.
Proof.
  unfold sorted_intersection.
  rewrite In_sorted, In_dedup, filter_In, mem_In. tauto.
Qed.

Lemma length_take (n : nat) (s : string) :
  (String.length (PyStr.take n s) <= n)%nat.
Proof.
  unfold PyStr.take. revert s.
  induction n as [|n IH]; intros [|c s]; simpl; try lia.
  specialize (IH s). lia.
Qed.

Lemma nonempty_list_In (A : Type) (x : A) (l : list A) :
  In x l -> nonempty_list l = true.
Proof. destruct l; simpl; [tauto|reflexivity]. Qed.

(** The reason carries the skill in lower case, not as the job spells it. *)
Lemma skill_overlap_not_case_preserved :
  In "Python" (skills job_python)
  /\ snd (_evaluate_preferences job_python no_preferences ["python"])
     = ["Skill overlap: python"]
  /\ snd (_evaluate_preferences job_python no_preferences ["python"])
     <> ["Skill overlap: Python"].
Proof.
  split; [simpl; auto|]. split; [reflexivity|]. vm_compute. discriminate.
Qed.


(** *** Ranking: what a failed embedding does *)

Lemma rank_loop_app embed now preferences profile_skills resume_vector
    (pre post : list Job) (ranked : list RankedEntry) (db : Db) :
  rank_loop embed now preferences profile_skills resume_vector (pre ++ post)
            ranked db
  = match rank_loop embed now preferences profile_skills resume_vector pre
            ranked db with
    | (Ok ranked', db') =>
        rank_loop embed now preferences profile_skills resume_vector post
                  ranked' db'
    | (Raise e, db') => (Raise e, db')
    end.
Proof.
  revert ranked db. induction pre as [|job pre IH]; intros ranked db; simpl.
  - reflexivity.
  - unfold mbind.
    destruct (rank_one embed now preferences profile_skills resume_vector job db)
      as [[entry|e] db']; [apply IH|reflexivity].
Qed.

(** The provider is asked for the text of a job that has no stored
    embedding; what it raises is what [_ensure_job_embedding] raises. *)
Lemma ensure_job_embedding_raises embed now (job : Job) (db : Db) (e : exn) :
  usable (embedding job) = None ->
  PyStr.nonempty (PyStr.strip (_job_to_text job)) = true ->
  embed [PyStr.strip (_job_to_text job)] = Raise e ->
  _ensure_job_embedding embed now job db = (Raise e, db).
Proof.
  intros Hc Ht He. unfold _ensure_job_embedding. rewrite Hc.
  unfold mbind, lift, _embed_text. rewrite Ht.
  unfold AiService.embed_for_matching, AiService._batched_embeddings.
  rewrite He. reflexivity.
Qed.

Lemma rank_one_raises embed now preferences profile_skills (job : Job)
    (db : Db) (e : exn) (x : float) (xs : vector) :
  _ensure_job_embedding embed now job db = (Raise e, db) ->
  rank_one embed now preferences profile_skills (Some (x :: xs)) job db
  = (Raise e, db).
Proof.
  intros H. unfold rank_one.
  destruct (_evaluate_preferences job preferences profile_skills)
    as [pref_score pref_reasons].
  unfold mbind, similarity_signal. simpl. unfold mbind. rewrite H. reflexivity.
Qed.

(** Without a usable vector on either side the similarity part is zero
    and the entry is built from the preferences alone. *)
Lemma rank_one_without_vector embed now preferences profile_skills
    resume_vector (job : Job) (db db' : Db) (job_vector : option vector) :
  usable resume_vector = None
  \/ (_ensure_job_embedding embed now job db = (Ok job_vector, db')
      /\ usable job_vector = None) ->
  exists db'',
    rank_one embed now preferences profile_skills resume_vector job db
    = (Ok {| entry_job := job;
             entry_score :=
               round_nd
                 (total_score 0
                    (fst (_evaluate_preferences job preferences profile_skills)))
                 2;
             entry_reasons :=
               snd (_evaluate_preferences job preferences profile_skills) |},
       db'').
Proof.
  intros H. unfold rank_one.
  destruct (_evaluate_preferences job preferences profile_skills)
    as [pref_score pref_reasons]. simpl.
  unfold mbind, similarity_signal.
  destruct (usable resume_vector) as [rv|] eqn:Hrv.
  - destruct H as [H|[H1 H2]]; [discriminate|].
    unfold mbind. rewrite H1, H2. exists db'. reflexivity.
  - exists db. reflexivity.
Qed.

(** C1, as the code has it. With a resume vector present, when the
    embedding provider raises for a job that has no stored embedding, the
    ranking call raises that same exception: the jobs before it have been
    processed, the job itself and the jobs after it are not scored, and no
    ranking is returned. A job gets sim_score = 0 and the loop goes on only
    when an embedding is absent without an error (no resume vector, or the
    job yields no vector). *)
Theorem rank_jobs_embedding_failure_propagates :
  forall (embed : provider) (now : time) (preferences : PreferencePayload)
         (profile : Profile) (x : float) (xs : vector)
         (pre post : list Job) (job : Job) (db db1 : Db)
         (ranked : list RankedEntry) (e : exn),
    rank_loop embed now preferences (_extract_profile_skills profile)
              (Some (x :: xs)) pre [] db = (Ok ranked, db1) ->
    usable (embedding job) = None ->
    PyStr.nonempty (PyStr.strip (_job_to_text job)) = true ->
    embed [PyStr.strip (_job_to_text job)] = Raise e ->
    _rank_jobs embed now (pre ++ job :: post) preferences profile
               (Some (x :: xs)) db
    = (Raise e, db1)
    /\ (forall resume_vector job' db2 db3 job_vector,
          usable resume_vector = None
          \/ (_ensure_job_embedding embed now job' db2 = (Ok job_vector, db3)
              /\ usable job_vector = None) ->
          exists db4,
            rank_one embed now preferences (_extract_profile_skills profile)
                     resume_vector job' db2
            = (Ok {| entry_job := job';
                     entry_score :=
                       round_nd
                         (total_score 0
                            (fst (_evaluate_preferences job' preferences
                                    (_extract_profile_skills profile)))) 2;
                     entry_reasons :=
                       snd (_evaluate_preferences job' preferences
                              (_extract_profile_skills profile)) |}, db4)).
Proof.
  intros embed now preferences profile x xs pre post job db db1 ranked e
         Hpre Hc Ht He.
  split.
  - unfold _rank_jobs, mbind. rewrite rank_loop_app, Hpre. simpl.
    unfold mbind.
    rewrite (rank_one_raises embed now preferences _ job db1 e x xs)
      by (apply ensure_job_embedding_raises; assumption).
    reflexivity.
  - intros resume_vector job' db2 db3 job_vector H.
    eapply rank_one_without_vector. exact H.
Qed.

Lemma rank_jobs_embedding_failure_propagates_witness :
  _rank_jobs flaky_provider 0%Z ([job_a] ++ job_b :: [job_c]) no_preferences
             (guest []) (Some [1%float; 0%float])
             (store_of [job_a; job_b; job_c])
  = (Raise (ProviderError "embedding service unavailable"),
     snd (rank_loop flaky_provider 0%Z no_preferences [] (Some [1%float; 0%float])
            [job_a] [] (store_of [job_a; job_b; job_c]))).
Proof.
  refine (proj1 (rank_jobs_embedding_failure_propagates flaky_provider 0%Z
                   no_preferences (guest []) 1%float [0%float] [job_a] [job_c]
                   job_b (store_of [job_a; job_b; job_c]) _ _ _ _ _ _ _)).
  - vm_compute. reflexivity.
  - reflexivity.
  - reflexivity.
  - reflexivity.
Defined.

(** One job whose embedding cannot be computed makes the whole ranking
    call fail, although the provider answers for the two other jobs. *)
Lemma rank_jobs_single_failure_aborts :
  (exists v, flaky_provider [PyStr.strip (_job_to_text job_a)] = Ok v)
  /\ (exists v, flaky_provider [PyStr.strip (_job_to_text job_c)] = Ok v)
  /\ flaky_provider [PyStr.strip (_job_to_text job_b)]
     = Raise (ProviderError "embedding service unavailable")
  /\ fst (_rank_jobs flaky_provider 0%Z [job_a; job_b; job_c] no_preferences
            (guest []) (Some [1%float; 0%float])
            (store_of [job_a; job_b; job_c]))
     = Raise (ProviderError "embedding service unavailable")
  /\ ~ returns (fst (_rank_jobs flaky_provider 0%Z [job_a; job_b; job_c]
                       no_preferences (guest []) (Some [1%float; 0%float])
                       (store_of [job_a; job_b; job_c]))).
Proof.
  split; [eexists; vm_compute; reflexivity|].
  split; [eexists; vm_compute; reflexivity|].
  split; [vm_compute; reflexivity|].
  assert (H : fst (_rank_jobs flaky_provider 0%Z [job_a; job_b; job_c]
                     no_preferences (guest []) (Some [1%float; 0%float])
                     (store_of [job_a; job_b; job_c]))
              = Raise (ProviderError "embedding service unavailable"))
    by (vm_compute; reflexivity).
  split; [exact H|]. rewrite H. intros [a Ha]. discriminate Ha.
Qed.


(** *** The sort at the end of [_rank_jobs] *)

Section Sort_desc.

Import FloatOrder FloatFacts.

Context {A : Type} (key : A -> float).

Lemma insert_desc_perm (x : A) (l : list A) :
  Permutation (insert_desc key x l) (x :: l).
Proof.
  induction l as [|y ys IH]; simpl; [apply Permutation_refl|].
  destruct (key x <? key y)%float; [|apply Permutation_refl].
  eapply Permutation_trans; [apply perm_skip; exact IH|apply perm_swap].
Qed.

Lemma sort_desc_perm (l : list A) : Permutation (sort_desc key l) l.
Proof.
  unfold sort_desc. induction l as [|x l IH]; simpl; [constructor|].
  eapply Permutation_trans; [apply insert_desc_perm|].
  apply perm_skip. exact IH.
Qed.

Lemma not_below_of_not_lt (a b : A) :
  not_nan (key a) -> not_nan (key b) ->
  (key a <? key b)%float = false -> not_below key a b.
Proof.
  intros Ha Hb H. unfold not_below. apply leb_flt.
  apply ltb_false_iff in H.
  destruct (flt_total (key a) (key b) Ha Hb) as [H1|[H1|H1]];
    [contradiction|right; apply feq_sym; exact H1|left; exact H1].
Qed.

Lemma not_below_trans (a b c : A) :
  not_below key a b -> not_below key b c -> not_below key a c.
Proof.
  unfold not_below. rewrite !leb_flt.
  intros [H1|H1] [H2|H2].
  - left. eapply flt_trans; eassumption.
  - left. eapply flt_feq_l; eassumption.
  - left. eapply flt_feq_r; eassumption.
  - right. eapply feq_trans; eassumption.
Qed.

Lemma insert_desc_sorted (x : A) (l : list A) :
  not_nan (key x) -> keys_not_nan key l ->
  StronglySorted (not_below key) l ->
  StronglySorted (not_below key) (insert_desc key x l).
Proof.
  intros Hx Hl Hs. induction Hs as [|y ys Hs IH Hy]; simpl.
  - constructor; constructor.
  - inversion Hl as [|? ? Hy' Hys]; subst.
    destruct (key x <? key y)%float eqn:E.
    + constructor; [apply IH; exact Hys|].
      apply (Permutation_Forall (Permutation_sym (insert_desc_perm x ys))).
      constructor; [|exact Hy].
      unfold not_below. apply leb_flt. left. apply ltb_flt. exact E.
    + assert (Hxy : not_below key x y) by (apply not_below_of_not_lt; assumption).
      constructor; [constructor; assumption|].
      constructor; [exact Hxy|].
      eapply Forall_impl; [|exact Hy].
      intros z Hz. eapply not_below_trans; eassumption.
Qed.

Lemma sort_desc_keys (l : list A) :
  keys_not_nan key l -> keys_not_nan key (sort_desc key l).
Proof.
  intros H. unfold keys_not_nan.
  apply (Permutation_Forall (Permutation_sym (sort_desc_perm l))). exact H.
Qed.

Lemma sort_desc_sorted (l : list A) :
  keys_not_nan key l -> StronglySorted (not_below key) (sort_desc key l).
Proof.
  induction 1 as [|x l Hx Hl IH]; [constructor|].
  change (sort_desc key (x :: l)) with (insert_desc key x (sort_desc key l)).
  apply insert_desc_sorted; [exact Hx|apply sort_desc_keys; exact Hl|exact IH].
Qed.

(** Stability: the entries with a given key keep their order. *)
Lemma insert_desc_stable (v : float) (x : A) (l : list A) :
  filter (fun a => (key a =? v)%float) (insert_desc key x l)
  = filter (fun a => (key a =? v)%float) (x :: l).
Proof.
  induction l as [|y ys IH]; [reflexivity|].
  simpl insert_desc. destruct (key x <? key y)%float eqn:E; [|reflexivity].
  cbn [filter] in *. rewrite IH.
  destruct (key x =? v)%float eqn:Ex; [|reflexivity].
  destruct (key y =? v)%float eqn:Ey; [|reflexivity].
  exfalso. apply ltb_flt in E. apply eqb_feq in Ex, Ey.
  apply (flt_not_feq _ _ E).
  eapply feq_trans; [exact Ex|apply feq_sym; exact Ey].
Qed.

Lemma sort_desc_stable (v : float) (l : list A) :
  filter (fun a => (key a =? v)%float) (sort_desc key l)
  = filter (fun a => (key a =? v)%float) l.
Proof.
  induction l as [|x l IH]; [reflexivity|].
  change (sort_desc key (x :: l)) with (insert_desc key x (sort_desc key l)).
  rewrite insert_desc_stable. cbn [filter]. rewrite IH. reflexivity.
Qed.

End Sort_desc.


Import FloatOrder FloatFacts.
Import Invariants.

(** [min(100.0, max(0.0, x))] is the clamp of [x] to [0, 100]. *)
Lemma total_score_clamp (sim_score pref_score : float) :
  total_score sim_score pref_score
  = Spec.clamp (sim_score + pref_score) 0 100.
Proof.
  unfold total_score, Spec.clamp, min2, max2.
  destruct (0 <? sim_score + pref_score)%float; reflexivity.
Qed.

Lemma total_score_not_nan (sim_score pref_score : float) :
  not_nan (total_score sim_score pref_score).
Proof.
  unfold total_score. apply min2_not_nan; [reflexivity|].
  apply max2_zero_not_nan.
Qed.

(** What [_ensure_job_embedding] returns is the stored vector of the
    job, or the provider's answer for its text. *)
Lemma ensure_job_embedding_vector embed now (job : Job)
    (job_vector : option vector) (db db' : Db) :
  _ensure_job_embedding embed now job db = (Ok job_vector, db') ->
  job_vector_of embed job = Ok job_vector.
Proof.
  unfold _ensure_job_embedding, job_vector_of.
  destruct (embedding job) as [[|x cached]|]; cbn [usable].
  2: { intros H. injection H as <- _. reflexivity. }
  all: unfold mbind, lift;
    destruct (_embed_text embed (_job_to_text job)) as [v|e]; [|discriminate];
    destruct (usable v); intros H; injection H as <- _; reflexivity.
Qed.

Lemma similarity_signal_ok embed now resume_vector (job : Job)
    (reasons reasons' : list string) (sim_score : float) (db db' : Db) :
  similarity_signal embed now resume_vector job reasons db
  = (Ok (sim_score, reasons'), db') ->
  sim_score_of embed resume_vector job = Ok sim_score.
Proof.
  unfold similarity_signal, sim_score_of.
  destruct resume_vector as [[|r rv]|]; cbn [usable];
    try (intros H; injection H as <- _ _; reflexivity).
  unfold mbind.
  destruct (_ensure_job_embedding embed now job db) as [[job_vector|e] db1]
    eqn:Ej; [|discriminate].
  rewrite (ensure_job_embedding_vector _ _ _ _ _ _ Ej). cbn [bind].
  destruct job_vector as [[|j jv]|]; cbn [usable];
    try (intros H; injection H as <- _ _; reflexivity).
  unfold lift.
  destruct (AiService.cosine_similarity (r :: rv) (j :: jv))
    as [similarity|e]; [|discriminate].
  cbn [bind].
  destruct (0 <? similarity)%float eqn:Hpos;
    [|intros H; injection H as <- _ _; reflexivity].
  destruct (int_of_float (similarity * 100)) as [percent|e]; [|discriminate].
  intros H. injection H as <- _ _. reflexivity.
Qed.

Lemma rank_one_ok embed now preferences profile_skills resume_vector
    (job : Job) (entry : RankedEntry) (db db' : Db) :
  rank_one embed now preferences profile_skills resume_vector job db
  = (Ok entry, db') ->
  entry_job entry = job
  /\ scored_as embed resume_vector preferences profile_skills entry.
Proof.
  unfold rank_one, scored_as.
  destruct (_evaluate_preferences job preferences profile_skills)
    as [pref_score pref_reasons] eqn:Ep.
  unfold mbind.
  destruct (similarity_signal embed now resume_vector job pref_reasons db)
    as [[[sim_score reasons]|e] db1] eqn:Es; [|discriminate].
  intros H. injection H as <- _. simpl. split; [reflexivity|].
  exists sim_score. rewrite Ep. simpl.
  split; [|rewrite total_score_clamp; reflexivity].
  eapply similarity_signal_ok. exact Es.
Qed.

Lemma rank_loop_ok embed now preferences profile_skills resume_vector
    (jobs : list Job) :
  forall (acc ranked : list RankedEntry) (db db' : Db),
    rank_loop embed now preferences profile_skills resume_vector jobs acc db
    = (Ok ranked, db') ->
    exists fresh,
      ranked = (acc ++ fresh)%list
      /\ map entry_job fresh = jobs
      /\ Forall (scored_as embed resume_vector preferences profile_skills)
                fresh.
Proof.
  induction jobs as [|job rest IH]; intros acc ranked db db'; simpl.
  - intros H. injection H as <- _. exists []. rewrite app_nil_r. auto.
  - unfold mbind.
    destruct (rank_one embed now preferences profile_skills resume_vector
                job db) as [[entry|e] db1] eqn:E1; [|discriminate].
    intros H. apply IH in H. destruct H as [fresh [H1 [H2 H3]]].
    apply rank_one_ok in E1. destruct E1 as [Ej Es].
    exists (entry :: fresh). rewrite H1, <- app_assoc. simpl.
    repeat split; [congruence|constructor; assumption].
Qed.

Lemma scored_as_not_nan embed resume_vector preferences profile_skills
    (entry : RankedEntry) :
  scored_as embed resume_vector preferences profile_skills entry ->
  not_nan (entry_score entry).
Proof.
  intros [sim_score [_ H]]. rewrite H, <- total_score_clamp.
  apply round_nd_not_nan, total_score_not_nan.
Qed.

(** C6, as the code has it. Each job gets the score
    round(clamp(sim_score + pref_score, 0, 100), 2), one entry per job.
    Here pref_score is what [_evaluate_preferences] returns for the job,
    and sim_score is 70 times the cosine of the resume vector and the
    job's vector (the one the job carries, else the provider's answer for
    the text of the job) when that cosine is above zero, and zero when it
    is not or when a vector is absent or empty. The entries are returned
    ordered by that rounded score, largest first, and entries whose
    rounded scores are equal stay in the order of the input list. *)
Theorem rank_jobs_sorted_by_rounded_score :
  forall (embed : provider) (now : time) (jobs : list Job)
         (preferences : PreferencePayload) (profile : Profile)
         (resume_vector : option vector) (db db' : Db)
         (out : list RankedEntry),
    _rank_jobs embed now jobs preferences profile resume_vector db
    = (Ok out, db') ->
    exists ranked : list RankedEntry,
      map entry_job ranked = jobs
      /\ Forall (scored_as embed resume_vector preferences
                           (_extract_profile_skills profile)) ranked
      /\ out = sort_desc entry_score ranked
      /\ Permutation out ranked
      /\ StronglySorted (not_below entry_score) out
      /\ (forall v : float,
            filter (fun entry => (entry_score entry =? v)%float) out
            = filter (fun entry => (entry_score entry =? v)%float) ranked).
Proof.
  intros embed now jobs preferences profile resume_vector db db' out.
  unfold _rank_jobs, mbind.
  destruct (rank_loop embed now preferences (_extract_profile_skills profile)
              resume_vector jobs [] db) as [[ranked|e] db1] eqn:E; [|discriminate].
  intros H. injection H as <- _.
  apply rank_loop_ok in E. destruct E as [fresh [H1 [H2 H3]]].
  simpl in H1. subst fresh. exists ranked.
  split; [exact H2|]. split; [exact H3|]. split; [reflexivity|].
  split; [apply sort_desc_perm|]. split.
  - apply sort_desc_sorted. unfold keys_not_nan.
    eapply Forall_impl; [|exact H3].
    intros entry. apply scored_as_not_nan.
  - intros v. apply sort_desc_stable.
Qed.

(** Two jobs that both score 55.0 and arrive as [A, B] are returned as
    [A, B]. *)
Lemma rank_jobs_sorted_by_rounded_score_witness :
  exists out db',
    _rank_jobs silent_provider 0%Z [half_job "A"; half_job "B"] two_matches
               (guest []) (Some unit_resume)
               (store_of [half_job "A"; half_job "B"])
    = (Ok out, db')
    /\ map (fun entry => (_id (entry_job entry), entry_score entry)) out
       = [("A", 55%float); ("B", 55%float)]
    /\ sim_score_of silent_provider (Some unit_resume) (half_job "A")
       = Ok 35%float
    /\ fst (_evaluate_preferences (half_job "A") two_matches []) = 20%float
    /\ Forall (scored_as silent_provider (Some unit_resume) two_matches []) out
    /\ StronglySorted (not_below entry_score) out.
Proof.
  eexists. eexists. split; [vm_compute; reflexivity|].
  split; [reflexivity|].
  split; [vm_compute; reflexivity|].
  split; [vm_compute; reflexivity|].
  destruct (rank_jobs_sorted_by_rounded_score silent_provider 0%Z
              [half_job "A"; half_job "B"] two_matches (guest [])
              (Some unit_resume) (store_of [half_job "A"; half_job "B"])
              _ _ ltac:(vm_compute; reflexivity))
    as [ranked [_ [Hscored [_ [Hperm [Hs _]]]]]].
  split; [|exact Hs].
  apply (Permutation_Forall (Permutation_sym Hperm)). exact Hscored.
Defined.

(** The order is by the rounded score, not by the total itself: the two
    jobs below have totals 69.9965... and 70.0, both stored as 70.0, and
    the job with the smaller total is returned first. *)
Lemma rank_jobs_not_sorted_by_total_score :
  exists c_near c_exact : float,
    AiService.cosine_similarity [1%float; 0%float] [1%float; 0.01%float]
    = Ok c_near
    /\ AiService.cosine_similarity [1%float; 0%float] [1%float; 0%float]
       = Ok c_exact
    /\ (total_score (c_near * SIMILARITY_WEIGHT) 0
        <? total_score (c_exact * SIMILARITY_WEIGHT) 0)%float = true
    /\ fst (_evaluate_preferences job_near no_preferences []) = 0%float
    /\ fst (_evaluate_preferences job_exact no_preferences []) = 0%float
    /\ fst (_rank_jobs silent_provider 0%Z [job_near; job_exact] no_preferences
              (guest []) (Some [1%float; 0%float])
              (store_of [job_near; job_exact]))
       = Ok [{| entry_job := job_near; entry_score := 70;
                entry_reasons := ["Resume alignment 99%"] |};
             {| entry_job := job_exact; entry_score := 70;
                entry_reasons := ["Resume alignment 100%"] |}]
    /\ entry_score {| entry_job := job_near; entry_score := 70;
                      entry_reasons := ["Resume alignment 99%"] |}
       <> total_score (c_near * SIMILARITY_WEIGHT) 0.
Proof.
  eexists. eexists.
  split; [vm_compute; reflexivity|].
  split; [vm_compute; reflexivity|].
  split; [vm_compute; reflexivity|].
  split; [reflexivity|]. split; [reflexivity|].
  split; [vm_compute; reflexivity|].
  vm_compute. intros H.
  apply (f_equal (fun x => (x =? 70)%float)) in H.
  vm_compute in H. discriminate H.
Qed.

End RankingFacts.


(** * Further properties of the code

    Properties of the functions around the ones above: what they keep,
    what they return at the edges, and how they compose. *)

(** ** Trimming, normalised skills and the overlap of two skill lists *)

Module TextFacts.

Import PyStr.
Open Scope string_scope.

Lemma rstrip_cons (c : ascii) (rest : string) :
  rstrip (String c rest)
  = match rstrip rest with
    | "" => if is_space c then "" else String c ""
    | rest' => String c rest'
    end.
Proof. reflexivity. Qed.

Lemma rstrip_idem (s : string) : rstrip (rstrip s) = rstrip s.
Proof.
  induction s as [|c rest IH]; [reflexivity|].
  rewrite rstrip_cons.
  destruct (rstrip rest) as [|d r'] eqn:E.
  - destruct (is_space c) eqn:Hc; [reflexivity|].
    rewrite rstrip_cons. simpl. rewrite Hc. reflexivity.
  - rewrite rstrip_cons, IH. reflexivity.
Qed.

Lemma lstrip_fixed (c : ascii) (s : string) :
  is_space c = false -> lstrip (String c s) = String c s.
Proof. intros H. simpl. rewrite H. reflexivity. Qed.

Lemma lstrip_head (s : string) :
  lstrip s = "" \/ exists c r, lstrip s = String c r /\ is_space c = false.
Proof.
  induction s as [|c rest IH]; simpl; [left; reflexivity|].
  destruct (is_space c) eqn:Hc; [exact IH|].
  right. exists c, rest. split; [reflexivity|exact Hc].
Qed.

Lemma rstrip_head (c : ascii) (s : string) :
  is_space c = false -> exists r, rstrip (String c s) = String c r.
Proof.
  intros H. simpl. destruct (rstrip s) as [|d r'].
  - rewrite H. exists "". reflexivity.
  - exists (String d r'). reflexivity.
Qed.

Lemma strip_idem (s : string) : strip (strip s) = strip s.
Proof.
  unfold strip.
  destruct (lstrip_head s) as [E|[c [r [E Hc]]]]; rewrite E.
  - reflexivity.
  - destruct (rstrip_head c r Hc) as [r' E'].
    rewrite <- (rstrip_idem (String c r)) at 2.
    rewrite E'. rewrite (lstrip_fixed c r' Hc). reflexivity.
Qed.

End TextFacts.

Module NormalizeFacts.

Import PyStr ResumeFitService UserJobs TextFacts.
Open Scope string_scope.

Lemma lower_empty (s : string) : lower s = "" -> s = "".
Proof. destruct s; simpl; [reflexivity|discriminate]. Qed.

Lemma nonempty_true (s : string) : nonempty s = true <-> s <> "".
Proof. destruct s; simpl; split; congruence. Qed.

(** What the loop keeps true of [unique]. *)
Lemma normalize_loop_clean (values : list string) :
  forall unique : list string,
    Forall (fun x => x <> "" /\ strip x = x) unique ->
    NoDup (map lower unique) ->
    Forall (fun x => x <> "" /\ strip x = x) (normalize_loop values unique)
    /\ NoDup (map lower (normalize_loop values unique)).
Proof.
  induction values as [|item rest IH]; intros unique Hc Hn; simpl; [auto|].
  destruct (nonempty (strip item)) eqn:He; simpl; [|apply IH; assumption].
  destruct (mem (lower (strip item)) (map lower unique)) eqn:Hm; simpl;
    [apply IH; assumption|].
  apply IH.
  - apply Forall_app. split; [exact Hc|]. constructor; [|constructor].
    split; [apply nonempty_true; exact He|apply strip_idem].
  - rewrite map_app. simpl.
    apply (Permutation_NoDup (Permutation_cons_append _ _)).
    constructor; [|exact Hn].
    intros Hin. apply RankingFacts.mem_In in Hin. congruence.
Qed.

Lemma normalize_loop_first (values : list string) :
  forall (unique : list string) (x : string),
    In x (normalize_loop values unique) ->
    In x unique
    \/ (x <> "" /\ ~ In (lower x) (map lower unique)
        /\ exists pre item post,
             values = (pre ++ item :: post)%list /\ x = strip item
             /\ forall y, In y pre -> lower (strip y) <> lower x).
Proof.
  induction values as [|item rest IH]; intros unique x; simpl; [auto|].
  assert (Hskip :
            (nonempty (strip item) = false
             \/ In (lower (strip item)) (map lower unique)) ->
            In x (normalize_loop rest unique) ->
            In x unique
            \/ (x <> "" /\ ~ In (lower x) (map lower unique)
                /\ exists pre item0 post,
                     item :: rest = (pre ++ item0 :: post)%list
                     /\ x = strip item0
                     /\ forall y, In y pre -> lower (strip y) <> lower x)).
  { intros Hwhy Hin. apply IH in Hin.
    destruct Hin as [Hin|[Hx [Hnot [pre [item0 [post [E [Ex Hpre]]]]]]]];
      [left; exact Hin|].
    right. split; [exact Hx|]. split; [exact Hnot|].
    exists (item :: pre), item0, post. split; [rewrite E; reflexivity|].
    split; [exact Ex|].
    intros y [<-|Hy]; [|apply Hpre; exact Hy].
    intros Eq. destruct Hwhy as [Hw|Hw].
    - destruct (strip item); [|discriminate Hw].
      simpl in Eq. symmetry in Eq. apply lower_empty in Eq. contradiction.
    - rewrite Eq in Hw. contradiction. }
  destruct (nonempty (strip item)) eqn:He; simpl;
    [|apply Hskip; left; reflexivity].
  destruct (mem (lower (strip item)) (map lower unique)) eqn:Hm; simpl.
  { apply Hskip. right. apply RankingFacts.mem_In. exact Hm. }
  assert (Hfresh : ~ In (lower (strip item)) (map lower unique)).
  { intros Hin. apply RankingFacts.mem_In in Hin. congruence. }
  intros Hin. apply IH in Hin.
  destruct Hin as [Hin|[Hx [Hnot [pre [item0 [post [E [Ex Hpre]]]]]]]].
  - apply in_app_or in Hin. destruct Hin as [Hin|[<-|[]]]; [left; exact Hin|].
    right. split; [apply nonempty_true; exact He|]. split; [exact Hfresh|].
    exists [], item, rest. split; [reflexivity|]. split; [reflexivity|].
    intros y [].
  - right. split; [exact Hx|].
    rewrite map_app, in_app_iff in Hnot. simpl in Hnot.
    split; [tauto|].
    exists (item :: pre), item0, post. split; [rewrite E; reflexivity|].
    split; [exact Ex|].
    intros y [<-|Hy]; [|apply Hpre; exact Hy].
    intros Eq. apply Hnot. right. left. exact Eq.
Qed.

Lemma normalize_loop_keeps (values : list string) :
  forall (unique : list string) (x : string),
    In x unique -> In x (normalize_loop values unique).
Proof.
  induction values as [|item rest IH]; intros unique x Hin; simpl; [exact Hin|].
  destruct (nonempty (strip item) && _); apply IH; [|exact Hin].
  apply in_or_app. left. exact Hin.
Qed.

Lemma normalize_loop_covers (values : list string) :
  forall (unique : list string) (item : string),
    In item values -> strip item <> "" ->
    exists x, In x (normalize_loop values unique)
              /\ lower x = lower (strip item).
Proof.
  induction values as [|a rest IH]; intros unique item Hin Hne;
    [destruct Hin|]. destruct Hin as [<-|Hin]; simpl.
  - apply nonempty_true in Hne. rewrite Hne. simpl.
    destruct (mem (lower (strip a)) (map lower unique)) eqn:Hm; simpl.
    + apply RankingFacts.mem_In in Hm. apply in_map_iff in Hm.
      destruct Hm as [x [Ex Hx]]. exists x. split; [|exact Ex].
      apply normalize_loop_keeps. exact Hx.
    + exists (strip a). split; [|reflexivity].
      apply normalize_loop_keeps. apply in_or_app. right. left. reflexivity.
  - destruct (nonempty (strip a) && _); apply IH; assumption.
Qed.

Lemma normalize_loop_fixed (l : list string) :
  forall unique : list string,
    Forall (fun x => x <> "" /\ strip x = x) l ->
    NoDup (map lower (unique ++ l)) ->
    normalize_loop l unique = (unique ++ l)%list.
Proof.
  induction l as [|item rest IH]; intros unique Hc Hn; simpl.
  - rewrite app_nil_r. reflexivity.
  - inversion Hc as [|? ? [Hne Hs] Hc']; subst.
    rewrite Hs. apply nonempty_true in Hne. rewrite Hne. simpl.
    rewrite map_app in Hn. simpl in Hn.
    pose proof (NoDup_remove_2 _ _ _ Hn) as Hnot.
    destruct (mem (lower item) (map lower unique)) eqn:Hm.
    + exfalso. apply Hnot. apply in_or_app. left.
      apply RankingFacts.mem_In. exact Hm.
    + simpl. rewrite IH; [rewrite <- app_assoc; reflexivity|exact Hc'|].
      rewrite <- app_assoc. simpl. rewrite map_app. simpl. exact Hn.
Qed.

(** X1. [_normalize_skill_set] and [_normalize_strings] run the same
    loop, and [_normalize_strings(None)] is the empty list. Every name of
    the result is not empty and is trimmed; no two names are equal up to
    case; every input that is not blank is represented up to case; and
    each name of the result is the trimmed form of the first input with
    its lower-case form. *)
Theorem normalized_strings_are_clean :
  forall values : list string,
    let out := _normalize_skill_set values in
    _normalize_strings (Some values) = out
    /\ _normalize_strings None = []
    /\ Forall Expected.trimmed_name out
    /\ NoDup (map lower out)
    /\ (forall item, In item values -> strip item <> "" ->
        exists x, In x out /\ lower x = lower (strip item))
    /\ (forall x, In x out ->
        exists pre item post,
          values = (pre ++ item :: post)%list /\ x = strip item
          /\ forall y, In y pre -> lower (strip y) <> lower x).
Proof.
  intros values out. unfold out, _normalize_skill_set, _normalize_strings.
  split; [reflexivity|]. split; [reflexivity|].
  destruct (normalize_loop_clean values [] (Forall_nil _) (NoDup_nil _))
    as [Hc Hn].
  split; [exact Hc|]. split; [exact Hn|]. split.
  - intros item Hin Hne. apply normalize_loop_covers; assumption.
  - intros x Hin. apply normalize_loop_first in Hin.
    destruct Hin as [[]|[_ [_ H]]]. exact H.
Qed.

(** X2. Normalising a list that is already normalised changes nothing. *)
Theorem normalize_skill_set_idempotent :
  forall values : list string,
    _normalize_skill_set (_normalize_skill_set values)
    = _normalize_skill_set values
    /\ _normalize_strings (Some (_normalize_strings (Some values)))
       = _normalize_strings (Some values).
Proof.
  intros values.
  assert (H : _normalize_skill_set (_normalize_skill_set values)
              = _normalize_skill_set values).
  { unfold _normalize_skill_set at 1.
    destruct (normalize_loop_clean values [] (Forall_nil _) (NoDup_nil _))
      as [Hc Hn].
    apply (normalize_loop_fixed _ [] Hc Hn). }
  split; exact H.
Qed.

End NormalizeFacts.

Module OverlapFacts.

Import PyStr ResumeFitService TextFacts NormalizeFacts.
Open Scope string_scope.

Lemma lookup_lower_cases (items : list string) (key : string) :
  forall found : string,
    (lookup_lower items key found = found /\ ~ In key (map lower items))
    \/ (In (lookup_lower items key found) items
        /\ lower (lookup_lower items key found) = key).
Proof.
  induction items as [|item rest IH]; intros found; simpl.
  - left. tauto.
  - destruct (String.eqb_spec (lower item) key) as [E|E].
    + destruct (IH item) as [[H1 H2]|[H1 H2]].
      * right. rewrite H1. split; [left; reflexivity|exact E].
      * right. split; [right; exact H1|exact H2].
    + destruct (IH found) as [[H1 H2]|[H1 H2]].
      * left. split; [exact H1|]. tauto.
      * right. split; [right; exact H1|exact H2].
Qed.

Lemma lookup_lower_found (items : list string) (key found : string) :
  In key (map lower items) ->
  In (lookup_lower items key found) items
  /\ lower (lookup_lower items key found) = key.
Proof.
  intros Hin. destruct (lookup_lower_cases items key found) as [[_ H]|H];
    [contradiction|exact H].
Qed.

Lemma NoDup_dedup (l : list string) : NoDup (dedup l).
Proof.
  induction l as [|x xs IH]; simpl; constructor.
  - rewrite filter_In. intros [_ H]. rewrite String.eqb_refl in H.
    discriminate H.
  - apply NoDup_filter. exact IH.
Qed.

Lemma filter_all (A : Type) (f : A -> bool) (l : list A) :
  (forall x, In x l -> f x = true) -> filter f l = l.
Proof.
  induction l as [|a l IH]; intros H; simpl; [reflexivity|].
  rewrite (H a (or_introl eq_refl)). f_equal. apply IH.
  intros x Hx. apply H. right. exact Hx.
Qed.

Lemma dedup_fixed (l : list string) : NoDup l -> dedup l = l.
Proof.
  induction l as [|x xs IH]; intros H; simpl; [reflexivity|].
  inversion H as [|? ? Hx Hxs]; subst. rewrite (IH Hxs). f_equal.
  apply filter_all. intros y Hy.
  destruct (String.eqb_spec x y) as [E|E]; [subst; contradiction|reflexivity].
Qed.

Lemma ltb_leb (x y : string) : String.ltb x y = true -> String.leb x y = true.
Proof.
  unfold String.ltb, String.leb. destruct (String.compare x y); congruence.
Qed.

Lemma not_ltb_leb (x y : string) :
  String.ltb y x = false -> String.leb x y = true.
Proof.
  unfold String.ltb, String.leb. rewrite (String.compare_antisym x y).
  destruct (String.compare y x); simpl; congruence.
Qed.

Lemma insert_sorted_Sorted (x : string) (l : list string) :
  Sorted (fun a b => String.leb a b = true) l ->
  Sorted (fun a b => String.leb a b = true) (insert_sorted x l).
Proof.
  induction l as [|y ys IH]; intros H; simpl.
  - constructor; constructor.
  - inversion H as [|? ? Hs Hh]; subst.
    destruct (String.ltb y x) eqn:E.
    + constructor; [apply IH; exact Hs|].
      destruct ys as [|z zs]; simpl.
      * constructor. apply ltb_leb. exact E.
      * destruct (String.ltb z x); constructor.
        -- inversion Hh; assumption.
        -- apply ltb_leb. exact E.
    + constructor; [exact H|]. constructor. apply not_ltb_leb. exact E.
Qed.

Lemma sorted_Sorted (l : list string) :
  Sorted (fun a b => String.leb a b = true) (sorted l).
Proof.
  unfold sorted. induction l as [|x l IH]; simpl; [constructor|].
  apply insert_sorted_Sorted. exact IH.
Qed.

Lemma insert_sorted_perm (x : string) (l : list string) :
  Permutation (insert_sorted x l) (x :: l).
Proof.
  induction l as [|y ys IH]; simpl; [reflexivity|].
  destruct (String.ltb y x); [|reflexivity].
  rewrite IH. apply perm_swap.
Qed.

Lemma sorted_perm (l : list string) : Permutation (sorted l) l.
Proof.
  unfold sorted. induction l as [|x l IH]; simpl; [reflexivity|].
  rewrite insert_sorted_perm. constructor. exact IH.
Qed.

Lemma length_sorted (l : list string) :
  List.length (sorted l) = List.length l.
Proof. apply Permutation_length, sorted_perm. Qed.

(** Two lists without repetition have as many common elements counted
    from one side as from the other. *)
Lemma common_count (xs ys : list string) :
  NoDup xs -> NoDup ys ->
  List.length (filter (fun x => mem x ys) xs)
  = List.length (filter (fun y => mem y xs) ys).
Proof.
  intros Hx Hy. apply Permutation_length. apply NoDup_Permutation.
  - apply NoDup_filter. exact Hx.
  - apply NoDup_filter. exact Hy.
  - intros x. rewrite !filter_In, !RankingFacts.mem_In. tauto.
Qed.

Lemma skill_overlap_count (profile_skills job_skills : list string) :
  let overlap := _skill_overlap profile_skills job_skills in
  (List.length (ov_matched overlap) + List.length (ov_gaps overlap)
   = List.length (dedup (map lower job_skills)))%nat.
Proof.
  unfold _skill_overlap. cbn [ov_matched ov_gaps].
  rewrite !length_sorted, !length_map.
  rewrite (common_count _ _ (NoDup_dedup _) (NoDup_dedup _)).
  apply filter_length.
Qed.

(** X3. [_skill_overlap]: a matched skill is a profile skill that a job
    skill equals up to case; a gap is a job skill that no profile skill
    equals up to case; every job skill is represented, up to case, in one
    of the two lists; together they have one entry per distinct
    lower-cased job skill; and both lists are sorted. *)
Theorem skill_overlap_splits_job_skills :
  forall profile_skills job_skills : list string,
    let overlap := _skill_overlap profile_skills job_skills in
    (forall m, In m (ov_matched overlap) ->
               In m profile_skills /\ In (lower m) (map lower job_skills))
    /\ (forall g, In g (ov_gaps overlap) ->
                  In g job_skills /\ ~ In (lower g) (map lower profile_skills))
    /\ (forall j, In j job_skills ->
          exists x, lower x = lower j
                    /\ (In x (ov_matched overlap) \/ In x (ov_gaps overlap)))
    /\ (List.length (ov_matched overlap) + List.length (ov_gaps overlap)
        = List.length (dedup (map lower job_skills)))%nat
    /\ Sorted (fun a b => String.leb a b = true) (ov_matched overlap)
    /\ Sorted (fun a b => String.leb a b = true) (ov_gaps overlap).
Proof.
  intros profile_skills job_skills overlap.
  unfold overlap, _skill_overlap. cbn [ov_matched ov_gaps].
  split; [|split; [|split; [|split; [|split]]]].
  - intros m Hm. rewrite RankingFacts.In_sorted, in_map_iff in Hm.
    destruct Hm as [key [<- Hk]].
    rewrite filter_In, RankingFacts.mem_In, !RankingFacts.In_dedup in Hk.
    destruct Hk as [Hk Hj].
    destruct (lookup_lower_found profile_skills key "" Hk) as [H1 H2].
    split; [exact H1|]. rewrite H2. exact Hj.
  - intros g Hg. rewrite RankingFacts.In_sorted, in_map_iff in Hg.
    destruct Hg as [key [<- Hk]].
    rewrite filter_In, RankingFacts.In_dedup in Hk.
    destruct Hk as [Hk Hp].
    destruct (lookup_lower_found job_skills key "" Hk) as [H1 H2].
    split; [exact H1|]. rewrite H2. intros Hin.
    rewrite <- RankingFacts.In_dedup, <- RankingFacts.mem_In in Hin.
    rewrite Hin in Hp. discriminate Hp.
  - intros j Hj.
    assert (Hk : In (lower j) (map lower job_skills)) by (apply in_map; exact Hj).
    destruct (mem (lower j) (dedup (map lower profile_skills))) eqn:Hp.
    + assert (Hp' : In (lower j) (map lower profile_skills)).
      { rewrite <- RankingFacts.In_dedup, <- RankingFacts.mem_In. exact Hp. }
      destruct (lookup_lower_found profile_skills (lower j) "" Hp') as [_ H2].
      exists (lookup_lower profile_skills (lower j) "").
      split; [exact H2|]. left.
      rewrite RankingFacts.In_sorted, in_map_iff.
      exists (lower j). split; [reflexivity|].
      rewrite filter_In, RankingFacts.mem_In, !RankingFacts.In_dedup.
      split; assumption.
    + destruct (lookup_lower_found job_skills (lower j) "" Hk) as [_ H2].
      exists (lookup_lower job_skills (lower j) "").
      split; [exact H2|]. right.
      rewrite RankingFacts.In_sorted, in_map_iff.
      exists (lower j). split; [reflexivity|].
      rewrite filter_In, RankingFacts.In_dedup, Hp.
      split; [exact Hk|reflexivity].
  - exact (skill_overlap_count profile_skills job_skills).
  - apply sorted_Sorted.
  - apply sorted_Sorted.
Qed.

(** X4. For the normalised lists that [compute_resume_fit] passes, the
    matched skills and the gaps are as many as the job skills, so the
    ratio len(matched) / len(job_skills) is at most 1. *)
Theorem skill_overlap_of_normalized_counts :
  forall profile job : list string,
    let profile_skills := _normalize_skill_set profile in
    let job_skills := _normalize_skill_set job in
    let overlap := _skill_overlap profile_skills job_skills in
    (List.length (ov_matched overlap) + List.length (ov_gaps overlap)
     = List.length job_skills)%nat
    /\ (List.length (ov_matched overlap) <= List.length job_skills)%nat
    /\ (List.length (ov_matched overlap) <= List.length profile_skills)%nat.
Proof.
  intros profile job profile_skills job_skills overlap.
  pose proof (skill_overlap_count profile_skills job_skills) as Hlen.
  cbv zeta in Hlen. fold overlap in Hlen.
  destruct (normalize_loop_clean job [] (Forall_nil _) (NoDup_nil _))
    as [_ Hn].
  fold (_normalize_skill_set job) in Hn. fold job_skills in Hn.
  rewrite (dedup_fixed _ Hn), length_map in Hlen.
  split; [exact Hlen|]. split; [lia|].
  unfold overlap, _skill_overlap. cbn [ov_matched].
  rewrite length_sorted, length_map.
  destruct (normalize_loop_clean profile [] (Forall_nil _) (NoDup_nil _))
    as [_ Hp].
  fold (_normalize_skill_set profile) in Hp. fold profile_skills in Hp.
  rewrite (dedup_fixed _ Hp).
  rewrite <- (length_map lower profile_skills).
  apply filter_length_le.
Qed.

End OverlapFacts.

(** ** The skill rule of the preferences *)

Module SkillRuleFacts.

Import Py RecommendationService Samples MoreSamples.
Open Scope string_scope.

(** C8, as the code has it. When some job skill and some profile skill
    are equal up to case, the skill rule adds 10 to the score reached by
    the categorical rules and appends one reason: "Skill overlap: "
    followed by the first 60 characters of the listing of the common
    skills. The listing holds the lower-case forms that occur on both
    sides, each once, in ascending order, joined by ", ": the spelling of
    the job is not kept. *)
Theorem skill_overlap_bonus :
  forall (job : Job) (preferences : PreferencePayload)
         (profile_skills : list string),
    (exists s p, In s (skills job) /\ In p profile_skills
                 /\ PyStr.lower s = PyStr.lower p) ->
    let base := categorical_rules job preferences in
    let common :=
      sorted_intersection (lowered (skills job)) (lowered profile_skills) in
    let listing := PyStr.take 60 (PyStr.join ", " common) in
    _evaluate_preferences job preferences profile_skills
    = ((fst base + 10)%float,
       (snd base ++ [("Skill overlap: " ++ listing)%string])%list)
    /\ (forall x, In x common <->
                  (exists s, In s (skills job) /\ x = PyStr.lower s)
                  /\ (exists p, In p profile_skills /\ x = PyStr.lower p))
    /\ NoDup common
    /\ Sorted (fun a b => String.leb a b = true) common
    /\ common <> []
    /\ (String.length listing <= 60)%nat.
Proof.
  intros job preferences profile_skills [s [p [Hs [Hp E]]]] base common listing.
  assert (Hmem : forall x, In x common <->
                   (exists s, In s (skills job) /\ x = PyStr.lower s)
                   /\ (exists p, In p profile_skills /\ x = PyStr.lower p)).
  { intros x. unfold common. rewrite RankingFacts.In_sorted_intersection.
    unfold lowered. rewrite !in_map_iff.
    split; intros [[a [Ha1 Ha2]] [b [Hb1 Hb2]]]; split;
      [exists a|exists b|exists a|exists b];
      split; (assumption || (symmetry; assumption)). }
  split; [|split; [exact Hmem|split; [|split; [|split]]]].
  - unfold _evaluate_preferences. fold base.
    assert (Hi : intersects (lowered (skills job)) (lowered profile_skills)
                 = true).
    { apply RankingFacts.intersects_spec. exists (PyStr.lower s).
      unfold lowered. split.
      - apply in_map. exact Hs.
      - rewrite E. apply in_map. exact Hp. }
    rewrite Hi.
    rewrite (RankingFacts.nonempty_list_In _ (PyStr.lower s)
               (lowered (skills job))) by (apply in_map; exact Hs).
    rewrite (RankingFacts.nonempty_list_In _ (PyStr.lower p)
               (lowered profile_skills)) by (apply in_map; exact Hp).
    reflexivity.
  - unfold common, sorted_intersection.
    apply (Permutation_NoDup (Permutation_sym (OverlapFacts.sorted_perm _))).
    apply OverlapFacts.NoDup_dedup.
  - apply OverlapFacts.sorted_Sorted.
  - intros Hnil.
    assert (Hin : In (PyStr.lower s) common).
    { apply Hmem. split; [exists s; auto|exists p; auto]. }
    rewrite Hnil in Hin. exact Hin.
  - apply RankingFacts.length_take.
Qed.

Lemma skill_overlap_bonus_witness :
  _evaluate_preferences job_rust_python no_preferences ["PYTHON"; "Go"; "rust"]
  = (10%float, ["Skill overlap: python, rust"]).
Proof.
  apply (skill_overlap_bonus job_rust_python no_preferences
           ["PYTHON"; "Go"; "rust"]).
  exists "Rust", "rust".
  split; [left; reflexivity|].
  split; [right; right; left; reflexivity|reflexivity].
Defined.

End SkillRuleFacts.

(** ** The preference rules *)

Module PreferenceFacts.

Import Py RecommendationService.
Open Scope string_scope.

(** X5. [_evaluate_preferences]: every rule that fires appends one
    reason and moves the score by 10, up for the five matching rules and
    down for the avoid rule. So the score is 10 times the number of
    reasons, less 20 when the reason "Industry on avoid list" is among
    them; it lies between -10 and 50, and there are at most six
    reasons. *)
Theorem preference_score_counts_reasons :
  forall (job : Job) (preferences : PreferencePayload)
         (profile_skills : list string),
    let result := _evaluate_preferences job preferences profile_skills in
    let reasons := Z.of_nat (List.length (snd result)) in
    let avoided :=
      if PyStr.mem "Industry on avoid list" (snd result) then 1%Z else 0%Z in
    fst result = float_of_int (10 * (reasons - 2 * avoided))
    /\ (-1 <= reasons - 2 * avoided <= 5)%Z
    /\ (reasons <= 6)%Z.
Proof.
  intros job preferences profile_skills.
  unfold _evaluate_preferences, categorical_rules, skill_overlap_reason.
  generalize (PyStr.take 60
                (PyStr.join ", "
                   (sorted_intersection (lowered (skills job))
                      (lowered profile_skills)))).
  intros listing.
  destruct (metadata job) as [md|];
    repeat match goal with
           | |- context [bonus ?c _ _ _] =>
               match c with
               | true => fail 1
               | false => fail 1
               | _ => destruct c
               end
           | |- context [penalty ?c _ _ _] =>
               match c with
               | true => fail 1
               | false => fail 1
               | _ => destruct c
               end
           end;
    vm_compute; repeat split; discriminate.
Qed.

End PreferenceFacts.


(** ** Percentages: quotients and rounded scores that stay within 0 and 100 *)

Module BoundFacts.

Import Py FloatOrder FloatFacts Expected.
Open Scope Z_scope.

Lemma shr_1_upper (K j : Z) (mrs : shr_record) :
  0 <= j -> 0 <= shr_m mrs ->
  under_bound K j mrs -> under_bound K (j + 1) (shr_1 mrs).
Proof.
  intros Hj Hm [H1 H2]. unfold under_bound.
  rewrite Z.pow_add_r by lia. change (2 ^ 1) with 2.
  assert (Hx : 0 < 2 ^ j) by (apply Z.pow_pos_nonneg; lia).
  set (X := 2 ^ j) in *.
  destruct mrs as [m r s]. cbn [shr_m shr_r shr_s] in *.
  destruct m as [|[p|p|]|p]; try lia; cbn [shr_1 shr_m shr_r shr_s].
  - split; [lia|]. intros E. destruct H2 as [-> ->]; [lia|].
    split; reflexivity.
  - split; [nia|]. intros E. nia.
  - split; [nia|]. intros E.
    destruct H2 as [-> ->]; [nia|]. split; reflexivity.
  - split; [nia|]. intros E. nia.
Qed.

Lemma iter_shr_upper (K : Z) (p : positive) :
  forall (j : Z) (mrs : shr_record),
    0 <= j -> 0 <= shr_m mrs ->
    under_bound K j mrs ->
    under_bound K (j + Z.pos p) (iter_pos shr_1 p mrs).
Proof.
  induction p as [p IH|p IH|]; intros j mrs Hj Hm H; simpl.
  - replace (j + Z.pos p~1) with (j + 1 + Z.pos p + Z.pos p) by lia.
    apply IH; [lia|apply iter_shr_nonneg, shr_1_nonneg, Hm|].
    apply IH; [lia|apply shr_1_nonneg, Hm|].
    apply shr_1_upper; assumption.
  - replace (j + Z.pos p~0) with (j + Z.pos p + Z.pos p) by lia.
    apply IH; [lia|apply iter_shr_nonneg, Hm|].
    apply IH; assumption.
  - apply shr_1_upper; assumption.
Qed.

(** Shifting to the exponent of the format keeps a mantissa under an
    integer bound, and exact when it meets the bound. *)
Lemma shr_fexp_upper (C m e : Z) (l : location) :
  0 < m -> e <= 0 -> digits m + e <= 53 ->
  m <= C * 2 ^ (- e) ->
  (m = C * 2 ^ (- e) -> l = loc_Exact) ->
  let '(mrs, e1) := shr_fexp prec emax m e l in
  e1 <= 0
  /\ shr_m mrs <= C * 2 ^ (- e1)
  /\ (shr_m mrs = C * 2 ^ (- e1) -> loc_of_shr_record mrs = loc_Exact).
Proof.
  intros Hm He Hd Hle Hex.
  assert (H0 : under_bound (C * 2 ^ (- e)) 0 (shr_record_of_loc m l)).
  { split; rewrite shr_record_of_loc_m, Z.mul_1_r; [exact Hle|].
    intros E. rewrite (Hex E). split; reflexivity. }
  unfold shr_fexp, shr.
  destruct m as [|pm|pm]; try lia. rewrite Zdigits2_digits.
  assert (Hf : fexp prec emax (digits (Z.pos pm) + e) <= 0)
    by (unfold fexp, emin, prec, emax; lia).
  assert (Hfinish : forall (mrs : shr_record) (n : Z),
             0 <= n -> e + n <= 0 ->
             under_bound (C * 2 ^ (- e)) n mrs ->
             shr_m mrs <= C * 2 ^ (- (e + n))
             /\ (shr_m mrs = C * 2 ^ (- (e + n)) ->
                 loc_of_shr_record mrs = loc_Exact)).
  { intros mrs n Hn Hen [U1 U2].
    assert (Hsplit : C * 2 ^ (- e) = C * 2 ^ (- (e + n)) * 2 ^ n).
    { rewrite <- Z.mul_assoc, <- Z.pow_add_r by lia. f_equal. f_equal. lia. }
    rewrite Hsplit in U1, U2.
    assert (Hp : 0 < 2 ^ n) by (apply Z.pow_pos_nonneg; lia).
    split; [nia|]. intros E. destruct U2 as [Hr Hs]; [rewrite E; reflexivity|].
    destruct mrs as [m' r s]. simpl in *. subst r s. reflexivity. }
  destruct (fexp prec emax (digits (Z.pos pm) + e) - e) as [|n|n] eqn:En.
  - split; [lia|]. replace e with (e + 0) at 1 2 by lia.
    apply Hfinish; [lia|lia|exact H0].
  - split; [lia|].
    apply Hfinish; [lia|lia|].
    apply (iter_shr_upper _ n 0); [lia|rewrite shr_record_of_loc_m; lia|exact H0].
  - split; [lia|]. replace e with (e + 0) at 1 2 by lia.
    apply Hfinish; [lia|lia|exact H0].
Qed.

(** Rounding a positive value that is at most the integer [C] gives a
    float that is at most [C]. *)
Lemma binary_round_aux_upper (C m e : Z) (l : location) :
  0 < m -> e <= 0 -> -1073 <= digits m + e <= 52 ->
  m <= C * 2 ^ (- e) ->
  (m = C * 2 ^ (- e) -> l = loc_Exact) ->
  forall (m' : positive) (e' : Z),
    binary_round_aux prec emax false m e l = S754_finite false m' e' ->
    e' <= 0 /\ Z.pos m' <= C * 2 ^ (- e').
Proof.
  intros Hm He [Hlo Hhi] Hle Hex m' e'. unfold binary_round_aux.
  pose proof (shr_fexp_upper C m e l Hm He ltac:(lia) Hle Hex) as Hup.
  pose proof (shr_fexp_lower m e l Hm Hlo) as [H1 H2].
  destruct (shr_fexp prec emax m e l) as [mrs1 e1].
  simpl in H1, H2. destruct Hup as [He1 [Hb1 Hx1]].
  set (m2 := round_nearest_even (shr_m mrs1) (loc_of_shr_record mrs1)).
  pose proof (round_nearest_even_bounds (shr_m mrs1) (loc_of_shr_record mrs1))
    as Hb. fold m2 in Hb.
  pose proof (digits_succ_le _ m2 H1 Hb) as Hd.
  assert (Hm2 : m2 <= C * 2 ^ (- e1)).
  { destruct (Z.eq_dec (shr_m mrs1) (C * 2 ^ (- e1))) as [E|E]; [|lia].
    unfold m2. rewrite (Hx1 E). simpl. lia. }
  pose proof (shr_fexp_upper C m2 e1 loc_Exact ltac:(lia) He1 ltac:(lia) Hm2
                ltac:(reflexivity)) as Hup2.
  destruct (shr_fexp prec emax m2 e1 loc_Exact) as [mrs3 e3].
  destruct Hup2 as [He3 [Hb3 _]].
  destruct (shr_m mrs3) as [|p3|p3]; try discriminate.
  destruct (e3 <=? emax - prec); [|discriminate].
  intros H. injection H as <- <-. split; assumption.
Qed.

(** The quotient of two positive ints, as [int_truediv] rounds it. *)
Lemma int_truediv_core (a b : Z) :
  0 < a -> 0 < b ->
  exists q r e',
    e' = Z.min (fexp prec emax (digits a - digits b)) 0
    /\ a * 2 ^ (- e') = b * q + r
    /\ 0 <= r < b
    /\ int_truediv a b
       = match binary_round_aux prec emax false q e' (new_location b r) with
         | S754_infinity _ => Raise OverflowError
         | sf => Ok (SF2Prim sf)
         end.
Proof.
  intros Ha Hb. unfold Py.int_truediv.
  destruct a as [|pa|pa]; try lia. destruct b as [|pb|pb]; try lia.
  change (xorb (Z.pos pa <? 0)%Z (Z.pos pb <? 0)%Z) with false.
  change (Z.abs (Z.pos pa)) with (Z.pos pa).
  change (Z.abs (Z.pos pb)) with (Z.pos pb).
  unfold SFdiv_core_binary. rewrite !Zdigits2_digits.
  set (a := Z.pos pa) in *. set (b := Z.pos pb) in *.
  replace (digits a + 0 - (digits b + 0))%Z with (digits a - digits b)%Z by lia.
  change (0 - 0)%Z with 0%Z.
  remember (Z.min (fexp prec emax (digits a - digits b)) 0) as e' eqn:Ee'.
  assert (He'0 : (e' <= 0)%Z) by lia.
  remember (match (0 - e')%Z with
            | Z.pos _ => Z.shiftl a (0 - e')
            | 0%Z => a
            | Z.neg _ => 0%Z
            end) as m' eqn:Em'.
  assert (Hm' : m' = (a * 2 ^ (- e'))%Z).
  { rewrite Em'. destruct (0 - e')%Z eqn:Es; try lia.
    - replace (- e')%Z with 0%Z by lia. lia.
    - rewrite Z.shiftl_mul_pow2 by lia. f_equal. f_equal. lia. }
  clear Em'.
  pose proof (Z.div_eucl_eq m' b ltac:(lia)) as Hdiv.
  pose proof (Z.mod_pos_bound m' b ltac:(lia)) as Hmod.
  unfold Z.modulo in Hmod.
  destruct (Z.div_eucl m' b) as [q r].
  exists q, r, e'. split; [reflexivity|]. split; [lia|]. split; [exact Hmod|].
  reflexivity.
Qed.

Lemma new_location_zero (b : Z) : new_location b 0 = loc_Exact.
Proof. unfold new_location. destruct (Z.even b); reflexivity. Qed.

(** A quotient of positive ints that is at most 100 is rounded to a float
    that is at most 100. *)
Lemma int_truediv_at_most_100 (a b : Z) :
  0 < a -> 0 < b -> a <= 100 * b ->
  exists sf,
    int_truediv a b = Ok (SF2Prim sf)
    /\ valid_binary sf = true
    /\ (sf = S754_zero false
        \/ exists m e, sf = S754_finite false m e
                       /\ e <= 0 /\ Z.pos m <= 100 * 2 ^ (- e)).
Proof.
  intros Ha Hb Hab.
  destruct (int_truediv_core a b Ha Hb) as [q [r [e' [Ee' [Hdiv [Hr Hq]]]]]].
  rewrite Hq. clear Hq.
  assert (He'0 : e' <= 0) by lia.
  assert (He'1 : -1074 <= e')
    by (unfold fexp, emin, prec, emax in Ee'; lia).
  assert (Hps : 0 < 2 ^ (- e')) by (apply Z.pow_pos_nonneg; lia).
  assert (Hq0 : 0 <= q) by nia.
  assert (Hqhi : q <= 100 * 2 ^ (- e')) by nia.
  pose proof (pow2_digits a ltac:(lia)) as [Ha1 Ha2].
  pose proof (pow2_digits b ltac:(lia)) as [Hb1 Hb2].
  assert (Hda : 1 <= digits a)
    by (unfold digits; pose proof (Z.log2_nonneg a); lia).
  assert (Hdb : 1 <= digits b)
    by (unfold digits; pose proof (Z.log2_nonneg b); lia).
  assert (Hbig : -1074 < e' -> 2 ^ 52 <= q).
  { intros Hlt.
    assert (Hs : 52 + digits b <= digits a - 1 + - e')
      by (unfold fexp, emin, prec, emax in Ee'; lia).
    assert (H1 : 2 ^ (52 + digits b) <= a * 2 ^ (- e')).
    { eapply Z.le_trans;
        [apply (Z.pow_le_mono_r 2 _ (digits a - 1 + - e')); lia|].
      rewrite Z.pow_add_r by lia.
      apply Z.mul_le_mono_nonneg_r; lia. }
    rewrite Z.pow_add_r in H1 by lia.
    assert (H2 : 2 ^ 52 * b <= a * 2 ^ (- e')) by nia.
    nia. }
  destruct (Z.eq_dec q 0) as [Hq|Hq].
  - subst q.
    assert (He : e' = -1074).
    { destruct (Z.eq_dec e' (-1074)) as [E|E]; [exact E|].
      specialize (Hbig ltac:(lia)). lia. }
    rewrite He.
    destruct (new_location b r) as [|[ | | ]];
      match goal with
      | |- context [binary_round_aux ?p ?em ?s ?m ?e ?l] =>
          let v := eval vm_compute in (binary_round_aux p em s m e l) in
          change (binary_round_aux p em s m e l) with v
      end;
      cbv iota beta; eexists;
      (split; [reflexivity|]); (split; [reflexivity|]);
      first [ left; reflexivity
            | right; eexists; eexists; split; [reflexivity|];
              split; vm_compute; discriminate ].
  - assert (Hqpos : 0 < q) by lia.
    assert (Hup : digits q <= 7 + - e').
    { apply digits_upper; [lia|lia|].
      rewrite Z.pow_add_r by lia. change (2 ^ 7) with 128. lia. }
    assert (Hdq : 1 <= digits q)
      by (unfold digits; pose proof (Z.log2_nonneg q); lia).
    destruct (binary_round_aux_valid false q e' (new_location b r) Hqpos)
      as [m [e [Hres Hv]]].
    + lia.
    + unfold fexp, emin, prec, emax.
      destruct (Z.eq_dec e' (-1074)) as [E|E]; [lia|].
      pose proof (digits_lower q 52 ltac:(lia) (Hbig ltac:(lia))). lia.
    + rewrite Hres. exists (S754_finite false m e).
      split; [reflexivity|]. split; [exact Hv|]. right. exists m, e.
      split; [reflexivity|].
      apply (binary_round_aux_upper 100 q e' (new_location b r));
        try assumption; try lia.
      intros E. assert (r = 0) by nia. subst r. apply new_location_zero.
Qed.

Lemma round_half_even_scaled_nonneg (m e : Z) :
  (0 <= m)%Z -> (0 <= round_half_even_scaled m e)%Z.
Proof.
  intros Hm. unfold round_half_even_scaled.
  destruct e as [|p|p].
  - simpl. lia.
  - apply Z.mul_nonneg_nonneg; [exact Hm|]. apply Z.pow_nonneg. lia.
  - assert (Hd : (0 < Z.pow_pos 2 p)%Z).
    { rewrite Z.pow_pos_fold. apply Z.pow_pos_nonneg; lia. }
    pose proof (Z.div_pos m _ Hm Hd).
    destruct (2 * (m mod Z.pow_pos 2 p) ?= Z.pow_pos 2 p)%Z; try lia.
    destruct (Z.even _); lia.
Qed.

(** Rounding to an integer does not pass an integer bound. *)
Lemma round_half_even_scaled_upper (m c : Z) (p : positive) :
  (0 <= m)%Z -> (m <= c * 2 ^ Z.pos p)%Z ->
  (round_half_even_scaled m (Z.neg p) <= c)%Z.
Proof.
  intros Hm Hc. unfold round_half_even_scaled. rewrite Z.pow_pos_fold.
  set (d := (2 ^ Z.pos p)%Z) in *.
  assert (Hd : (0 < d)%Z) by (apply Z.pow_pos_nonneg; lia).
  pose proof (Z.div_mod m d ltac:(lia)) as Hdm.
  pose proof (Z.mod_pos_bound m d Hd) as Hr.
  assert (Hq : (m / d <= c)%Z).
  { apply Z.div_le_upper_bound; [exact Hd|]. lia. }
  destruct (Z.eq_dec (m / d) c) as [E|E].
  - assert (Hz : (m mod d = 0)%Z) by nia.
    rewrite Hz. simpl Z.mul.
    destruct (0 ?= d)%Z eqn:Ec; try lia.
    + apply Z.compare_eq in Ec. lia.
    + apply Z.compare_gt_iff in Ec. lia.
  - destruct (2 * (m mod d) ?= d)%Z; try lia.
    destruct (Z.even _); lia.
Qed.

Lemma round_at_most_100 (sf : spec_float) :
  valid_binary sf = true ->
  (sf = S754_zero false
   \/ exists m e, sf = S754_finite false m e
                  /\ e <= 0 /\ Z.pos m <= 100 * 2 ^ (- e)) ->
  exists n, Py.round (SF2Prim sf) = Ok n /\ 0 <= n <= 100.
Proof.
  intros Hv Hshape. unfold Py.round. rewrite (Prim2SF_SF2Prim sf Hv).
  destruct Hshape as [->|[m [e [-> [He Hm]]]]].
  - exists 0. split; [reflexivity|lia].
  - eexists. split; [reflexivity|]. split.
    + apply round_half_even_scaled_nonneg. lia.
    + destruct e as [|p|p]; try lia.
      * simpl in *. lia.
      * apply round_half_even_scaled_upper; [lia|exact Hm].
Qed.

Lemma score_ratio_at_most_100 (matched_weight total_weight : Z) :
  0 <= matched_weight <= total_weight -> 0 < total_weight ->
  exists n,
    bind (int_truediv (100 * matched_weight) total_weight) Py.round = Ok n
    /\ 0 <= n <= 100.
Proof.
  intros [H0 H1] Ht.
  destruct (Z.eq_dec matched_weight 0) as [->|Hne].
  - destruct total_weight; try lia. exists 0. split; [reflexivity|lia].
  - destruct (int_truediv_at_most_100 (100 * matched_weight) total_weight)
      as [sf [Hq [Hv Hs]]]; try lia.
    rewrite Hq. simpl bind. apply round_at_most_100; assumption.
Qed.

(** Everything matched: the quotient is 100 exactly. *)
Lemma int_truediv_exact_100 (b : Z) :
  0 < b -> int_truediv (100 * b) b = Ok 100%float.
Proof.
  intros Hb.
  destruct (int_truediv_core (100 * b) b ltac:(lia) Hb)
    as [q [r [e' [Ee' [Hdiv [Hr Hq]]]]]].
  rewrite Hq. clear Hq.
  pose proof (pow2_digits b Hb) as [Hb1 Hb2].
  assert (Hdb : 1 <= digits b)
    by (unfold digits; pose proof (Z.log2_nonneg b); lia).
  assert (Hlo : digits b + 6 <= digits (100 * b)).
  { replace (digits b + 6) with (digits b + 5 + 1) by lia.
    apply (digits_lower (100 * b) (digits b + 5)); [lia|].
    replace (digits b + 5) with (digits b - 1 + 6) by lia.
    rewrite Z.pow_add_r by lia. change (2 ^ 6) with 64. lia. }
  assert (Hhi : digits (100 * b) <= digits b + 7).
  { apply digits_upper; [lia|lia|].
    rewrite Z.pow_add_r by lia. change (2 ^ 7) with 128. lia. }
  assert (He : e' = -47 \/ e' = -46)
    by (unfold fexp, emin, prec, emax in Ee'; lia).
  assert (Hps : 0 < 2 ^ (- e')) by (apply Z.pow_pos_nonneg; lia).
  set (X := 2 ^ (- e')) in *.
  assert (Hk : r = b * (100 * X - q)) by lia.
  assert (Hz : 100 * X - q = 0).
  { destruct (Z.lt_trichotomy (100 * X - q) 0) as [Hn|[Hn|Hn]];
      [|exact Hn|]; nia. }
  assert (Hr0 : r = 0) by (rewrite Hk, Hz; lia).
  assert (Hq : q = 100 * X) by lia.
  clear Hk Hz Hdiv. unfold X in *. clear X.
  subst r q. rewrite new_location_zero.
  destruct He as [-> | ->]; vm_compute; reflexivity.
Qed.

Lemma valid_digits (s : bool) (m : positive) (e : Z) :
  valid_binary (S754_finite s m e) = true ->
  Z.pos m < 2 ^ 53 /\ (-1074 < e -> 2 ^ 52 <= Z.pos m).
Proof.
  intros H. simpl in H. unfold bounded, canonical_mantissa in H.
  apply andb_prop in H. destruct H as [H _]. apply Z.eqb_eq in H.
  change (Z.pos (digits2_pos m)) with (Zdigits2 (Z.pos m)) in H.
  rewrite Zdigits2_digits in H.
  unfold fexp, emin, prec, emax in H.
  pose proof (pow2_digits (Z.pos m) ltac:(lia)) as [Hlo Hhi].
  split.
  - eapply Z.lt_le_trans; [exact Hhi|]. apply Z.pow_le_mono_r; lia.
  - intros He. replace 52 with (digits (Z.pos m) - 1) by lia. exact Hlo.
Qed.

(** A valid float whose value is at most 100 compares as such. *)
Lemma bounded_leb_100 (sf : spec_float) :
  valid_binary sf = true ->
  (sf = S754_zero false
   \/ exists m e, sf = S754_finite false m e
                  /\ e <= 0 /\ Z.pos m <= 100 * 2 ^ (- e)) ->
  (0 <=? SF2Prim sf)%float = true /\ (SF2Prim sf <=? 100)%float = true.
Proof.
  intros Hv Hshape.
  destruct Hshape as [->|[m [e [-> [He Hm]]]]].
  - split; vm_compute; reflexivity.
  - split.
    + rewrite leb_spec, (Prim2SF_SF2Prim _ Hv). reflexivity.
    + apply leb_flt. unfold flt, feq, sf_lt, sf_eq, lex_lt.
      rewrite (Prim2SF_SF2Prim _ Hv).
      change (Prim2SF 100) with (S754_finite false 7036874417766400 (-46)).
      cbn [code fst snd is_nan_sf].
      destruct (valid_digits _ _ _ Hv) as [_ Hnormal].
      assert (He46 : e <= -46).
      { destruct (Z_le_gt_dec e (-46)) as [Hle|Hgt]; [exact Hle|].
        specialize (Hnormal ltac:(lia)).
        assert (Hp : 2 ^ (- e) <= 2 ^ 45) by (apply Z.pow_le_mono_r; lia).
        change (2 ^ 45) with 35184372088832 in Hp.
        change (2 ^ 52) with 4503599627370496 in Hnormal. lia. }
      destruct (Z.eq_dec e (-46)) as [->|Hne].
      * change (2 ^ (- -46)) with 70368744177664 in Hm.
        destruct (Z.eq_dec (Z.pos m) 7036874417766400) as [E|E].
        -- right. repeat split. rewrite E. reflexivity.
        -- left. repeat split. lia.
      * left. repeat split. lia.
Qed.

Lemma hundredths_in_range (n : Z) :
  0 <= n <= 10000 ->
  exists r, int_truediv n 100 = Ok r
            /\ (0 <=? r)%float = true /\ (r <=? 100)%float = true.
Proof.
  intros Hn. destruct (Z.eq_dec n 0) as [->|Hne].
  - exists 0%float. repeat split; vm_compute; reflexivity.
  - destruct (int_truediv_at_most_100 n 100) as [sf [Hq [Hv Hs]]]; try lia.
    exists (SF2Prim sf). split; [exact Hq|].
    apply bounded_leb_100; assumption.
Qed.

Lemma at_most_100 (x : float) (m : positive) (e : Z) :
  Prim2SF x = S754_finite false m e ->
  (x <=? 100)%float = true ->
  (e < -46)%Z \/ (e = (-46)%Z /\ (Z.pos m <= 7036874417766400)%Z).
Proof.
  intros E H. apply leb_flt in H.
  unfold flt, feq, sf_lt, sf_eq, lex_lt in H. rewrite E in H.
  change (Prim2SF 100) with (S754_finite false 7036874417766400 (-46)) in H.
  cbn [code fst snd is_nan_sf] in H.
  destruct H as [[_ [_ H]]|[_ [_ H]]].
  - lia.
  - injection H as H1 H2. right. split; [exact H1|]. rewrite H2. apply Z.le_refl.
Qed.

Lemma round_nd_percent (x : float) :
  (0 <=? x)%float = true -> (x <=? 100)%float = true ->
  (0 <=? round_nd x 2)%float = true /\ (round_nd x 2 <=? 100)%float = true.
Proof.
  intros H0 H1. pose proof H0 as G0.
  rewrite leb_spec in G0.
  change (Prim2SF 0) with (S754_zero false) in G0.
  pose proof (Prim2SF_valid x) as Hv.
  pose proof (at_most_100 x) as Hle.
  unfold round_nd.
  destruct (Prim2SF x) as [s|[|]| |[|] m e]; try (split; assumption);
    try discriminate G0.
  specialize (Hle m e eq_refl H1).
  pose proof (proj1 (valid_digits _ _ _ Hv)) as Hm.
  cbv zeta. change (10 ^ Z.of_N 2)%Z with 100%Z.
  assert (Hn : (0 <= round_half_even_scaled (Z.pos m * 100) e <= 10000)%Z).
  { split; [apply round_half_even_scaled_nonneg; lia|].
    destruct Hle as [He|[He Hc]].
    - destruct e as [|p|p]; try lia.
      apply round_half_even_scaled_upper; [lia|].
      assert (Hp : (2 ^ 47 <= 2 ^ Z.pos p)%Z)
        by (apply Z.pow_le_mono_r; lia).
      change (2 ^ 47)%Z with 140737488355328%Z in Hp.
      change (2 ^ 53)%Z with 9007199254740992%Z in Hm. lia.
    - subst e. apply round_half_even_scaled_upper; [lia|].
      change (2 ^ 46)%Z with 70368744177664%Z. lia. }
  destruct (hundredths_in_range _ Hn) as [r [Hr [Hr0 Hr1]]].
  rewrite Hr, andb_false_r. split; assumption.
Qed.

Lemma total_score_in_range (sim_score pref_score : float) :
  (0 <=? RecommendationService.total_score sim_score pref_score)%float = true
  /\ (RecommendationService.total_score sim_score pref_score <=? 100)%float
     = true.
Proof.
  unfold RecommendationService.total_score, min2, max2.
  set (v := (sim_score + pref_score)%float).
  destruct (0 <? v)%float eqn:E0.
  - destruct (v <? 100)%float eqn:E1.
    + split; apply leb_flt; left; apply ltb_flt; assumption.
    + split; vm_compute; reflexivity.
  - replace (0 <? 100)%float with true by (vm_compute; reflexivity).
    split; vm_compute; reflexivity.
Qed.

End BoundFacts.

(** ** Ranking: what it scores and what it writes *)

Module RankedScoreFacts.

Import Py RecommendationService Samples MoreSamples Expected.
Import FloatOrder FloatFacts Invariants BoundFacts.
Open Scope string_scope.

Lemma rank_one_preferences_only embed now preferences profile_skills
    resume_vector (job : Job) (db : Db) :
  usable resume_vector = None ->
  rank_one embed now preferences profile_skills resume_vector job db
  = (Ok (preference_entry preferences profile_skills job), db).
Proof.
  intros H. unfold rank_one, preference_entry.
  destruct (_evaluate_preferences job preferences profile_skills)
    as [pref_score pref_reasons]. simpl.
  unfold mbind, similarity_signal. rewrite H. reflexivity.
Qed.

Lemma rank_loop_preferences_only embed now preferences profile_skills
    resume_vector (jobs : list Job) :
  usable resume_vector = None ->
  forall (ranked : list RankedEntry) (db : Db),
    rank_loop embed now preferences profile_skills resume_vector jobs ranked db
    = (Ok (ranked ++ map (preference_entry preferences profile_skills) jobs)%list,
       db).
Proof.
  intros H. induction jobs as [|job rest IH]; intros ranked db; simpl.
  - rewrite app_nil_r. reflexivity.
  - unfold mbind. rewrite rank_one_preferences_only by exact H.
    rewrite IH, <- app_assoc. reflexivity.
Qed.

(** X6. Without a usable resume vector (none, or an empty one)
    [_rank_jobs] never consults the embedding provider and never touches
    the store: whatever the provider would do, the call returns the jobs
    scored by the preferences alone, sorted, and leaves the store as it
    was. *)
Theorem rank_jobs_without_resume_vector :
  forall (embed : provider) (now : time) (jobs : list Job)
         (preferences : PreferencePayload) (profile : Profile)
         (resume_vector : option vector) (db : Db),
    usable resume_vector = None ->
    _rank_jobs embed now jobs preferences profile resume_vector db
    = (Ok (sort_desc entry_score
             (map (preference_entry preferences
                     (_extract_profile_skills profile)) jobs)), db).
Proof.
  intros embed now jobs preferences profile resume_vector db H.
  unfold _rank_jobs, mbind.
  rewrite rank_loop_preferences_only by exact H. reflexivity.
Qed.

(** With an empty resume vector the three jobs are ranked although the
    provider is down for one of them. *)
Lemma rank_jobs_without_resume_vector_witness :
  usable (Some []) = None
  /\ _rank_jobs flaky_provider 0%Z [job_a; job_b; job_c] no_preferences
       (guest []) (Some []) (store_of [])
     = (Ok (sort_desc entry_score
              (map (preference_entry no_preferences
                      (_extract_profile_skills (guest [])))
                   [job_a; job_b; job_c])), store_of []).
Proof.
  split; [reflexivity|].
  apply (rank_jobs_without_resume_vector flaky_provider 0%Z
           [job_a; job_b; job_c] no_preferences (guest []) (Some [])
           (store_of [])).
  reflexivity.
Defined.

(** *** Scores are percentages *)

Lemma scored_as_percent embed resume_vector preferences profile_skills
    (entry : RankedEntry) :
  scored_as embed resume_vector preferences profile_skills entry ->
  (0 <=? entry_score entry)%float = true
  /\ (entry_score entry <=? 100)%float = true.
Proof.
  intros [sim_score [_ H]]. rewrite H, <- RankingFacts.total_score_clamp.
  apply round_nd_percent; apply total_score_in_range.
Qed.

(** X7. Every score that [_rank_jobs] returns is a number between 0 and
    100 (never NaN): the clamp to [0, 100] survives the rounding to two
    places. *)
Theorem rank_jobs_scores_are_percentages :
  forall (embed : provider) (now : time) (jobs : list Job)
         (preferences : PreferencePayload) (profile : Profile)
         (resume_vector : option vector) (db db' : Db)
         (out : list RankedEntry),
    _rank_jobs embed now jobs preferences profile resume_vector db
    = (Ok out, db') ->
    Forall (fun entry =>
              (0 <=? entry_score entry)%float = true
              /\ (entry_score entry <=? 100)%float = true) out.
Proof.
  intros embed now jobs preferences profile resume_vector db db' out.
  unfold _rank_jobs, mbind.
  destruct (rank_loop embed now preferences (_extract_profile_skills profile)
              resume_vector jobs [] db) as [[ranked|e] db1] eqn:E; [|discriminate].
  intros H. injection H as <- _.
  apply RankingFacts.rank_loop_ok in E. destruct E as [fresh [H1 [_ H3]]].
  simpl in H1. subst fresh.
  apply Forall_forall. intros entry Hin.
  apply (Permutation_in _ (RankingFacts.sort_desc_perm entry_score ranked)) in Hin.
  rewrite Forall_forall in H3.
  eapply scored_as_percent. apply H3. exact Hin.
Qed.

(** A job that meets every preference and matches the resume reaches
    70 + 50, cut to 100; a job that only hits the avoid list reaches -10,
    raised to 0. *)
Lemma rank_jobs_scores_are_percentages_witness :
  exists out db',
    _rank_jobs silent_provider 0%Z [avoided_job; dream_job] eager_preferences
               (guest ["python"]) (Some [1%float; 0%float])
               (store_of [avoided_job; dream_job])
    = (Ok out, db')
    /\ map (fun entry => (_id (entry_job entry), entry_score entry)) out
       = [("dream", 100%float); ("avoided", 0%float)]
    /\ Forall (fun entry =>
                 (0 <=? entry_score entry)%float = true
                 /\ (entry_score entry <=? 100)%float = true) out.
Proof.
  eexists. eexists. split; [vm_compute; reflexivity|].
  split; [reflexivity|].
  exact (rank_jobs_scores_are_percentages silent_provider 0%Z
           [avoided_job; dream_job] eager_preferences (guest ["python"])
           (Some [1%float; 0%float]) (store_of [avoided_job; dream_job])
           _ _ ltac:(vm_compute; reflexivity)).
Defined.

(** *** What ranking writes *)

Lemma same_but_embeddings_refl (db : Db) : same_but_embeddings db db.
Proof. repeat split. Qed.

Lemma same_but_embeddings_trans (db1 db2 db3 : Db) :
  same_but_embeddings db1 db2 -> same_but_embeddings db2 db3 ->
  same_but_embeddings db1 db3.
Proof.
  intros [A1 [B1 C1]] [A2 [B2 C2]]. repeat split; congruence.
Qed.

Lemma set_job_embedding_frame (job_id : string) (v : vector) (now : time)
    (docs : list Job) :
  map without_embedding (set_job_embedding job_id v now docs)
  = map without_embedding docs.
Proof.
  induction docs as [|d rest IH]; simpl; [reflexivity|].
  destruct (String.eqb (_id d) job_id); simpl; [reflexivity|].
  rewrite IH. reflexivity.
Qed.

Lemma ensure_job_embedding_frame embed now (job : Job) (db : Db) :
  same_but_embeddings db (snd (_ensure_job_embedding embed now job db)).
Proof.
  unfold _ensure_job_embedding.
  destruct (usable (embedding job)); [apply same_but_embeddings_refl|].
  unfold mbind, lift.
  destruct (_embed_text embed (_job_to_text job)) as [vector|e];
    [|apply same_but_embeddings_refl].
  destruct (usable vector); [|apply same_but_embeddings_refl].
  simpl. split; [apply set_job_embedding_frame|split; reflexivity].
Qed.

Lemma similarity_signal_frame embed now resume_vector (job : Job)
    (reasons : list string) (db : Db) :
  same_but_embeddings db
    (snd (similarity_signal embed now resume_vector job reasons db)).
Proof.
  unfold similarity_signal.
  destruct (usable resume_vector) as [rv|]; [|apply same_but_embeddings_refl].
  unfold mbind.
  pose proof (ensure_job_embedding_frame embed now job db) as H.
  destruct (_ensure_job_embedding embed now job db) as [[job_vector|e] db1];
    [|exact H].
  simpl in H.
  destruct (usable job_vector) as [jv|]; [|exact H].
  unfold lift.
  destruct (AiService.cosine_similarity rv jv) as [similarity|e]; [|exact H].
  destruct (0 <? similarity)%float; [|exact H].
  destruct (int_of_float (similarity * 100)) as [percent|e]; exact H.
Qed.

Lemma rank_one_frame embed now preferences profile_skills resume_vector
    (job : Job) (db : Db) :
  same_but_embeddings db
    (snd (rank_one embed now preferences profile_skills resume_vector job db)).
Proof.
  unfold rank_one.
  destruct (_evaluate_preferences job preferences profile_skills)
    as [pref_score pref_reasons].
  unfold mbind.
  pose proof (similarity_signal_frame embed now resume_vector job pref_reasons
                db) as H.
  destruct (similarity_signal embed now resume_vector job pref_reasons db)
    as [[[sim_score reasons]|e] db1]; exact H.
Qed.

Lemma rank_loop_frame embed now preferences profile_skills resume_vector
    (jobs : list Job) :
  forall (ranked : list RankedEntry) (db : Db),
    same_but_embeddings db
      (snd (rank_loop embed now preferences profile_skills resume_vector jobs
              ranked db)).
Proof.
  induction jobs as [|job rest IH]; intros ranked db; simpl.
  - apply same_but_embeddings_refl.
  - unfold mbind.
    pose proof (rank_one_frame embed now preferences profile_skills
                  resume_vector job db) as H.
    destruct (rank_one embed now preferences profile_skills resume_vector
                job db) as [[entry|e] db1]; [|exact H].
    eapply same_but_embeddings_trans; [exact H|apply IH].
Qed.

(** X8. Whether it returns or raises, [_rank_jobs] leaves the profiles
    and the job links untouched, and in the jobs collection it changes
    nothing but stored embeddings and their time stamps: no document is
    added, removed or reordered. *)
Theorem rank_jobs_writes_embeddings_only :
  forall (embed : provider) (now : time) (jobs : list Job)
         (preferences : PreferencePayload) (profile : Profile)
         (resume_vector : option vector) (db : Db),
    same_but_embeddings db
      (snd (_rank_jobs embed now jobs preferences profile resume_vector db)).
Proof.
  intros embed now jobs preferences profile resume_vector db.
  unfold _rank_jobs, mbind.
  pose proof (rank_loop_frame embed now preferences
                (_extract_profile_skills profile) resume_vector jobs [] db)
    as H.
  destruct (rank_loop embed now preferences (_extract_profile_skills profile)
              resume_vector jobs [] db) as [[ranked|e] db1]; exact H.
Qed.

(** *** The embedding of a job is computed once *)

Lemma find_set_job_embedding (job_id : string) (v : vector) (now : time)
    (docs : list Job) :
  (exists d, In d docs /\ _id d = job_id) ->
  exists stored,
    find (fun d => String.eqb (_id d) job_id)
         (set_job_embedding job_id v now docs) = Some stored
    /\ _id stored = job_id
    /\ embedding stored = Some v
    /\ embedding_updated_at stored = Some now.
Proof.
  induction docs as [|d rest IH]; intros [d0 [Hin Hid]]; [destruct Hin|].
  simpl. destruct (String.eqb (_id d) job_id) eqn:E.
  - simpl. rewrite E. eexists. split; [reflexivity|].
    apply String.eqb_eq in E. simpl. auto.
  - simpl. rewrite E. apply IH.
    destruct Hin as [->|Hin]; [|eauto].
    apply String.eqb_neq in E. contradiction.
Qed.

(** X9. When [_ensure_job_embedding] has computed a vector for a job of
    the store that had none, the stored document carries that vector and
    the time of the call, and a later call on the stored document returns
    the same vector without consulting the provider or writing to the
    store. *)
Theorem job_embedding_is_computed_once :
  forall (embed : provider) (now : time) (job : Job) (db db' : Db)
         (v : vector),
    usable (embedding job) = None ->
    _ensure_job_embedding embed now job db = (Ok (Some v), db') ->
    v <> [] ->
    is_object_id (_id job) = true ->
    (exists d, In d (jobs_collection db) /\ _id d = _id job) ->
    exists stored,
      get_job_detail (_id job) db' = (Ok (Some stored), db')
      /\ embedding stored = Some v
      /\ embedding_updated_at stored = Some now
      /\ forall (embed' : provider) (now' : time) (db'' : Db),
           _ensure_job_embedding embed' now' stored db''
           = (Ok (Some v), db'').
Proof.
  intros embed now job db db' v Hc He Hv Hid Hin.
  unfold _ensure_job_embedding in He. rewrite Hc in He.
  unfold mbind, lift in He.
  destruct (_embed_text embed (_job_to_text job)) as [vector|e];
    [|discriminate He].
  destruct vector as [[|x l]|]; simpl in He.
  - injection He as E _. congruence.
  - injection He as E <-.
    destruct (find_set_job_embedding (_id job) (x :: l) now
                (jobs_collection db) Hin) as [stored [Hf [_ [H1 H2]]]].
    exists stored. unfold get_job_detail. rewrite Hid. simpl.
    rewrite Hf. subst v.
    split; [reflexivity|]. split; [exact H1|]. split; [exact H2|].
    intros embed' now' db''. unfold _ensure_job_embedding.
    rewrite H1. reflexivity.
  - discriminate He.
Qed.

Lemma job_embedding_is_computed_once_witness :
  usable (embedding fresh_job) = None
  /\ fst (_ensure_job_embedding silent_provider hour fresh_job
            (store_of [fresh_job]))
     = Ok (Some [1%float])
  /\ exists stored,
       get_job_detail (_id fresh_job)
         (snd (_ensure_job_embedding silent_provider hour fresh_job
                 (store_of [fresh_job])))
       = (Ok (Some stored),
          snd (_ensure_job_embedding silent_provider hour fresh_job
                 (store_of [fresh_job])))
       /\ embedding stored = Some [1%float]
       /\ embedding_updated_at stored = Some hour
       /\ forall (embed' : provider) (now' : time) (db'' : Db),
            _ensure_job_embedding embed' now' stored db''
            = (Ok (Some [1%float]), db'').
Proof.
  split; [reflexivity|]. split; [vm_compute; reflexivity|].
  apply (job_embedding_is_computed_once silent_provider hour fresh_job
           (store_of [fresh_job])).
  - reflexivity.
  - vm_compute. reflexivity.
  - discriminate.
  - reflexivity.
  - exists fresh_job. split; [left; reflexivity|reflexivity].
Defined.

End RankedScoreFacts.

(** ** The job links of a user: cached scores and saved states *)

Module LinkFacts.

Import RecommendationService UserJobs Samples MoreSamples Expected.
Open Scope string_scope.

Lemma dict_get_set (V : Type) (mapping : list (string * V))
    (key key' : string) (value : V) :
  dict_get (dict_set mapping key value) key'
  = if String.eqb key key' then Some value else dict_get mapping key'.
Proof.
  induction mapping as [|[k v] rest IH]; simpl; [reflexivity|].
  destruct (String.eqb_spec k key) as [E|E]; simpl.
  - subst k. destruct (String.eqb key key'); reflexivity.
  - rewrite IH.
    destruct (String.eqb_spec k key') as [E1|E1];
      destruct (String.eqb_spec key key') as [E2|E2]; congruence.
Qed.

Lemma find_app (A : Type) (p : A -> bool) (l1 l2 : list A) :
  find p (l1 ++ l2)
  = match find p l1 with Some x => Some x | None => find p l2 end.
Proof.
  induction l1 as [|a l1 IH]; simpl; [reflexivity|].
  destruct (p a); [reflexivity|exact IH].
Qed.

Lemma find_hd_filter (A : Type) (p : A -> bool) (l : list A) :
  find p l = hd_error (filter p l).
Proof.
  induction l as [|a l IH]; simpl; [reflexivity|].
  destruct (p a); [reflexivity|exact IH].
Qed.

(** The mapping holds, for a job id, the last record that carries it. *)
Lemma collect_states_get (records : list JobUser) (job_id : string) :
  job_id <> "" ->
  dict_get (collect_states records) job_id
  = option_map state_of
      (hd_error (rev (filter (fun r => String.eqb (ju_job_id r) job_id)
                             records))).
Proof.
  intros Hne. unfold collect_states.
  assert (H : forall mapping : list (string * UserState),
             dict_get
               (fold_left
                  (fun mapping record =>
                     if PyStr.nonempty (ju_job_id record) then
                       dict_set mapping (ju_job_id record)
                         {| us_state := state record;
                            us_resume_score_cache :=
                              resume_score_cache record |}
                     else mapping) records mapping) job_id
             = match hd_error
                       (rev (filter (fun r => String.eqb (ju_job_id r) job_id)
                                    records)) with
               | Some r => Some (state_of r)
               | None => dict_get mapping job_id
               end).
  { induction records as [|r rest IH]; intros mapping; simpl; [reflexivity|].
    rewrite IH.
    destruct (String.eqb (ju_job_id r) job_id) eqn:E.
    - simpl rev. 
      destruct (rev (filter (fun r0 => String.eqb (ju_job_id r0) job_id) rest))
        as [|x xs]; simpl; [|reflexivity].
      apply String.eqb_eq in E.
      destruct (ju_job_id r) eqn:Ej; [congruence|]. simpl.
      rewrite dict_get_set. rewrite E, String.eqb_refl. reflexivity.
    - destruct (hd_error _); [reflexivity|].
      destruct (PyStr.nonempty (ju_job_id r)); [|reflexivity].
      rewrite dict_get_set, E. reflexivity. }
  rewrite H. destruct (hd_error _); reflexivity.
Qed.

Lemma filter_filter (A : Type) (p q : A -> bool) (l : list A) :
  filter p (filter q l) = filter (fun x => q x && p x) l.
Proof.
  induction l as [|a l IH]; simpl; [reflexivity|].
  destruct (q a); simpl; [destruct (p a); rewrite IH; reflexivity|exact IH].
Qed.

Lemma fetch_user_states_get (user_id job_id : string) (db : Db) :
  job_id <> "" ->
  exists mapping,
    _fetch_user_states user_id db = (Ok mapping, db)
    /\ dict_get mapping job_id
       = option_map state_of
           (hd_error (rev (links_with user_id job_id
                                      (job_user_collection db)))).
Proof.
  intros Hne. eexists. split; [reflexivity|].
  rewrite collect_states_get by exact Hne.
  unfold links_of, links_with. rewrite filter_filter. reflexivity.
Qed.

(** *** What an upsert changes *)

Lemma links_with_upsert_other (user_id job_id user' job' : string)
    (stored : FitCacheEntry) (docs : list JobUser) :
  (user', job') <> (user_id, job_id) ->
  links_with user' job' (upsert_score_cache user_id job_id stored docs)
  = links_with user' job' docs.
Proof.
  intros Hne. unfold links_with.
  assert (Hk : String.eqb user_id user' && String.eqb job_id job' = false).
  { destruct (String.eqb_spec user_id user') as [E1|E1];
      destruct (String.eqb_spec job_id job') as [E2|E2]; try reflexivity.
    subst. congruence. }
  induction docs as [|d rest IH]; simpl.
  - rewrite Hk. reflexivity.
  - destruct (String.eqb_spec (ju_user_id d) user_id) as [E1|E1];
      destruct (String.eqb_spec (ju_job_id d) job_id) as [E2|E2]; simpl;
      try (rewrite IH; reflexivity).
    rewrite E1, E2, Hk. reflexivity.
Qed.

Lemma links_with_upsert_same (user_id job_id : string)
    (stored : FitCacheEntry) (docs : list JobUser) :
  links_with user_id job_id (upsert_score_cache user_id job_id stored docs)
  = match links_with user_id job_id docs with
    | [] =>
        [{| ju_user_id := user_id; ju_job_id := job_id; state := None;
            resume_score_cache := Some stored |}]
    | d :: rest =>
        {| ju_user_id := user_id; ju_job_id := job_id; state := state d;
           resume_score_cache := Some stored |} :: rest
    end.
Proof.
  unfold links_with. induction docs as [|d rest IH]; simpl.
  - rewrite !String.eqb_refl. reflexivity.
  - destruct (String.eqb_spec (ju_user_id d) user_id) as [E1|E1];
      destruct (String.eqb_spec (ju_job_id d) job_id) as [E2|E2]; simpl;
      rewrite ?E1, ?E2, ?String.eqb_refl; simpl;
      try (destruct (String.eqb_spec (ju_user_id d) user_id);
           destruct (String.eqb_spec (ju_job_id d) job_id);
           try contradiction; simpl; exact IH).
    reflexivity.
Qed.

Lemma keys_upsert (user_id job_id : string) (stored : FitCacheEntry)
    (docs : list JobUser) :
  map link_key (upsert_score_cache user_id job_id stored docs)
  = if existsb (fun d => String.eqb (ju_user_id d) user_id
                         && String.eqb (ju_job_id d) job_id) docs
    then map link_key docs
    else (map link_key docs ++ [(user_id, job_id)])%list.
Proof.
  induction docs as [|d rest IH]; simpl; [reflexivity|].
  destruct (String.eqb (ju_user_id d) user_id
            && String.eqb (ju_job_id d) job_id) eqn:E; simpl.
  - reflexivity.
  - rewrite IH. destruct (existsb _ rest); reflexivity.
Qed.

Lemma unique_links_at_most_one (user_id job_id : string)
    (docs : list JobUser) :
  NoDup (map link_key docs) ->
  (List.length (links_with user_id job_id docs) <= 1)%nat.
Proof.
  unfold links_with.
  induction docs as [|d rest IH]; intros H; simpl; [lia|].
  inversion H as [|? ? Hnot Hrest]; subst.
  specialize (IH Hrest).
  destruct (String.eqb_spec (ju_user_id d) user_id) as [E1|E1];
    destruct (String.eqb_spec (ju_job_id d) job_id) as [E2|E2]; simpl;
    try lia.
  destruct (filter _ rest) as [|d' rest'] eqn:Ef; simpl; [lia|].
  exfalso. apply Hnot.
  assert (Hin : In d' (filter
                         (fun d0 => String.eqb (ju_user_id d0) user_id
                                    && String.eqb (ju_job_id d0) job_id) rest))
    by (rewrite Ef; left; reflexivity).
  apply filter_In in Hin. destruct Hin as [Hin Hk].
  apply andb_prop in Hk. destruct Hk as [K1 K2].
  apply String.eqb_eq in K1, K2.
  apply in_map_iff. exists d'. split; [|exact Hin].
  unfold link_key. congruence.
Qed.

(** X10. [cache_resume_score] touches neither jobs nor profiles; it
    keeps the link documents unique per user and job when they were; it
    leaves the links of every other pair as they were; and it adds a
    document only when the pair had none. *)
Theorem cache_resume_score_keeps_links_unique :
  forall (now : time) (user_id job_id : string) (payload : FitCacheEntry)
         (db : Db),
    let db' := snd (cache_resume_score now user_id job_id payload db) in
    jobs_collection db' = jobs_collection db
    /\ profiles_collection db' = profiles_collection db
    /\ (unique_links db -> unique_links db')
    /\ (forall user' job',
          (user', job') <> (user_id, job_id) ->
          links_with user' job' (job_user_collection db')
          = links_with user' job' (job_user_collection db))
    /\ List.length (job_user_collection db')
       = match links_with user_id job_id (job_user_collection db) with
         | [] => S (List.length (job_user_collection db))
         | _ => List.length (job_user_collection db)
         end.
Proof.
  intros now user_id job_id payload db db'. unfold db', cache_resume_score.
  cbn [snd jobs_collection profiles_collection job_user_collection].
  split; [reflexivity|]. split; [reflexivity|]. split; [|split].
  - unfold unique_links. cbn [job_user_collection].
    rewrite keys_upsert.
    destruct (existsb _ (job_user_collection db)) eqn:E; [tauto|].
    intros H. apply (Permutation_NoDup (Permutation_cons_append _ _)).
    constructor; [|exact H].
    intros Hin. apply in_map_iff in Hin. destruct Hin as [d [Hk Hd]].
    assert (Ht : existsb
                   (fun d => String.eqb (ju_user_id d) user_id
                             && String.eqb (ju_job_id d) job_id)
                   (job_user_collection db) = true).
    { apply existsb_exists. exists d. split; [exact Hd|].
      unfold link_key in Hk. injection Hk as -> ->.
      rewrite !String.eqb_refl. reflexivity. }
    congruence.
  - intros user' job' Hne. apply links_with_upsert_other. exact Hne.
  - rewrite <- (length_map link_key), keys_upsert.
    unfold links_with.
    induction (job_user_collection db) as [|d rest IH]; simpl; [reflexivity|].
    destruct (String.eqb (ju_user_id d) user_id
              && String.eqb (ju_job_id d) job_id); simpl.
    + rewrite length_map. reflexivity.
    + destruct (existsb _ rest); destruct (filter _ rest);
        simpl in *; rewrite ?length_map in *; lia.
Qed.

Lemma collect_states_get_empty (records : list JobUser) :
  dict_get (collect_states records) "" = None.
Proof.
  unfold collect_states.
  assert (H : forall mapping : list (string * UserState),
             dict_get mapping "" = None ->
             dict_get
               (fold_left
                  (fun mapping record =>
                     if PyStr.nonempty (ju_job_id record) then
                       dict_set mapping (ju_job_id record)
                         {| us_state := state record;
                            us_resume_score_cache :=
                              resume_score_cache record |}
                     else mapping) records mapping) "" = None).
  { induction records as [|r rest IH]; intros mapping Hm; simpl; [exact Hm|].
    apply IH. destruct (ju_job_id r) eqn:E; simpl; [exact Hm|].
    rewrite dict_get_set. simpl. exact Hm. }
  apply H. reflexivity.
Qed.

(** X11. With one link per user and job, what [cache_resume_score]
    wrote is what [_fetch_user_states] returns next for that job: the
    payload with the time of the write as [updated_at], next to the state
    the user had given the job (none for a new link); the entries of the
    user's other jobs are as before. *)
Theorem cached_score_round_trip :
  forall (now : time) (user_id job_id : string) (payload : FitCacheEntry)
         (db : Db),
    unique_links db ->
    job_id <> "" ->
    let db' := snd (cache_resume_score now user_id job_id payload db) in
    exists before mapping,
      _fetch_user_states user_id db = (Ok before, db)
      /\ _fetch_user_states user_id db' = (Ok mapping, db')
      /\ dict_get mapping job_id
         = Some {| us_state := saved_state user_id job_id db;
                   us_resume_score_cache := Some (stamped now payload) |}
      /\ forall job', job' <> job_id ->
                      dict_get mapping job' = dict_get before job'.
Proof.
  intros now user_id job_id payload db Hu Hne db'.
  eexists. eexists. split; [reflexivity|]. split; [reflexivity|].
  unfold db', cache_resume_score. cbn [snd job_user_collection].
  fold (stamped now payload).
  split.
  - rewrite collect_states_get by exact Hne.
    unfold links_of. rewrite filter_filter.
    fold (links_with user_id job_id
            (upsert_score_cache user_id job_id (stamped now payload)
               (job_user_collection db))).
    rewrite links_with_upsert_same. unfold saved_state.
    pose proof (unique_links_at_most_one user_id job_id _ Hu) as Hone.
    destruct (links_with user_id job_id (job_user_collection db))
      as [|d [|d' rest]]; simpl in Hone; try lia; reflexivity.
  - intros job' Hj.
    destruct (String.eqb_spec job' "") as [->|Hj'].
    + rewrite !collect_states_get_empty. reflexivity.
    + rewrite !collect_states_get by exact Hj'.
      unfold links_of. rewrite !filter_filter.
      fold (links_with user_id job'
              (upsert_score_cache user_id job_id (stamped now payload)
                 (job_user_collection db))).
      rewrite links_with_upsert_other by congruence. reflexivity.
Qed.

Lemma cached_score_round_trip_witness :
  unique_links db_1
  /\ "64b7f0c2a1d3e4f5a6b7c8d9" <> ""
  /\ saved_state "u1" "64b7f0c2a1d3e4f5a6b7c8d9" db_1 = Some "saved"
  /\ exists before mapping,
       _fetch_user_states "u1" db_1 = (Ok before, db_1)
       /\ _fetch_user_states "u1"
            (snd (cache_resume_score (2 * hour)%Z "u1"
                    "64b7f0c2a1d3e4f5a6b7c8d9" new_entry db_1))
          = (Ok mapping,
             snd (cache_resume_score (2 * hour)%Z "u1"
                    "64b7f0c2a1d3e4f5a6b7c8d9" new_entry db_1))
       /\ dict_get mapping "64b7f0c2a1d3e4f5a6b7c8d9"
          = Some {| us_state :=
                      saved_state "u1" "64b7f0c2a1d3e4f5a6b7c8d9" db_1;
                    us_resume_score_cache :=
                      Some (stamped (2 * hour)%Z new_entry) |}
       /\ forall job', job' <> "64b7f0c2a1d3e4f5a6b7c8d9" ->
                       dict_get mapping job' = dict_get before job'.
Proof.
  assert (Hu : unique_links db_1).
  { unfold unique_links. simpl. constructor; [intros []|constructor]. }
  assert (Hne : "64b7f0c2a1d3e4f5a6b7c8d9" <> "") by discriminate.
  split; [exact Hu|]. split; [exact Hne|]. split; [reflexivity|].
  exact (cached_score_round_trip (2 * hour)%Z "u1" "64b7f0c2a1d3e4f5a6b7c8d9"
           new_entry db_1 Hu Hne).
Defined.

(** *** Deleting a link *)

Lemma delete_first_In (user_id job_id : string) (x : JobUser)
    (docs : list JobUser) :
  In x (delete_first user_id job_id docs) -> In x docs.
Proof.
  induction docs as [|d rest IH]; simpl; [tauto|].
  destruct (String.eqb (ju_user_id d) user_id
            && String.eqb (ju_job_id d) job_id); simpl; [tauto|].
  intros [H|H]; [left; exact H|right; apply IH; exact H].
Qed.

Lemma delete_first_unique (user_id job_id : string) (docs : list JobUser) :
  NoDup (map link_key docs) ->
  NoDup (map link_key (delete_first user_id job_id docs)).
Proof.
  induction docs as [|d rest IH]; intros H; simpl; [exact H|].
  inversion H as [|? ? Hnot Hrest]; subst.
  destruct (String.eqb (ju_user_id d) user_id
            && String.eqb (ju_job_id d) job_id); [exact Hrest|].
  simpl. constructor; [|apply IH; exact Hrest].
  intros Hin. apply Hnot. apply in_map_iff in Hin.
  destruct Hin as [x [Hk Hx]]. apply in_map_iff. exists x.
  split; [exact Hk|]. eapply delete_first_In. exact Hx.
Qed.

Lemma links_with_delete_other (user_id job_id user' job' : string)
    (docs : list JobUser) :
  (user', job') <> (user_id, job_id) ->
  links_with user' job' (delete_first user_id job_id docs)
  = links_with user' job' docs.
Proof.
  intros Hne. unfold links_with.
  induction docs as [|d rest IH]; simpl; [reflexivity|].
  destruct (String.eqb_spec (ju_user_id d) user_id) as [E1|E1];
    destruct (String.eqb_spec (ju_job_id d) job_id) as [E2|E2]; simpl;
    try (rewrite IH; reflexivity).
  rewrite E1, E2.
  destruct (String.eqb_spec user_id user') as [E3|E3];
    destruct (String.eqb_spec job_id job') as [E4|E4]; simpl;
    try reflexivity.
  subst. congruence.
Qed.

Lemma links_with_delete_same (user_id job_id : string)
    (docs : list JobUser) :
  links_with user_id job_id (delete_first user_id job_id docs)
  = tl (links_with user_id job_id docs).
Proof.
  unfold links_with. induction docs as [|d rest IH]; simpl; [reflexivity|].
  destruct (String.eqb (ju_user_id d) user_id
            && String.eqb (ju_job_id d) job_id) eqn:E; simpl.
  - reflexivity.
  - rewrite E. exact IH.
Qed.

(** X12. With one link per user and job, after [delete_saved_job] the
    next [_fetch_user_states] has no entry for that job, the cached score
    included; the links stay unique, the links of every other pair are as
    they were, and neither jobs nor profiles are touched. *)
Theorem delete_saved_job_forgets_link :
  forall (user_id job_id : string) (db : Db),
    unique_links db ->
    job_id <> "" ->
    let db' := snd (delete_saved_job user_id job_id db) in
    unique_links db'
    /\ (exists mapping,
          _fetch_user_states user_id db' = (Ok mapping, db')
          /\ dict_get mapping job_id = None)
    /\ (forall user' job',
          (user', job') <> (user_id, job_id) ->
          links_with user' job' (job_user_collection db')
          = links_with user' job' (job_user_collection db))
    /\ jobs_collection db' = jobs_collection db
    /\ profiles_collection db' = profiles_collection db.
Proof.
  intros user_id job_id db Hu Hne db'. unfold db', delete_saved_job.
  cbn [snd jobs_collection profiles_collection job_user_collection].
  split; [apply delete_first_unique; exact Hu|].
  split; [|split; [|split; reflexivity]].
  - eexists. split; [reflexivity|]. cbn [job_user_collection].
    rewrite collect_states_get by exact Hne.
    unfold links_of. rewrite filter_filter.
    fold (links_with user_id job_id
            (delete_first user_id job_id (job_user_collection db))).
    rewrite links_with_delete_same.
    pose proof (unique_links_at_most_one user_id job_id _ Hu) as Hone.
    destruct (links_with user_id job_id (job_user_collection db))
      as [|d [|d' rest]]; simpl in Hone; try lia; reflexivity.
  - intros user' job' Hk. apply links_with_delete_other. exact Hk.
Qed.

Lemma delete_saved_job_forgets_link_witness :
  unique_links db_1
  /\ "64b7f0c2a1d3e4f5a6b7c8d9" <> ""
  /\ job_user_collection
       (snd (delete_saved_job "u1" "64b7f0c2a1d3e4f5a6b7c8d9" db_1)) = []
  /\ exists mapping,
       _fetch_user_states "u1"
         (snd (delete_saved_job "u1" "64b7f0c2a1d3e4f5a6b7c8d9" db_1))
       = (Ok mapping,
          snd (delete_saved_job "u1" "64b7f0c2a1d3e4f5a6b7c8d9" db_1))
       /\ dict_get mapping "64b7f0c2a1d3e4f5a6b7c8d9" = None.
Proof.
  assert (Hu : unique_links db_1).
  { unfold unique_links. simpl. constructor; [intros []|constructor]. }
  assert (Hne : "64b7f0c2a1d3e4f5a6b7c8d9" <> "") by discriminate.
  split; [exact Hu|]. split; [exact Hne|]. split; [reflexivity|].
  exact (proj1 (proj2 (delete_saved_job_forgets_link "u1"
                         "64b7f0c2a1d3e4f5a6b7c8d9" db_1 Hu Hne))).
Defined.

(** X13. Two calls of [cache_resume_score] for the same user and job
    leave the store as the second call alone would; and deleting the link
    after a call leaves the store as deleting it without the call
    would. *)
Theorem cache_resume_score_last_write_wins :
  forall (now1 now2 : time) (user_id job_id : string)
         (first second : FitCacheEntry) (db : Db),
    let once := cache_resume_score now2 user_id job_id second db in
    let twice :=
      cache_resume_score now2 user_id job_id second
        (snd (cache_resume_score now1 user_id job_id first db)) in
    snd twice = snd once
    /\ snd (delete_saved_job user_id job_id
              (snd (cache_resume_score now1 user_id job_id first db)))
       = snd (delete_saved_job user_id job_id db).
Proof.
  intros now1 now2 user_id job_id first second db once twice.
  unfold once, twice, cache_resume_score, delete_saved_job.
  cbn [snd jobs_collection profiles_collection job_user_collection].
  fold (stamped now1 first). fold (stamped now2 second).
  split; f_equal.
  - induction (job_user_collection db) as [|d rest IH]; simpl.
    + rewrite !String.eqb_refl. reflexivity.
    + destruct (String.eqb (ju_user_id d) user_id
                && String.eqb (ju_job_id d) job_id) eqn:E; simpl; rewrite E.
      * reflexivity.
      * rewrite IH. reflexivity.
  - induction (job_user_collection db) as [|d rest IH]; simpl.
    + rewrite !String.eqb_refl. reflexivity.
    + destruct (String.eqb (ju_user_id d) user_id
                && String.eqb (ju_job_id d) job_id) eqn:E; simpl; rewrite E.
      * reflexivity.
      * rewrite IH. reflexivity.
Qed.

End LinkFacts.

(** ** Matching requirements with evidence *)

Module MatchingFacts.

Import Py AiService Samples MoreSamples Expected FloatOrder FloatFacts.
Open Scope string_scope.

Lemma best_evidence_quotes (item : Requirement) (req_vector : vector)
    (evidence : list string) (evidence_embeddings : list vector) :
  forall (evidence_idx : nat) (b b' : float) (m m' : option MatchEntry),
    (forall entry, m = Some entry ->
                   entry_key entry = requirement_key item
                   /\ quotes evidence entry) ->
    best_evidence item req_vector evidence evidence_embeddings evidence_idx b m
    = Ok (b', m') ->
    forall entry, m' = Some entry ->
                  entry_key entry = requirement_key item
                  /\ quotes evidence entry.
Proof.
  induction evidence_embeddings as [|ev_vector rest IH];
    intros evidence_idx b b' m m' Hinv; simpl.
  - intros H. injection H as <- <-. exact Hinv.
  - destruct (_cosine_similarity req_vector ev_vector) as [sim|e];
      [|discriminate]. simpl.
    destruct (b <? sim)%float.
    + unfold list_index.
      destruct (nth_error evidence evidence_idx) as [text|] eqn:Et;
        [|discriminate].
      simpl. apply IH. intros entry H. injection H as <-.
      split; [reflexivity|]. exists text. split; [reflexivity|].
      eapply nth_error_In. exact Et.
    + apply IH. exact Hinv.
Qed.

Lemma match_requirements_split (threshold : float)
    (requirement_embeddings : list vector) (evidence : list string)
    (evidence_embeddings : list vector) (items : list Requirement) :
  forall (idx : nat) (matched missing matched' missing' : list MatchEntry),
    match_requirements threshold requirement_embeddings evidence
      evidence_embeddings idx items matched missing
    = Ok (matched', missing') ->
    exists found lost,
      matched' = (matched ++ found)%list
      /\ missing' = (missing ++ lost)%list
      /\ Permutation (map entry_key (found ++ lost))
                     (map requirement_key items)
      /\ Forall (quotes evidence) found
      /\ Forall quotes_nothing lost.
Proof.
  induction items as [|item rest IH];
    intros idx matched missing matched' missing'; simpl.
  - intros H. injection H as <- <-. exists [], [].
    rewrite !app_nil_r. repeat split; constructor.
  - destruct (list_index requirement_embeddings idx) as [req_vector|e];
      [|discriminate]. simpl.
    destruct (best_evidence item req_vector evidence evidence_embeddings 0
                (-1) None) as [[b m]|e] eqn:Eb; [|discriminate]. simpl.
    pose proof (best_evidence_quotes item req_vector evidence
                  evidence_embeddings 0 (-1) b None m
                  ltac:(intros ? H; discriminate H) Eb) as Hq.
    assert (Hlost :
              match_requirements threshold requirement_embeddings evidence
                evidence_embeddings (S idx) rest matched
                (missing ++ [missing_entry item b])
              = Ok (matched', missing') ->
              exists found lost,
                matched' = (matched ++ found)%list
                /\ missing' = (missing ++ lost)%list
                /\ Permutation (map entry_key (found ++ lost))
                               (requirement_key item
                                :: map requirement_key rest)
                /\ Forall (quotes evidence) found
                /\ Forall quotes_nothing lost).
    { intros H. apply IH in H.
      destruct H as [found [lost [H1 [H2 [H3 [H4 H5]]]]]].
      exists found, (missing_entry item b :: lost).
      split; [exact H1|]. split; [rewrite H2, <- app_assoc; reflexivity|].
      split; [|split; [exact H4|constructor; [reflexivity|exact H5]]].
      rewrite map_app. simpl.
      eapply Permutation_trans; [apply Permutation_sym, Permutation_middle|].
      constructor. rewrite <- map_app. exact H3. }
    destruct m as [entry|]; [|exact Hlost].
    destruct (threshold <=? b)%float; [|exact Hlost].
    intros H. apply IH in H.
    destruct H as [found [lost [H1 [H2 [H3 [H4 H5]]]]]].
    destruct (Hq entry eq_refl) as [Hk Ht].
    exists (entry :: found), lost.
    split; [rewrite H1, <- app_assoc; reflexivity|]. split; [exact H2|].
    split; [|split; [constructor; assumption|exact H5]].
    simpl. rewrite Hk. constructor. exact H3.
Qed.

Lemma missing_payload_quotes_nothing (l : list Requirement) :
  Forall quotes_nothing
         (map (fun item =>
                 {| requirement := label item; critical := req_critical item;
                    matched_text := None; similarity := None |}) l).
Proof.
  apply Forall_forall. intros entry Hin. apply in_map_iff in Hin.
  destruct Hin as [it [<- _]]. reflexivity.
Qed.

Lemma score_requirements_split :
  forall (embed : provider) (requirements : list dict)
         (evidence_texts : list string) (label_field : string)
         (threshold : float) (r : DimensionResult),
    _score_requirements embed requirements evidence_texts label_field
      threshold = Ok r ->
    Permutation (map entry_key (matched r ++ missing r))
                (map requirement_key
                     (clean_requirements label_field requirements))
    /\ Forall (quotes (clean_evidence evidence_texts)) (matched r)
    /\ Forall quotes_nothing (missing r)
    /\ (List.length (matched r) + List.length (missing r)
        = List.length (clean_requirements label_field requirements))%nat.
Proof.
  intros embed requirements evidence_texts label_field threshold r H.
  assert (Hlen : forall l1 l2 (l : list Requirement),
             Permutation (map entry_key (l1 ++ l2)) (map requirement_key l) ->
             (List.length l1 + List.length l2 = List.length l)%nat).
  { intros l1 l2 l Hp. apply Permutation_length in Hp.
    rewrite !length_map, length_app in Hp. exact Hp. }
  unfold _score_requirements in H.
  destruct (clean_requirements label_field requirements)
    as [|item items] eqn:Ec.
  { injection H as <-. simpl. repeat split; constructor. }
  destruct (clean_evidence evidence_texts) as [|text texts] eqn:Ee.
  { injection H as <-. cbn [matched missing app].
    assert (Hp : Permutation
                   (map entry_key
                      (map (fun item0 =>
                              {| requirement := label item0;
                                 critical := req_critical item0;
                                 matched_text := None;
                                 similarity := None |}) (item :: items)))
                   (map requirement_key (item :: items))).
    { rewrite map_map. apply Permutation_refl. }
    split; [exact Hp|]. split; [constructor|]. split.
    - exact (missing_payload_quotes_nothing (item :: items)).
    - apply (Hlen [] _ _ Hp). }
  destruct (_batched_embeddings embed _) as [embeddings|e]; [|discriminate].
  cbv beta iota zeta delta [bind] in H.
  match type of H with
  | context [match_requirements ?a ?b ?c ?d ?i ?f ?g ?h] =>
      destruct (match_requirements a b c d i f g h)
        as [[matched' missing']|e] eqn:Em; [|discriminate]
  end.
  apply match_requirements_split in Em.
  destruct Em as [found [lost [H1 [H2 [H3 [H4 H5]]]]]].
  simpl in H1, H2. subst found lost.
  destruct (if (requirements_weight (item :: items) =? 0)%Z then _ else _)
    as [sc|e]; [|discriminate].
  injection H as <-. cbn [matched missing].
  split; [exact H3|]. split; [exact H4|]. split; [exact H5|].
  apply (Hlen _ _ _ H3).
Qed.

(** X14. When [_score_requirements] returns, every requirement that
    survived the cleaning appears exactly once, with its label and its
    critical flag, either in [matched] or in [missing]; an entry of
    [matched] quotes one of the cleaned evidence texts and an entry of
    [missing] quotes none. *)
Theorem score_requirements_splits_requirements :
  forall (embed : provider) (requirements : list dict)
         (evidence_texts : list string) (label_field : string)
         (threshold : float) (r : DimensionResult),
    _score_requirements embed requirements evidence_texts label_field
      threshold = Ok r ->
    Permutation (map entry_key (matched r ++ missing r))
                (map requirement_key
                     (clean_requirements label_field requirements))
    /\ Forall (quotes (clean_evidence evidence_texts)) (matched r)
    /\ Forall quotes_nothing (missing r)
    /\ (List.length (matched r) + List.length (missing r)
        = List.length (clean_requirements label_field requirements))%nat.
Proof. exact score_requirements_split. Qed.

Lemma score_requirements_splits_requirements_witness :
  _score_requirements (table_provider skill_vectors) [req_python; req_docker]
    ["Python developer"] "name" default_threshold = Ok python_docker_result
  /\ Permutation
       (map entry_key
            (matched python_docker_result ++ missing python_docker_result))
       (map requirement_key
            (clean_requirements "name" [req_python; req_docker]))
  /\ Forall (quotes (clean_evidence ["Python developer"]))
            (matched python_docker_result)
  /\ Forall quotes_nothing (missing python_docker_result)
  /\ (List.length (matched python_docker_result)
      + List.length (missing python_docker_result)
      = List.length (clean_requirements "name" [req_python; req_docker]))%nat.
Proof.
  assert (H : _score_requirements (table_provider skill_vectors)
                [req_python; req_docker] ["Python developer"] "name"
                default_threshold = Ok python_docker_result)
    by (vm_compute; reflexivity).
  split; [exact H|].
  exact (score_requirements_splits_requirements (table_provider skill_vectors)
           [req_python; req_docker] ["Python developer"] "name"
           default_threshold python_docker_result H).
Defined.

(** *** The inner loop finds the first maximum *)

Lemma skipn_cons_nth (A : Type) (n : nat) (l rest : list A) (a : A) :
  skipn n l = a :: rest -> nth_error l n = Some a /\ skipn (S n) l = rest.
Proof.
  revert l. induction n as [|n IH]; intros [|x l] H; simpl in *;
    try discriminate.
  - injection H as -> ->. split; reflexivity.
  - apply IH. exact H.
Qed.

Lemma not_above_after_update (b sim s : float) :
  (b <? sim)%float = true -> (b <? s)%float = false ->
  (sim <? s)%float = false /\ (sim <=? s)%float = false.
Proof.
  intros H1 H2. apply ltb_flt in H1. apply ltb_false_iff in H2.
  split.
  - apply ltb_false_iff. intros H. apply H2. eapply flt_trans; eassumption.
  - destruct (sim <=? s)%float eqn:E; [|reflexivity].
    apply leb_flt in E. exfalso. apply H2. destruct E as [E|E].
    + eapply flt_trans; eassumption.
    + eapply flt_feq_r; eassumption.
Qed.

Lemma ltb_irrefl (x : float) : (x <? x)%float = false.
Proof.
  apply ltb_false_iff. intros H. exact (flt_asym _ _ H H).
Qed.

Lemma best_evidence_scan (item : Requirement) (req_vector : vector)
    (evidence : list string) (all : list vector) :
  forall (rest : list vector) (n : nat) (b b' : float)
         (m m' : option MatchEntry),
    skipn n all = rest ->
    scanned req_vector evidence all n b m ->
    best_evidence item req_vector evidence rest n b m = Ok (b', m') ->
    scanned req_vector evidence all (List.length all) b' m'.
Proof.
  induction rest as [|ev_vector rest IH]; intros n b b' m m' Hs Hinv; simpl.
  - intros H. injection H as <- <-.
    assert (Hn : (List.length all <= n)%nat).
    { destruct (Nat.le_gt_cases (List.length all) n) as [Hle|Hgt];
        [exact Hle|].
      assert (Hl : List.length (skipn n all) = 0%nat) by (rewrite Hs; reflexivity).
      rewrite length_skipn in Hl. lia. }
    destruct Hinv as [HA HC]. split.
    + intros i s Hi. apply HA. lia.
    + destruct m as [entry|]; [|exact HC].
      destruct HC as [i [text [Hi [H1 [H2 [H3 [H4 H5]]]]]]].
      exists i, text. repeat split; try assumption.
      destruct H1 as [ev [Hev _]].
      apply nth_error_Some. congruence.
  - apply skipn_cons_nth in Hs. destruct Hs as [Hnth Hs].
    destruct Hinv as [HA HC].
    destruct (_cosine_similarity req_vector ev_vector) as [sim|e] eqn:Ec;
      [|discriminate]. simpl.
    destruct (b <? sim)%float eqn:Hlt.
    + unfold list_index.
      destruct (nth_error evidence n) as [text|] eqn:Et; [|discriminate].
      simpl. apply (IH (S n)); [exact Hs|]. split.
      * intros i s Hi Hsim.
        destruct (Nat.eq_dec i n) as [->|Hne].
        -- destruct Hsim as [ev [Hev Hcos]].
           assert (ev = ev_vector) by congruence. subst ev.
           assert (s = sim) by congruence. subst s. apply ltb_irrefl.
        -- apply (not_above_after_update b sim s Hlt).
           apply (HA i s); [lia|exact Hsim].
      * exists n, text. split; [lia|].
        split; [exists ev_vector; split; assumption|].
        split; [exact Et|]. split; [reflexivity|]. split.
        -- destruct m as [entry|].
           ++ destruct HC as [i [t [_ [_ [_ [_ [H4 _]]]]]]].
              apply ltb_flt. apply ltb_flt in H4, Hlt.
              eapply flt_trans; eassumption.
           ++ subst b. exact Hlt.
        -- intros k s Hk Hsim.
           apply (not_above_after_update b sim s Hlt).
           apply (HA k s); [lia|exact Hsim].
    + apply (IH (S n)); [exact Hs|]. split.
      * intros i s Hi Hsim.
        destruct (Nat.eq_dec i n) as [->|Hne].
        -- destruct Hsim as [ev [Hev Hcos]].
           assert (ev = ev_vector) by congruence. subst ev.
           assert (s = sim) by congruence. subst s. exact Hlt.
        -- apply (HA i s); [lia|exact Hsim].
      * destruct m as [entry|]; [|exact HC].
        destruct HC as [i [text [Hi [H1 [H2 [H3 [H4 H5]]]]]]].
        exists i, text. repeat split; try assumption. lia.
Qed.

(** X15. The inner loop of [_score_requirements] returns a best
    similarity that no similarity of the requirement to an evidence
    vector exceeds. When it found an entry, the best similarity is the one
    at some position [i], it is above -1, the entry quotes the evidence
    text at that same position, and no earlier position reaches it: of
    several equally similar texts the first is quoted. When it found
    none, the best similarity is still -1. *)
Theorem best_evidence_is_first_maximum :
  forall (item : Requirement) (req_vector : vector) (evidence : list string)
         (evidence_embeddings : list vector) (b : float)
         (m : option MatchEntry),
    best_evidence item req_vector evidence evidence_embeddings 0 (-1) None
    = Ok (b, m) ->
    (forall i s, similarity_at req_vector evidence_embeddings i s ->
                 (b <? s)%float = false)
    /\ match m with
       | None => b = (-1)%float
       | Some entry =>
           exists i text,
             similarity_at req_vector evidence_embeddings i b
             /\ nth_error evidence i = Some text
             /\ matched_text entry = Some text
             /\ ((-1) <? b)%float = true
             /\ forall k s, (k < i)%nat ->
                            similarity_at req_vector evidence_embeddings k s ->
                            (b <=? s)%float = false
       end.
Proof.
  intros item req_vector evidence evidence_embeddings b m H.
  assert (Hstart : scanned req_vector evidence evidence_embeddings 0 (-1) None).
  { split; [intros i s Hi; lia|reflexivity]. }
  pose proof (best_evidence_scan item req_vector evidence evidence_embeddings
                evidence_embeddings 0 (-1) b None m eq_refl Hstart H)
    as [HA HC].
  split.
  - intros i s Hsim. apply (HA i s); [|exact Hsim].
    destruct Hsim as [ev [Hev _]]. apply nth_error_Some. congruence.
  - destruct m as [entry|]; [|exact HC].
    destruct HC as [i [text [_ HC]]]. exists i, text. exact HC.
Qed.

(** Of the two texts that are equally close, "b" is quoted. *)
Lemma best_evidence_is_first_maximum_witness :
  best_evidence python_requirement [1%float; 0%float] ["a"; "b"; "c"]
    three_vectors 0 (-1) None
  = Ok (1%float, Some (python_entry "b" 1))
  /\ (forall i s, similarity_at [1%float; 0%float] three_vectors i s ->
                  (1 <? s)%float = false)
  /\ exists i text,
       similarity_at [1%float; 0%float] three_vectors i 1
       /\ nth_error ["a"; "b"; "c"] i = Some text
       /\ matched_text (python_entry "b" 1) = Some text
       /\ ((-1) <? 1)%float = true
       /\ forall k s, (k < i)%nat ->
                      similarity_at [1%float; 0%float] three_vectors k s ->
                      (1 <=? s)%float = false.
Proof.
  assert (H : best_evidence python_requirement [1%float; 0%float]
                ["a"; "b"; "c"] three_vectors 0 (-1) None
              = Ok (1%float, Some (python_entry "b" 1)))
    by (vm_compute; reflexivity).
  split; [exact H|].
  exact (best_evidence_is_first_maximum python_requirement
           [1%float; 0%float] ["a"; "b"; "c"] three_vectors 1
           (Some (python_entry "b" 1)) H).
Defined.

(** *** A provider that answers with too few vectors *)

Lemma match_requirements_short (threshold : float)
    (requirement_embeddings : list vector) (evidence : list string)
    (items : list Requirement) :
  forall (idx : nat) (matched missing : list MatchEntry),
    (idx <= List.length requirement_embeddings)%nat ->
    (List.length requirement_embeddings < idx + List.length items)%nat ->
    match_requirements threshold requirement_embeddings evidence [] idx items
      matched missing
    = Raise IndexError.
Proof.
  induction items as [|item rest IH]; intros idx matched missing Hle Hlt;
    simpl in *; [lia|].
  unfold list_index.
  destruct (nth_error requirement_embeddings idx) as [req_vector|] eqn:E.
  - simpl. apply IH.
    + assert (idx < List.length requirement_embeddings)%nat; [|lia].
      apply nth_error_Some. congruence.
    + lia.
  - reflexivity.
Qed.

(** X16. [_score_requirements] does not check what the provider
    returns: when the answer holds fewer vectors than there are
    requirements, the call raises IndexError and no score is
    returned. *)
Theorem short_provider_answer_raises :
  forall (embed : provider) (requirements : list dict)
         (evidence_texts : list string) (label_field : string)
         (threshold : float) (embeddings : list vector),
    let kept := clean_requirements label_field requirements in
    let evidence := clean_evidence evidence_texts in
    evidence <> [] ->
    embed (map label kept ++ evidence)%list = Ok embeddings ->
    (List.length embeddings < List.length kept)%nat ->
    _score_requirements embed requirements evidence_texts label_field
      threshold
    = Raise IndexError.
Proof.
  intros embed requirements evidence_texts label_field threshold embeddings
         kept evidence Hev Hembed Hlen.
  unfold _score_requirements. fold kept. fold evidence.
  destruct kept as [|item items] eqn:Ek; [simpl in Hlen; lia|].
  destruct evidence as [|text texts] eqn:Ee; [congruence|].
  unfold _batched_embeddings. simpl app at 1. cbv iota.
  change (label item :: (map label items ++ text :: texts)%list)
    with (map label (item :: items) ++ text :: texts)%list.
  rewrite Hembed. cbv beta iota zeta delta [bind].
  rewrite firstn_all2 by lia. rewrite skipn_all2 by lia.
  rewrite match_requirements_short; [reflexivity|lia|simpl in *; lia].
Qed.

Lemma short_provider_answer_raises_witness :
  clean_evidence ["Python developer"] <> []
  /\ short_provider
       (map label (clean_requirements "name" [req_python; req_docker])
        ++ clean_evidence ["Python developer"])%list
     = Ok [[1%float; 0%float]]
  /\ (List.length [[1%float; 0%float]]
      < List.length (clean_requirements "name" [req_python; req_docker]))%nat
  /\ _score_requirements short_provider [req_python; req_docker]
       ["Python developer"] "name" default_threshold
     = Raise IndexError.
Proof.
  assert (H1 : clean_evidence ["Python developer"] <> [])
    by (vm_compute; discriminate).
  assert (H2 : short_provider
                 (map label (clean_requirements "name" [req_python; req_docker])
                  ++ clean_evidence ["Python developer"])%list
               = Ok [[1%float; 0%float]]) by reflexivity.
  assert (H3 : (List.length [[1%float; 0%float]]
                < List.length
                    (clean_requirements "name" [req_python; req_docker]))%nat)
    by (vm_compute; lia).
  split; [exact H1|]. split; [exact H2|]. split; [exact H3|].
  exact (short_provider_answer_raises short_provider [req_python; req_docker]
           ["Python developer"] "name" default_threshold
           [[1%float; 0%float]] H1 H2 H3).
Defined.

End MatchingFacts.

(** ** The score of a dimension *)

Module DimensionScoreFacts.

Import Py AiService Samples MoreSamples FloatOrder FloatFacts BoundFacts.
Open Scope string_scope.

Lemma entries_weight_zero (l : list MatchEntry) :
  entries_weight l = 0%Z -> l = [].
Proof.
  destruct l as [|entry l] using rev_ind; [reflexivity|].
  rewrite ScoringFacts.entries_weight_app.
  pose proof (ScoringFacts.entries_weight_nonneg l).
  destruct (critical entry); simpl; lia.
Qed.

(** The three ways in which [_score_requirements] returns. *)
Lemma score_requirements_cases (embed : provider) (requirements : list dict)
    (evidence_texts : list string) (label_field : string)
    (threshold : float) (r : DimensionResult) :
  _score_requirements embed requirements evidence_texts label_field threshold
  = Ok r ->
  (applicable r = false /\ score r = 100%Z)
  \/ (applicable r = true /\ score r = 0%Z /\ matched r = []
      /\ missing r <> [])
  \/ (applicable r = true
      /\ exists total_weight : Z,
           (0 < total_weight)%Z
           /\ (entries_weight (matched r) + entries_weight (missing r)
               = total_weight)%Z
           /\ bind (int_truediv (100 * entries_weight (matched r))
                                total_weight) round
              = Ok (score r)).
Proof.
  unfold _score_requirements.
  destruct (clean_requirements label_field requirements)
    as [|item items] eqn:Ec.
  { intros H. injection H as <-. left. split; reflexivity. }
  destruct (clean_evidence evidence_texts) as [|text texts] eqn:Ee.
  { intros H. injection H as <-. right. left. simpl.
    repeat split; discriminate. }
  destruct (_batched_embeddings embed _) as [embeddings|e]; [|discriminate].
  cbv beta iota zeta delta [bind].
  match goal with
  | |- context [match_requirements ?a ?b ?c ?d ?i ?f ?g ?h] =>
      destruct (match_requirements a b c d i f g h)
        as [[matched' missing']|e] eqn:Em; [|discriminate]
  end.
  apply ScoringFacts.match_requirements_inv in Em; [|constructor|constructor].
  destruct Em as [_ [_ Hw]].
  change (entries_weight []) with 0%Z in Hw.
  pose proof (ScoringFacts.requirements_weight_count (item :: items)) as Hcount.
  assert (Hpos : (0 < requirements_weight (item :: items))%Z).
  { rewrite Hcount. simpl List.length. lia. }
  assert (Ez : (requirements_weight (item :: items) =? 0)%Z = false)
    by (apply Z.eqb_neq; lia).
  rewrite Ez.
  destruct (int_truediv (100 * entries_weight matched')
                        (requirements_weight (item :: items)))
    as [q|e] eqn:Eq; [|discriminate].
  destruct (round q) as [sc|e] eqn:Er; [|discriminate].
  intros H. injection H as <-. cbn [matched missing score applicable].
  right. right. split; [reflexivity|].
  exists (requirements_weight (item :: items)).
  split; [exact Hpos|]. split; [lia|]. rewrite Eq. exact Er.
Qed.

(** X17. Whenever [_score_requirements] returns, the score is an integer
    between 0 and 100: the rounded quotient of the weights cannot pass
    100. *)
Theorem dimension_score_is_a_percentage :
  forall (embed : provider) (requirements : list dict)
         (evidence_texts : list string) (label_field : string)
         (threshold : float) (r : DimensionResult),
    _score_requirements embed requirements evidence_texts label_field
      threshold = Ok r ->
    (0 <= score r <= 100)%Z.
Proof.
  intros embed requirements evidence_texts label_field threshold r H.
  apply score_requirements_cases in H.
  destruct H as [[_ ->]|[[_ [-> _]]|[_ [tw [Hpos [Hw Hs]]]]]]; try lia.
  pose proof (ScoringFacts.entries_weight_nonneg (matched r)).
  pose proof (ScoringFacts.entries_weight_nonneg (missing r)).
  destruct (score_ratio_at_most_100 (entries_weight (matched r)) tw)
    as [n [Hn Hrange]]; [lia|exact Hpos|].
  rewrite Hn in Hs. injection Hs as <-. exact Hrange.
Qed.

Lemma dimension_score_is_a_percentage_witness :
  _score_requirements (table_provider skill_vectors) [req_python; req_docker]
    ["Python developer"] "name" default_threshold = Ok python_docker_result
  /\ (0 <= score python_docker_result <= 100)%Z.
Proof.
  assert (H : _score_requirements (table_provider skill_vectors)
                [req_python; req_docker] ["Python developer"] "name"
                default_threshold = Ok python_docker_result)
    by (vm_compute; reflexivity).
  split; [exact H|].
  exact (dimension_score_is_a_percentage (table_provider skill_vectors)
           [req_python; req_docker] ["Python developer"] "name"
           default_threshold python_docker_result H).
Defined.

(** X18. When nothing is missing the score is exactly 100, whatever the
    weights: 100 * w / w is not rounded away from 100. When requirements
    were scored and nothing matched, the score is 0. *)
Theorem dimension_score_extremes :
  forall (embed : provider) (requirements : list dict)
         (evidence_texts : list string) (label_field : string)
         (threshold : float) (r : DimensionResult),
    _score_requirements embed requirements evidence_texts label_field
      threshold = Ok r ->
    (missing r = [] -> score r = 100%Z)
    /\ (applicable r = true -> matched r = [] -> score r = 0%Z).
Proof.
  intros embed requirements evidence_texts label_field threshold r H.
  apply score_requirements_cases in H.
  destruct H as [[Ha ->]|[[_ [-> [_ Hm]]]|[_ [tw [Hpos [Hw Hs]]]]]].
  - split; [reflexivity|]. rewrite Ha. discriminate.
  - split; [contradiction|reflexivity].
  - split.
    + intros Hm. rewrite Hm in Hw. change (entries_weight []) with 0%Z in Hw.
      rewrite Z.add_0_r in Hw. rewrite Hw in Hs.
      rewrite (int_truediv_exact_100 tw Hpos) in Hs.
      change (bind (Ok 100%float) round) with (Ok 100%Z) in Hs.
      injection Hs as <-. reflexivity.
    + intros _ Hm. rewrite Hm in Hs. change (entries_weight []) with 0%Z in Hs.
      destruct tw; try lia.
      change (bind (int_truediv (100 * 0) (Z.pos p)) round) with (Ok 0%Z) in Hs.
      injection Hs as <-. reflexivity.
Qed.

Lemma dimension_score_extremes_witness :
  _score_requirements (table_provider skill_vectors) [req_python]
    ["Python developer"] "name" default_threshold = Ok python_only_result
  /\ missing python_only_result = []
  /\ score python_only_result = 100%Z.
Proof.
  assert (H : _score_requirements (table_provider skill_vectors) [req_python]
                ["Python developer"] "name" default_threshold
              = Ok python_only_result)
    by (vm_compute; reflexivity).
  split; [exact H|]. split; [reflexivity|].
  exact (proj1 (dimension_score_extremes (table_provider skill_vectors)
                  [req_python] ["Python developer"] "name" default_threshold
                  python_only_result H) eq_refl).
Defined.

End DimensionScoreFacts.

(** ** Evidence composed from the resume *)

Module EvidenceFacts.

Import Py AiService Expected TextFacts NormalizeFacts.
Open Scope string_scope.

Lemma clean_evidence_fixed (l : list string) :
  Forall trimmed_name l -> clean_evidence l = l.
Proof.
  unfold clean_evidence. induction l as [|x l IH]; intros H; [reflexivity|].
  inversion H as [|? ? [Hne Hs] Hl]; subst. simpl.
  rewrite Hs. apply nonempty_true in Hne. rewrite Hne. simpl.
  rewrite Hs, (IH Hl). reflexivity.
Qed.

Lemma compose_parts_trimmed (parts : list string) :
  Forall trimmed_name (compose_parts parts)
  /\ (List.length (compose_parts parts) <= 1)%nat.
Proof.
  unfold compose_parts.
  destruct (PyStr.nonempty (PyStr.strip _)) eqn:E; split; simpl; try lia;
    constructor; [|constructor].
  split; [apply nonempty_true; exact E|apply strip_idem].
Qed.

Lemma flat_map_trimmed (A : Type) (f : A -> list string) (l : list A) :
  (forall a, Forall trimmed_name (f a) /\ (List.length (f a) <= 1)%nat) ->
  Forall trimmed_name (flat_map f l)
  /\ (List.length (flat_map f l) <= List.length l)%nat.
Proof.
  intros H. induction l as [|a l [IH1 IH2]]; simpl; [split; [constructor|lia]|].
  destruct (H a) as [H1 H2]. split.
  - apply Forall_app. split; assumption.
  - rewrite length_app. lia.
Qed.

(** X19. The evidence texts that [_compose_experience_evidence] and
    [_compose_education_evidence] build are not empty and are trimmed, so
    the cleaning step of [_score_requirements] keeps them as they are;
    there is at most one text per work experience and per education
    entry. *)
Theorem composed_evidence_is_clean :
  forall resume_data : ResumeData,
    clean_evidence (_compose_experience_evidence resume_data)
    = _compose_experience_evidence resume_data
    /\ clean_evidence (_compose_education_evidence resume_data)
       = _compose_education_evidence resume_data
    /\ (List.length (_compose_experience_evidence resume_data)
        <= List.length (work_experience resume_data))%nat
    /\ (List.length (_compose_education_evidence resume_data)
        <= List.length (education resume_data))%nat.
Proof.
  intros resume_data.
  unfold _compose_experience_evidence, _compose_education_evidence.
  destruct (flat_map_trimmed _
              (fun item => compose_parts [role item; we_company item; tasks item])
              (work_experience resume_data)
              (fun a => compose_parts_trimmed _)) as [H1 H2].
  destruct (flat_map_trimmed _
              (fun item =>
                 compose_parts [degree item; school item; year item; gpa item])
              (education resume_data)
              (fun a => compose_parts_trimmed _)) as [H3 H4].
  split; [apply clean_evidence_fixed; exact H1|].
  split; [apply clean_evidence_fixed; exact H3|].
  split; assumption.
Qed.

End EvidenceFacts.

(** ** Suggestions and the resume text of the review prompt *)

Module SuggestionFacts.

Import Py AiService AiSuggestions UserJobs Samples MoreSamples Expected.
Import TextFacts NormalizeFacts.
Open Scope string_scope.

Lemma advise_cases (missing_summary : list (string * list string))
    (key lead fallback : string) (suggestions : list string) :
  (summary_get missing_summary key = []
   /\ advise missing_summary key lead fallback suggestions = suggestions)
  \/ (summary_get missing_summary key <> []
      /\ exists s,
           advise missing_summary key lead fallback suggestions
           = (suggestions ++ [s])%list).
Proof.
  unfold advise.
  destruct (summary_get missing_summary key) as [|x l].
  - left. split; reflexivity.
  - right. split; [discriminate|]. eexists. reflexivity.
Qed.

(** X20. [_generate_suggestions] returns at least one suggestion and at
    most three; when no dimension lists anything missing it returns the
    two general suggestions. *)
Theorem suggestions_are_one_to_three :
  forall (resume_text job_description : string)
         (missing_summary : list (string * list string)),
    let suggestions :=
      _generate_suggestions resume_text job_description missing_summary in
    (1 <= List.length suggestions <= 3)%nat
    /\ ((forall key, In key ["skills"; "experience"; "education"; "keywords"] ->
                     summary_get missing_summary key = []) ->
        suggestions = default_suggestions).
Proof.
  intros resume_text job_description missing_summary suggestions.
  unfold suggestions, _generate_suggestions. split.
  - repeat match goal with
           | |- context [advise ?ms ?k ?l ?f ?s] =>
               let H := fresh "H" in
               let x := fresh "x" in
               destruct (advise_cases ms k l f s) as [[_ H]|[_ [x H]]];
               rewrite H; clear H
           end;
      simpl; lia.
  - intros H.
    unfold advise.
    assert (E1 : summary_get missing_summary "skills" = [])
      by (apply H; simpl; tauto).
    assert (E2 : summary_get missing_summary "experience" = [])
      by (apply H; simpl; tauto).
    assert (E3 : summary_get missing_summary "education" = [])
      by (apply H; simpl; tauto).
    assert (E4 : summary_get missing_summary "keywords" = [])
      by (apply H; simpl; tauto).
    rewrite E1, E2, E3, E4. reflexivity.
Qed.

(** X21. When skills, experience and education all list something
    missing, the three suggestions are theirs: what is listed under
    "keywords" has no effect on the result. *)
Theorem keywords_advice_needs_room :
  forall (resume_text job_description : string)
         (missing_summary : list (string * list string))
         (keywords : list string),
    summary_get missing_summary "skills" <> [] ->
    summary_get missing_summary "experience" <> [] ->
    summary_get missing_summary "education" <> [] ->
    _generate_suggestions resume_text job_description
      (dict_set missing_summary "keywords" keywords)
    = _generate_suggestions resume_text job_description missing_summary
    /\ List.length
         (_generate_suggestions resume_text job_description missing_summary)
       = 3%nat.
Proof.
  intros resume_text job_description missing_summary keywords H1 H2 H3.
  assert (Hget : forall key, key <> "keywords" ->
             summary_get (dict_set missing_summary "keywords" keywords) key
             = summary_get missing_summary key).
  { intros key Hk. unfold summary_get. rewrite LinkFacts.dict_get_set.
    destruct (String.eqb_spec "keywords" key) as [E|E]; [congruence|].
    reflexivity. }
  unfold _generate_suggestions, advise.
  rewrite (Hget "skills"), (Hget "experience"), (Hget "education")
    by discriminate.
  destruct (summary_get missing_summary "skills") as [|s1 l1]; [congruence|].
  destruct (summary_get missing_summary "experience") as [|s2 l2];
    [congruence|].
  destruct (summary_get missing_summary "education") as [|s3 l3];
    [congruence|].
  destruct (summary_get (dict_set missing_summary "keywords" keywords)
              "keywords");
    destruct (summary_get missing_summary "keywords"); split; reflexivity.
Qed.

Lemma keywords_advice_needs_room_witness :
  summary_get three_missing "skills" <> []
  /\ summary_get three_missing "experience" <> []
  /\ summary_get three_missing "education" <> []
  /\ _generate_suggestions "" ""
       (dict_set three_missing "keywords" ["Kubernetes"])
     = _generate_suggestions "" "" three_missing
  /\ List.length (_generate_suggestions "" "" three_missing) = 3%nat.
Proof.
  assert (H1 : summary_get three_missing "skills" <> []) by discriminate.
  assert (H2 : summary_get three_missing "experience" <> []) by discriminate.
  assert (H3 : summary_get three_missing "education" <> []) by discriminate.
  split; [exact H1|]. split; [exact H2|]. split; [exact H3|].
  exact (keywords_advice_needs_room "" "" three_missing ["Kubernetes"]
           H1 H2 H3).
Defined.

(** *** Suggestions computed from a scoring result *)

Lemma summarize_loop_prefix (max_items : nat) (items : list string) :
  forall seen : list string,
    exists tail, summarize_loop max_items items seen = (seen ++ tail)%list.
Proof.
  induction items as [|entry rest IH]; intros seen; simpl.
  - exists []. rewrite app_nil_r. reflexivity.
  - set (seen' := if PyStr.nonempty (PyStr.strip entry)
                     && negb (PyStr.mem (PyStr.strip entry) seen)
                  then (seen ++ [PyStr.strip entry])%list else seen).
    assert (Hs : exists t, seen' = (seen ++ t)%list).
    { unfold seen'. destruct (_ && _); [eexists; reflexivity|].
      exists []. rewrite app_nil_r. reflexivity. }
    destruct Hs as [t Ht].
    destruct (max_items <=? List.length seen')%nat.
    + exists t. exact Ht.
    + destruct (IH seen') as [tail Htail]. rewrite Htail, Ht.
      exists (t ++ tail)%list. rewrite app_assoc. reflexivity.
Qed.

Lemma summarize_names (x : string) (rest : list string) :
  trimmed_name x -> PyStr.nonempty (_summarize (x :: rest)) = true.
Proof.
  intros [Hne Hs]. unfold _summarize. simpl. rewrite Hs.
  apply nonempty_true in Hne. rewrite Hne. simpl.
  destruct (summarize_loop_prefix 5 rest [x]) as [tail Ht]. rewrite Ht.
  destruct x as [|c x']; [discriminate Hne|].
  simpl. destruct tail; reflexivity.
Qed.

Lemma clean_requirements_trimmed (label_field : string)
    (requirements : list dict) :
  Forall (fun item => trimmed_name (label item))
         (clean_requirements label_field requirements).
Proof.
  induction requirements as [|item rest IH]; simpl; [constructor|].
  destruct (PyStr.nonempty (PyStr.strip (str_or_empty (get item label_field))))
    eqn:E; [|exact IH].
  constructor; [|exact IH]. simpl.
  split; [apply nonempty_true; exact E|apply strip_idem].
Qed.

Lemma score_requirements_names (embed : provider) (requirements : list dict)
    (evidence_texts : list string) (label_field : string)
    (threshold : float) (r : DimensionResult) :
  _score_requirements embed requirements evidence_texts label_field threshold
  = Ok r ->
  Forall (fun entry => trimmed_name (requirement entry)) (missing r).
Proof.
  intros H.
  apply MatchingFacts.score_requirements_split in H.
  destruct H as [Hp _].
  apply Forall_forall. intros entry Hin.
  assert (Hk : In (entry_key entry)
                  (map requirement_key
                       (clean_requirements label_field requirements))).
  { apply (Permutation_in _ Hp). apply in_map. apply in_or_app.
    right. exact Hin. }
  apply in_map_iff in Hk. destruct Hk as [item [Hk Hitem]].
  pose proof (clean_requirements_trimmed label_field requirements) as Ht.
  rewrite Forall_forall in Ht. specialize (Ht item Hitem).
  unfold entry_key, requirement_key in Hk.
  injection Hk as Hl _. rewrite <- Hl. exact Ht.
Qed.

Lemma listed_names (l : list MatchEntry) :
  Forall (fun entry => trimmed_name (requirement entry)) l ->
  map requirement
      (filter (fun item => PyStr.nonempty (requirement item))
              (map clean_entry l))
  = map requirement l.
Proof.
  induction l as [|entry l IH]; intros H; [reflexivity|].
  inversion H as [|? ? [Hne _] Hl]; subst. simpl.
  apply nonempty_true in Hne. rewrite Hne. simpl. rewrite (IH Hl).
  reflexivity.
Qed.

Lemma advise_skipped (missing_summary : list (string * list string))
    (key lead fallback : string) (suggestions : list string) :
  summary_get missing_summary key = [] ->
  advise missing_summary key lead fallback suggestions = suggestions.
Proof. intros H. unfold advise. rewrite H. reflexivity. Qed.

Lemma advise_named (missing_summary : list (string * list string))
    (key lead fallback : string) (suggestions : list string)
    (x : string) (rest : list string) :
  summary_get missing_summary key = x :: rest ->
  trimmed_name x ->
  advise missing_summary key lead fallback suggestions
  = (suggestions ++ [(lead ++ _summarize (x :: rest) ++ ".")%string])%list.
Proof.
  intros H Hx. unfold advise. rewrite H.
  rewrite (summarize_names x rest Hx). reflexivity.
Qed.

Lemma summary_of_breakdown (r1 r2 r3 r4 : DimensionResult) :
  let summary :=
    _summarize_missing_items
      [("skills", r1); ("experience", r2); ("education", r3);
       ("keywords", r4)] in
  let names r :=
    map requirement
        (filter (fun item => PyStr.nonempty (requirement item)) (missing r)) in
  summary_get summary "skills" = names r1
  /\ summary_get summary "experience" = names r2
  /\ summary_get summary "education" = names r3
  /\ summary_get summary "keywords" = names r4.
Proof.
  unfold _summarize_missing_items. cbn [fold_left fst snd].
  destruct (missing r1); destruct (missing r2); destruct (missing r3);
    destruct (missing r4); repeat split; reflexivity.
Qed.

(** X22. For the breakdown that [score_resume_against_job] returns, as
    [analyze_resume_with_ai] passes it on: the suggestions are the two
    general ones exactly when no dimension has a missing requirement, and
    none of the four sentences that stand in for an empty list of names
    is ever produced, since every missing requirement carries a trimmed,
    non-empty name. *)
Theorem suggestions_name_the_missing_requirements :
  forall (embed : provider) (resume_data : ResumeData) (job_data : JobData)
         (resume_text job_description : string) (scoring : OverallScore),
    score_resume_against_job embed resume_data job_data resume_text
    = Ok scoring ->
    let suggestions :=
      _generate_suggestions resume_text job_description
        (_summarize_missing_items (breakdown scoring)) in
    (suggestions = default_suggestions
     <-> Forall (fun kv => missing (snd kv) = []) (breakdown scoring))
    /\ (forall x, In x suggestions -> ~ In x fallback_suggestions).
Proof.
  intros embed resume_data job_data resume_text job_description scoring H.
  unfold score_resume_against_job, _score_keywords in H.
  destruct (_score_requirements embed (jd_skills job_data) _ _ _)
    as [r1|e] eqn:E1; [|discriminate H]. simpl bind in H.
  destruct (_score_requirements embed (jd_experience job_data) _ _ _)
    as [r2|e] eqn:E2; [|discriminate H]. simpl bind in H.
  destruct (_score_requirements embed (jd_education job_data) _ _ _)
    as [r3|e] eqn:E3; [|discriminate H]. simpl bind in H.
  destruct (_score_requirements embed (jd_keywords job_data) _ _ _)
    as [r4|e] eqn:E4; [|discriminate H]. simpl bind in H.
  destruct (overall_score_of _) as [overall|e]; [|discriminate H].
  simpl bind in H. injection H as <-.
  cbn [breakdown]. unfold make_breakdown. cbn [map fst snd].
  apply score_requirements_names in E1, E2, E3, E4.
  destruct (summary_of_breakdown (clean_result r1) (clean_result r2)
              (clean_result r3) (clean_result r4)) as [S1 [S2 [S3 S4]]].
  cbn [clean_result missing] in S1, S2, S3, S4.
  rewrite listed_names in S1, S2, S3, S4 by assumption.
  unfold _generate_suggestions. cbn [clean_result missing].
  assert (Hnil : forall l : list MatchEntry,
             map clean_entry l = [] <-> l = []).
  { intros [|a l]; simpl; split; congruence. }
  assert (HF : Forall (fun kv : string * DimensionResult =>
                         missing (snd kv) = [])
                      [("skills", clean_result r1);
                       ("experience", clean_result r2);
                       ("education", clean_result r3);
                       ("keywords", clean_result r4)]
               <-> missing r1 = [] /\ missing r2 = [] /\ missing r3 = []
                   /\ missing r4 = []).
  { rewrite !Forall_cons_iff. cbn [snd clean_result missing].
    rewrite !Hnil. pose proof (Forall_nil
      (fun kv : string * DimensionResult => missing (snd kv) = [])). tauto. }
  rewrite HF. clear HF.
  destruct (missing r1) as [|a1 l1]; destruct (missing r2) as [|a2 l2];
    destruct (missing r3) as [|a3 l3]; destruct (missing r4) as [|a4 l4];
    cbn [map] in S1, S2, S3, S4;
    repeat match goal with
           | Hf : Forall _ (_ :: _) |- _ =>
               let Ha := fresh "Ha" in
               let Hl := fresh "Hl" in
               inversion Hf as [|? ? Ha Hl]; subst; clear Hf Hl
           end;
    repeat match goal with
           | Hs : summary_get _ ?k = [] |- context [advise _ ?k _ _ _] =>
               rewrite (advise_skipped _ k _ _ _ Hs)
           | Hs : summary_get _ ?k = requirement ?a :: _,
             Ht : trimmed_name (requirement ?a)
             |- context [advise _ ?k _ _ _] =>
               rewrite (advise_named _ k _ _ _ _ _ Hs Ht)
           end;
    repeat match goal with
           | |- context [_summarize ?l] => generalize (_summarize l); intro
           end;
    (split;
     [ split; intros Hd;
       [ try (cbn [app firstn] in Hd; discriminate Hd); tauto
       | try reflexivity; exfalso;
         destruct Hd as [D1 [D2 [D3 D4]]];
         first [discriminate D1|discriminate D2|discriminate D3
               |discriminate D4] ]
     | cbn [app firstn default_suggestions]; intros x Hin Hfb;
       cbn [In fallback_suggestions] in Hin, Hfb;
       repeat match goal with
              | Hi : _ \/ _ |- _ => destruct Hi
              | Hi : False |- _ => destruct Hi
              end;
       subst; cbn [append] in *;
       match goal with
       | Hx : _ = _ |- _ => discriminate Hx
       end ]).
Qed.

(** The posting asks for python and docker and the resume shows python
    only: one suggestion, which names docker. *)
Lemma suggestions_name_the_missing_requirements_witness :
  exists scoring,
    score_resume_against_job (table_provider skill_vectors) python_resume
      python_docker_posting "" = Ok scoring
    /\ _generate_suggestions "" ""
         (_summarize_missing_items (breakdown scoring))
       = ["Highlight or add specific accomplishments that demonstrate: docker."]
    /\ (_generate_suggestions "" ""
          (_summarize_missing_items (breakdown scoring))
        = default_suggestions
        <-> Forall (fun kv => missing (snd kv) = []) (breakdown scoring))
    /\ (forall x,
          In x (_generate_suggestions "" ""
                  (_summarize_missing_items (breakdown scoring))) ->
          ~ In x fallback_suggestions).
Proof.
  eexists. split; [vm_compute; reflexivity|].
  split; [vm_compute; reflexivity|].
  exact (suggestions_name_the_missing_requirements
           (table_provider skill_vectors) python_resume python_docker_posting
           "" "" _ ltac:(vm_compute; reflexivity)).
Defined.

(** *** The resume text of the review prompt *)

Lemma length_append (s1 s2 : string) :
  String.length (s1 ++ s2) = (String.length s1 + String.length s2)%nat.
Proof. induction s1 as [|c s1 IH]; simpl; [reflexivity|]. rewrite IH. reflexivity. Qed.

Lemma length_take_exact (n : nat) (s : string) :
  (n <= String.length s)%nat -> String.length (PyStr.take n s) = n.
Proof.
  unfold PyStr.take. revert s.
  induction n as [|n IH]; intros [|c s]; simpl; try lia.
  intros H. rewrite IH by lia. reflexivity.
Qed.

Lemma take_take_append (n : nat) (s t : string) :
  (n <= String.length s)%nat ->
  PyStr.take n (PyStr.take n s ++ t) = PyStr.take n s.
Proof.
  unfold PyStr.take. revert s.
  induction n as [|n IH]; intros [|c s]; simpl; try lia.
  - intros _. destruct t; reflexivity.
  - intros _. destruct t; reflexivity.
  - intros H. rewrite IH by lia. reflexivity.
Qed.

(** X23. [_truncate_resume_text]: the result is never longer than the
    limit plus the 18 characters of the marker; a text that fits once
    trimmed is returned trimmed and whole; a longer one is cut to length
    limit + 18, and starts with the first [limit] characters of the
    trimmed text. *)
Theorem truncated_text_is_bounded :
  forall (text : string) (limit : nat),
    let snippet := PyStr.strip text in
    let out := _truncate_resume_text text limit in
    (String.length out <= limit + 18)%nat
    /\ ((String.length snippet <= limit)%nat -> out = snippet)
    /\ ((limit < String.length snippet)%nat ->
        String.length out = (limit + 18)%nat
        /\ PyStr.take limit out = PyStr.take limit snippet).
Proof.
  intros text limit snippet out. unfold out, _truncate_resume_text.
  fold snippet.
  destruct (String.length snippet <=? limit)%nat eqn:E.
  - apply Nat.leb_le in E. split; [lia|]. split; [reflexivity|lia].
  - apply Nat.leb_gt in E.
    assert (Hlen : String.length
                     (PyStr.take limit snippet
                      ++ String "010" "...[truncated]...")
                   = (limit + 18)%nat).
    { rewrite length_append, length_take_exact by lia. reflexivity. }
    split; [lia|]. split; [lia|]. intros _. split; [exact Hlen|].
    apply take_take_append. lia.
Qed.

End SuggestionFacts.
